(** * bitfocusas/api: the endpoint pipeline of [src/api-server.ts]

    A shallow embedding of the request pipeline that [APIServer.createEndpoint]
    registers (bearer-token pre-handler, request validation, handler call,
    response guard) together with the error classes of [src/validate.ts],
    and the properties of that pipeline.

    Conventions of the embedding.
    - JavaScript strings are [string]s of 8-bit characters; [toLowerCase]
      lowers the letters A-Z only.
    - JavaScript numbers are integers ([Z]); no schema of the fragment
      below does arithmetic on them.
    - An object is an association list in insertion order; reading a
      missing property gives [VUndefined].  Values are finite trees: an
      object that reaches itself through its properties is not one of
      them.
    - [async]/[await] is sequential composition: every [await] of the
      source is on the value produced by the statement itself.
    - The framework (Fastify with its zod type provider) is modelled as
      far as a route of [createEndpoint] uses it: the validation of the
      request by the schemas of the route, the pre-handler hook, the
      route handler, and the serialisation of the reply by the response
      schema registered for its status code.  The plugins that the
      constructor registers (CORS, helmet, rate limit, metrics, Swagger)
      are not modelled: a request is one that they let through. *)

From Stdlib Require Import String Ascii List ZArith Bool Lia Sorted.
From Stdlib Require Import DecimalString.
From Stdlib Require DecimalNat DecimalFacts.
Import ListNotations.
Open Scope string_scope.
Open Scope list_scope.

Set Implicit Arguments.
Set Warnings "-register-all".

(** ** JavaScript values and the string primitives the source calls *)

Inductive value : Type :=
| VUndefined
| VNull
| VBool (b : bool)
| VNum (n : Z)
| VBigInt (n : Z)
| VStr (s : string)
| VArr (items : list value)
| VObj (fields : list (string * value)).

Definition isUndefined (v : value) : bool :=
  match v with VUndefined => true | _ => false end.

(** [!!v] *)
Definition truthy (v : value) : bool :=
  match v with
  | VUndefined | VNull => false
  | VBool b => b
  | VNum n | VBigInt n => negb (Z.eqb n 0)
  | VStr s => negb (String.eqb s "")
  | VArr _ | VObj _ => true
  end.

(** [JSON.stringify(v)] throws a [TypeError] exactly when [v] holds a
    BigInt. *)
Fixpoint hasBigInt (v : value) : bool :=
  match v with
  | VBigInt _ => true
  | VArr items => existsb hasBigInt items
  | VObj fields => existsb (fun kv => hasBigInt (snd kv)) fields
  | _ => false
  end.

(** [obj[key]] *)
Fixpoint getProp (fields : list (string * value)) (key : string) : value :=
  match fields with
  | [] => VUndefined
  | (k, v) :: rest => if String.eqb k key then v else getProp rest key
  end.

(** [key in obj] *)
Definition hasKey (fields : list (string * value)) (key : string) : bool :=
  existsb (String.eqb key) (map fst fields).

(** [!s] for a value of type [string | undefined]: absent or empty. *)
Definition falsy (s : option string) : bool :=
  match s with
  | None => true
  | Some s => String.eqb s ""
  end.

(** [a || b] for an optional string [a] and a string [b]. *)
Definition orElse (a : option string) (b : string) : string :=
  match a with
  | Some s => if String.eqb s "" then b else s
  | None => b
  end.

Definition lowerChar (c : ascii) : ascii :=
  let n := nat_of_ascii c in
  if andb (Nat.leb 65 n) (Nat.leb n 90) then ascii_of_nat (n + 32) else c.

(** [s.toLowerCase()] *)
Fixpoint toLowerCase (s : string) : string :=
  match s with
  | EmptyString => EmptyString
  | String c rest => String (lowerChar c) (toLowerCase rest)
  end.

(** [s.replace(/^\//, '')] *)
Definition replaceLeadingSlash (s : string) : string :=
  match s with
  | String "/"%char rest => rest
  | _ => s
  end.

(** [s.replace(/\//g, '_')] *)
Fixpoint replaceSlashes (s : string) : string :=
  match s with
  | EmptyString => EmptyString
  | String c rest =>
      String (if Ascii.eqb c "/"%char then "_"%char else c) (replaceSlashes rest)
  end.

(** [s.split(sep)] for a one-character separator. *)
Fixpoint split (sep : ascii) (s : string) : list string :=
  match s with
  | EmptyString => [EmptyString]
  | String c rest =>
      if Ascii.eqb c sep then EmptyString :: split sep rest
      else match split sep rest with
           | seg :: segs => String c seg :: segs
           | [] => [String c EmptyString]
           end
  end.

(** [parts.join(sep)] *)
Definition join (sep : string) (parts : list string) : string :=
  String.concat sep parts.

(** [s.includes(c)] for a character [c] *)
Definition hasChar (c : ascii) (s : string) : bool :=
  existsb (Ascii.eqb c) (list_ascii_of_string s).

(** ** [generateOperationId] (api-server.ts, lines 31-36) *)

Definition generateOperationId (url method : string) : string :=
  let cleanUrl := toLowerCase (replaceLeadingSlash url) in
  let pathPart := replaceSlashes cleanUrl in
  let methodPart := toLowerCase method in
  pathPart ++ "_" ++ methodPart.

(** ** The zod interface used by the source

    [api-server.ts] uses three things of a zod schema: [safeParse],
    the test [schema instanceof z.ZodObject] and [schema.strict()].  The
    pipeline is written against this interface; a fragment of the library
    (objects, primitives, optional, default, transform) is given below as
    an instance.  [safeParse] is taken as a function that returns a
    result, as it is for a schema whose transforms and refinements
    return: a transform that throws is outside the interface. *)

Record ZodIssue : Type := mkIssue {
  issue_code : string;
  issue_path : list string;
  issue_message : string
}.

Inductive SafeParseReturn : Type :=
| SafeParseSuccess (data : value)
| SafeParseError (errors : list ZodIssue).

Class ZodTypeAny (Schema : Type) : Type := {
  safeParse : Schema -> value -> SafeParseReturn;
  instanceofZodObject : Schema -> bool;
  strict : Schema -> Schema
}.

(** *** A fragment of zod 3

    [z.string()], [z.string().min(n)], [z.number()], [z.boolean()],
    [s.optional()], [s.default(d)], [z.object(shape)] with its three
    unknown-key policies, and [s.transform(f)].  The issue messages are
    those of the library's default error map. *)

Inductive UnknownKeys : Type := Strip | Strict | Passthrough.

Inductive ZodType : Type :=
| ZodString (minLength : option nat)
| ZodNumber
| ZodBoolean
| ZodOptional (innerType : ZodType)
| ZodDefault (innerType : ZodType) (defaultValue : value)
| ZodObject (shape : list (string * ZodType)) (unknownKeys : UnknownKeys)
| ZodEffects (schema : ZodType) (transform : value -> value).

Definition getParsedType (v : value) : string :=
  match v with
  | VUndefined => "undefined"
  | VNull => "null"
  | VBool _ => "boolean"
  | VNum _ => "number"
  | VBigInt _ => "bigint"
  | VStr _ => "string"
  | VArr _ => "array"
  | VObj _ => "object"
  end.

Definition invalidType (expected : string) (p : list string) (input : value) : ZodIssue :=
  mkIssue "invalid_type" p
    (if isUndefined input then "Required"
     else "Expected " ++ expected ++ ", received " ++ getParsedType input).

Definition natToString (n : nat) : string :=
  NilEmpty.string_of_uint (Nat.to_uint n).

Definition tooSmall (minimum : nat) (p : list string) : ZodIssue :=
  mkIssue "too_small" p
    ("String must contain at least " ++ natToString minimum ++ " character(s)").

Definition quoteKey (k : string) : string := "'" ++ k ++ "'".

(** [util.joinValues(keys, ", ")] *)
Definition joinValues (keys : list string) : string :=
  join ", " (map quoteKey keys).

Definition unrecognizedKeys (keys : list string) (p : list string) : ZodIssue :=
  mkIssue "unrecognized_keys" p
    ("Unrecognized key(s) in object: " ++ joinValues keys).

Inductive ParseReturn : Type :=
| Valid (data : value)
| Invalid (issues : list ZodIssue).

Definition shapeKeys (shape : list (string * ZodType)) : list string :=
  map fst shape.

Definition inKeys (keys : list string) (k : string) : bool :=
  existsb (String.eqb k) keys.

(** The keys of the input that the shape does not declare. *)
Definition extraKeysOf (shape : list (string * ZodType))
    (fields : list (string * value)) : list string :=
  filter (fun k => negb (inKeys (shapeKeys shape) k)) (map fst fields).

Definition extraPairsOf (shape : list (string * ZodType))
    (fields : list (string * value)) : list (string * value) :=
  filter (fun kv => negb (inKeys (shapeKeys shape) (fst kv))) fields.

(** The loop of [ZodObject._parse] over the declared keys: the issues
    found, in shape order, and the pairs of the result object.  A declared
    key is set when its parsed value is defined or the key was in the
    input. *)
Section ParseShape.
Variable parseKey : ZodType -> list string -> value -> ParseReturn.
Variable p : list string.
Variable fields : list (string * value).

Fixpoint parseShape (sh : list (string * ZodType))
    : list ZodIssue * list (string * value) :=
  match sh with
  | [] => ([], [])
  | (key, keyValidator) :: rest =>
      let r := parseKey keyValidator (p ++ [key]) (getProp fields key) in
      let '(issues, pairs) := parseShape rest in
      match r with
      | Valid v =>
          (issues,
           if orb (negb (isUndefined v)) (hasKey fields key)
           then (key, v) :: pairs else pairs)
      | Invalid found => (found ++ issues, pairs)
      end
  end.
End ParseShape.

(** What [ZodObject._parse] does after the loop: a strict schema reports
    the undeclared keys, a passthrough schema copies them. *)
Definition finishObject (shape : list (string * ZodType)) (unknownKeys : UnknownKeys)
    (p : list string) (fields : list (string * value))
    (looped : list ZodIssue * list (string * value)) : ParseReturn :=
  let '(issues, pairs) := looped in
  let extraKeys := extraKeysOf shape fields in
  let issues' :=
    match unknownKeys, extraKeys with
    | Strict, _ :: _ => issues ++ [unrecognizedKeys extraKeys p]
    | _, _ => issues
    end in
  match issues' with
  | [] => Valid (VObj (match unknownKeys with
                       | Passthrough => pairs ++ extraPairsOf shape fields
                       | _ => pairs
                       end))
  | _ :: _ => Invalid issues'
  end.

(** [schema._parse(input)] at the given path. *)
Fixpoint _parse (schema : ZodType) (p : list string) (input : value)
    {struct schema} : ParseReturn :=
  match schema with
  | ZodString minLength =>
      match input with
      | VStr s =>
          match minLength with
          | Some n => if Nat.ltb (String.length s) n
                      then Invalid [tooSmall n p] else Valid input
          | None => Valid input
          end
      | _ => Invalid [invalidType "string" p input]
      end
  | ZodNumber =>
      match input with
      | VNum _ => Valid input
      | _ => Invalid [invalidType "number" p input]
      end
  | ZodBoolean =>
      match input with
      | VBool _ => Valid input
      | _ => Invalid [invalidType "boolean" p input]
      end
  | ZodOptional innerType =>
      if isUndefined input then Valid VUndefined else _parse innerType p input
  | ZodDefault innerType defaultValue =>
      _parse innerType p (if isUndefined input then defaultValue else input)
  | ZodObject shape unknownKeys =>
      match input with
      | VObj fields =>
          finishObject shape unknownKeys p fields
            (parseShape _parse p fields shape)
      | _ => Invalid [invalidType "object" p input]
      end
  | ZodEffects inner transform =>
      match _parse inner p input with
      | Valid data => Valid (transform data)
      | Invalid issues => Invalid issues
      end
  end.

Definition zodSafeParse (schema : ZodType) (input : value) : SafeParseReturn :=
  match _parse schema [] input with
  | Valid data => SafeParseSuccess data
  | Invalid issues => SafeParseError issues
  end.

Definition zodIsObject (schema : ZodType) : bool :=
  match schema with ZodObject _ _ => true | _ => false end.

(** [schema.strict()] of an object schema: same shape, policy [Strict]. *)
Definition zodStrict (schema : ZodType) : ZodType :=
  match schema with
  | ZodObject shape _ => ZodObject shape Strict
  | _ => schema
  end.

#[export] Instance ZodType_ZodTypeAny : ZodTypeAny ZodType := {
  safeParse := zodSafeParse;
  instanceofZodObject := zodIsObject;
  strict := zodStrict
}.

(** ** The error classes of [src/validate.ts]

    [ValidationError], [ResponseValidationError] and [NotFoundError] with
    the arguments of their constructors; [OtherError] stands for every
    other thrown value. *)

Record FieldError : Type := mkFieldError {
  field : string;
  message : string
}.

Inductive JsError : Type :=
| ValidationError (details : list FieldError)
| ResponseValidationError (details : list FieldError)
| NotFoundError (msg : string)
| OtherError (name msg : string).

Definition errorName (e : JsError) : string :=
  match e with
  | ValidationError _ => "ValidationError"
  | ResponseValidationError _ => "ResponseValidationError"
  | NotFoundError _ => "NotFoundError"
  | OtherError name _ => name
  end.

Definition errorMessage (e : JsError) : string :=
  match e with
  | ValidationError _ => "Validation failed"
  | ResponseValidationError _ =>
      "Response validation failed - server returned invalid data"
  | NotFoundError msg => msg
  | OtherError _ msg => msg
  end.

Definition errorStatusCode (e : JsError) : option Z :=
  match e with
  | ValidationError _ => Some 400%Z
  | ResponseValidationError _ => Some 500%Z
  | NotFoundError _ => Some 404%Z
  | OtherError _ _ => None
  end.

(** ** Requests, replies and the effects of a request *)

Inductive HttpMethod : Type := GET | POST | PUT | DELETE | PATCH.

Definition methodName (m : HttpMethod) : string :=
  match m with
  | GET => "GET" | POST => "POST" | PUT => "PUT"
  | DELETE => "DELETE" | PATCH => "PATCH"
  end.

(** The data of a request that the source reads or overwrites.
    [r_url], [r_method] and [r_authorization] are the URL, the method and
    the Authorization header of the raw message, which [request.url],
    [request.method] and [request.headers.authorization] read.  The copy
    [{...request}] that the handler receives keeps the raw message (its
    own property [raw]) and loses these three getters: the data reach the
    handler, under [raw]. *)
Record FastifyRequest : Type := mkRequest {
  r_url : string;
  r_method : string;
  r_authorization : option string;
  r_query : value;
  r_body : value;
  r_params : value;
  r_auth : value
}.

(** The JSON object given to [reply.send]:
    [{statusCode, error, message, details?}]. *)
Record ErrorPayload : Type := mkPayload {
  statusCode : Z;
  error : string;
  payloadMessage : string;
  payloadDetails : option (list FieldError)
}.

(** The object literals given to [reply.send], as values. *)
Definition fieldErrorValue (d : FieldError) : value :=
  VObj [("field", VStr (field d)); ("message", VStr (message d))].

Definition payloadValue (payload : ErrorPayload) : value :=
  VObj ([("statusCode", VNum (statusCode payload));
         ("error", VStr (error payload));
         ("message", VStr (payloadMessage payload))]
        ++ match payloadDetails payload with
           | Some details => [("details", VArr (map fieldErrorValue details))]
           | None => []
           end).

(** What a route handler resolves to: the value the framework will
    send, or the reply on which [code(..).send(..)] was called. *)
Inductive HandlerReturn : Type :=
| Returned (result : value)
| Replied (code : Z) (payload : ErrorPayload).

(** What the pre-handler hook resolves to: the reply it sent, or nothing,
    leaving the (possibly updated) request to the route handler. *)
Inductive HookReturn : Type :=
| HookReplied (code : Z) (payload : ErrorPayload)
| HookDone (request : FastifyRequest).

Inductive Part : Type := PQuery | PBody | PParams.

Definition partName (part : Part) : string :=
  match part with
  | PQuery => "query" | PBody => "body" | PParams => "params"
  end.

(** What the client gets for a request.
    - [Transmitted code body]: a reply sent with [reply.send], with the
      body the serialiser of the route made of its payload.
    - [SchemaError part issues]: the framework's own reply to a request
      that fails a schema of the route: status 400, code
      [FST_ERR_VALIDATION], for the issues of that part.
    - [SerialisationError code issues]: a payload sent with status [code]
      failed the response schema registered for that status; the
      framework answers with an error of its own.
    - [ServerError e]: [e] reached the framework's error handler before
      any reply was sent.
    - [NoReply]: nothing was sent. *)
Inductive Response : Type :=
| Transmitted (code : Z) (body : value)
| SchemaError (part : Part) (issues : list ZodIssue)
| SerialisationError (code : Z) (issues : list ZodIssue)
| ServerError (e : JsError)
| NoReply.

(** The object serialised by [console.error] when the response guard
    fails: [{url, method, errors, response}]. *)
Record ConsoleEntry : Type := mkConsoleEntry {
  log_label : string;
  log_url : string;
  log_method : string;
  log_errors : list ZodIssue;
  log_response : value
}.

(** The steps of one request, in the order they are taken.
    [EvValidate] is the framework's validation of a part by the schema
    of the route, [EvSafeParse] the parse of a part in the route handler,
    [EvTransmit] the transmission of the response. *)
Inductive Event : Type :=
| EvValidate (part : Part)
| EvAuthCheck
| EvValidatorCall (token : string)
| EvSafeParse (part : Part)
| EvHandlerCall (typedRequest : FastifyRequest)
| EvResponseGuard
| EvReplySend (code : Z)
| EvReturn
| EvTransmit.

(** The place of a step in the order of the pipeline. *)
Definition stepIndex (e : Event) : nat :=
  match e with
  | EvValidate PParams => 0
  | EvValidate PBody => 1
  | EvValidate PQuery => 2
  | EvAuthCheck => 3
  | EvValidatorCall _ => 4
  | EvSafeParse PQuery => 5
  | EvSafeParse PBody => 6
  | EvSafeParse PParams => 7
  | EvHandlerCall _ => 8
  | EvResponseGuard => 9
  | EvReplySend _ => 10
  | EvReturn => 10
  | EvTransmit => 11
  end.

(** A step of the validator function of the pre-handler. *)
Definition validatorStep (e : Event) : Prop := stepIndex e = 4.

Definition isHandlerCall (e : Event) : bool :=
  match e with EvHandlerCall _ => true | _ => false end.

(** How a statement ends: with a value, or with a thrown error. *)
Inductive Completion (A : Type) : Type :=
| Normal (a : A)
| Throws (e : JsError).
Arguments Normal {A} a.
Arguments Throws {A} e.

Section Server.
Context {St : Type}.

(** What a request can touch: the console, the state owned by the
    caller's handlers, the reply of the request, and a journal of the
    steps taken.  Of the reply the world keeps [sent]: the status code
    and the payload of the first [send], which is the one that counts.
    The journal is not in the source; it is written at the places where
    the source takes the step, and the properties about order and about
    what the handler receives are stated on it. *)
Record World : Type := mkWorld {
  console : list ConsoleEntry;
  journal : list Event;
  store : St;
  sent : option (Z * value)
}.

(** A computation of the request: it may throw and it changes the
    world; [await] is its sequencing. *)
Definition M (A : Type) : Type := World -> Completion A * World.

Definition ret {A} (a : A) : M A := fun w => (Normal a, w).

Definition bind {A B} (m : M A) (k : A -> M B) : M B :=
  fun w =>
    match m w with
    | (Normal a, w') => k a w'
    | (Throws e, w') => (Throws e, w')
    end.

Definition throw {A} (e : JsError) : M A := fun w => (Throws e, w).

Definition tryCatch {A} (m : M A) (handler : JsError -> M A) : M A :=
  fun w =>
    match m w with
    | (Normal a, w') => (Normal a, w')
    | (Throws e, w') => handler e w'
    end.

Definition emit (e : Event) : M unit :=
  fun w => (Normal tt, mkWorld (console w) (journal w ++ [e]) (store w) (sent w)).

Definition emitAll (steps : list Event) : M unit :=
  fun w => (Normal tt, mkWorld (console w) (journal w ++ steps) (store w) (sent w)).

Definition consoleError (entry : ConsoleEntry) : M unit :=
  fun w => (Normal tt, mkWorld (console w ++ [entry]) (journal w) (store w) (sent w)).

(** The effect of [reply.code(code).send(payload)] on the reply: the
    first [send] is the response; on a reply that was sent already the
    framework only logs a warning. *)
Definition firstSend (previous : option (Z * value)) (code : Z) (payload : value)
    : option (Z * value) :=
  match previous with
  | Some reply => Some reply
  | None => Some (code, payload)
  end.

Definition send (code : Z) (payload : value) : M unit :=
  fun w =>
    (Normal tt,
     mkWorld (console w) (journal w) (store w) (firstSend (sent w) code payload)).

(** The same for the reply that a handler may send itself. *)
Definition ownSend (own : option (Z * value)) (previous : option (Z * value))
    : option (Z * value) :=
  match own with
  | Some (code, payload) => firstSend previous code payload
  | None => previous
  end.

(** [return reply.code(code).send(payload)] in the code of the library *)
Definition replySend {A} (k : Z -> ErrorPayload -> A) (code : Z)
    (payload : ErrorPayload) : M A :=
  bind (emit (EvReplySend code))
    (fun _ => bind (send code (payloadValue payload))
                (fun _ => ret (k code payload))).

(** A new request comes with a reply of its own. *)
Definition newReply : M unit :=
  fun w => (Normal tt, mkWorld (console w) (journal w) (store w) None).
End Server.

Arguments World St : clear implicits.
Arguments M St A : clear implicits.

Declare Scope js_scope.
Delimit Scope js_scope with js.
Notation "x <- m ;; k" := (bind m (fun x => k))
  (at level 100, m at next level, right associativity) : js_scope.
Notation "m ;;; k" := (bind m (fun _ => k))
  (at level 100, right associativity) : js_scope.

(** ** Server and endpoint configuration (api-server.ts, lines 41-156) *)

(** [AuthValidationResult]: [{valid, context?, error?}].  An absent
    [context] is [VUndefined]; [authError] is the field [error]. *)
Record AuthValidationResult : Type := mkAuthResult {
  valid : bool;
  context : value;
  authError : option string
}.

(** [apiToken: string | ApiTokenValidator].  A validator is taken as a
    function that returns a result: one that throws, or changes the state
    of the caller, is outside this type, and the properties that depend
    on the result of a validator say so. *)
Inductive ApiToken : Type :=
| TokenString (secret : string)
| TokenValidator (validator : string -> FastifyRequest -> AuthValidationResult).

Record APIServerConfig : Type := mkServerConfig {
  apiToken : ApiToken
}.

(** [config?: {operationId?: string, ...}]; the descriptive fields only
    feed the documentation. *)
Record RouteOptions : Type := mkRouteOptions {
  operationId : option string
}.

(** [request.auth = auth] *)
Definition setAuth (request : FastifyRequest) (auth : value) : FastifyRequest :=
  {| r_url := r_url request;
     r_method := r_method request;
     r_authorization := r_authorization request;
     r_query := r_query request;
     r_body := r_body request;
     r_params := r_params request;
     r_auth := auth |}.

(** [request[part] = v], as the framework does after its validation *)
Definition setPart (request : FastifyRequest) (part : Part) (v : value)
    : FastifyRequest :=
  {| r_url := r_url request;
     r_method := r_method request;
     r_authorization := r_authorization request;
     r_query := match part with PQuery => v | _ => r_query request end;
     r_body := match part with PBody => v | _ => r_body request end;
     r_params := match part with PParams => v | _ => r_params request end;
     r_auth := r_auth request |}.

(** ** The response schemas the library builds itself (validate.ts,
    lines 6-11; api-server.ts, lines 554-564) *)

(** [ErrorResponseSchema].  [z.number().int()] is [ZodNumber], the
    numbers of the embedding being integers; [describe] only annotates. *)
Definition ErrorResponseSchema : ZodType :=
  ZodObject [("statusCode", ZodNumber);
             ("code", ZodOptional (ZodString None));
             ("error", ZodString None);
             ("message", ZodString None)] Strip.

(** The schema of the 401 and 403 responses of an authenticated
    endpoint (lines 555-565). *)
Definition authErrorSchema : ZodType :=
  ZodObject [("statusCode", ZodNumber);
             ("error", ZodString None);
             ("message", ZodString None)] Strip.

Definition isGET (m : HttpMethod) : bool :=
  match m with GET => true | _ => false end.

(** The error [JSON.stringify] throws on a BigInt. *)
Definition stringifyError : JsError :=
  OtherError "TypeError" "Do not know how to serialize a BigInt".

(** ** The pipeline of [createEndpoint] (api-server.ts, lines 405-595) *)

Section Pipeline.
Context {Schema : Type} {zod : ZodTypeAny Schema} {St : Type}.
Local Open Scope js_scope.

(** [EndpointConfig].  A handler is called with the typed request and
    the reply.  It returns a value or throws, may change its own state,
    and may send the reply itself: the third component is the status code
    and the payload of [reply.code(..).send(..)] when the handler calls
    it, as the handlers of the README do.  Awaiting a handler that
    returns the reply gives [undefined].  A handler that only sets the
    status code or a header of the reply and leaves the sending to the
    framework is not among these: a returned value is sent with the
    status 200. *)
Record EndpointConfig : Type := mkEndpoint {
  method : HttpMethod;
  url : string;
  query : option Schema;
  body : option Schema;
  params : option Schema;
  response : Schema;
  config : option RouteOptions;
  authenticated : bool;
  handler : FastifyRequest -> St -> Completion value * St * option (Z * value)
}.

(** [applyStrict] (lines 20-25) *)
Definition applyStrict (schema : Schema) : Schema :=
  if instanceofZodObject schema then strict schema else schema.

(** [{field: `${part}.${err.path.join('.')}`, message: err.message}] *)
Definition requestFieldError (part : Part) (err : ZodIssue) : FieldError :=
  {| field := partName part ++ "." ++ join "." (issue_path err);
     message := issue_message err |}.

(** [{field: err.path.join('.') || 'root', message: err.message}] *)
Definition responseFieldError (err : ZodIssue) : FieldError :=
  {| field := orElse (Some (join "." (issue_path err))) "root";
     message := issue_message err |}.

(** One of the three blocks of lines 414-463, which differ in the name
    of the part only: an undeclared part is left [undefined]; a declared
    one is parsed by its strict schema, and a failure throws. *)
Definition validatePart (part : Part) (declared : option Schema)
    (raw : value) : M St value :=
  match declared with
  | Some schema =>
      let strictSchema := applyStrict schema in
      emit (EvSafeParse part) ;;;
      match safeParse strictSchema raw with
      | SafeParseError errors =>
          throw (ValidationError (map (requestFieldError part) errors))
      | SafeParseSuccess data => ret data
      end
  | None => ret VUndefined
  end.

(** [await endpointConfig.handler(typedRequest, reply)] (line 480) *)
Definition callHandler (endpointConfig : EndpointConfig)
    (typedRequest : FastifyRequest) : M St value :=
  emit (EvHandlerCall typedRequest) ;;;
  fun w =>
    let '(completion, store', own) := handler endpointConfig typedRequest (store w) in
    (completion, mkWorld (console w) (journal w) store' (ownSend own (sent w))).

(** [{...request, query, body, params, auth: request.auth}] *)
Definition typedRequestOf (request : FastifyRequest)
    (validatedQuery validatedBody validatedParams : value) : FastifyRequest :=
  {| r_url := r_url request;
     r_method := r_method request;
     r_authorization := r_authorization request;
     r_query := validatedQuery;
     r_body := validatedBody;
     r_params := validatedParams;
     r_auth := r_auth request |}.

(** The [try] block of [validatedHandler] (lines 414-506).  When the
    guard fails, [JSON.stringify] is evaluated before [console.error] is
    called and before the [ResponseValidationError] is thrown: on a
    result that holds a BigInt it throws instead. *)
Definition tryBlock (endpointConfig : EndpointConfig)
    (request : FastifyRequest) : M St HandlerReturn :=
    (validatedQuery <- validatePart PQuery (query endpointConfig) (r_query request) ;;
     validatedBody <- validatePart PBody (body endpointConfig) (r_body request) ;;
     validatedParams <- validatePart PParams (params endpointConfig) (r_params request) ;;
     let typedRequest :=
       typedRequestOf request validatedQuery validatedBody validatedParams in
     result <- callHandler endpointConfig typedRequest ;;
     let strictResponse := applyStrict (response endpointConfig) in
     emit EvResponseGuard ;;;
     match safeParse strictResponse result with
     | SafeParseError errors =>
         (if hasBigInt result then throw stringifyError else ret tt) ;;;
         consoleError {| log_label := "Response validation failed:";
                         log_url := r_url request;
                         log_method := r_method request;
                         log_errors := errors;
                         log_response := result |} ;;;
         throw (ResponseValidationError (map responseFieldError errors))
     | SafeParseSuccess _ =>
         emit EvReturn ;;; ret (Returned result)
     end).

(** The [catch] block of [validatedHandler] (lines 507-541) *)
Definition catchBlock (error : JsError) : M St HandlerReturn :=
       match error with
       | NotFoundError msg =>
           replySend Replied 404
             {| statusCode := 404; error := "Not Found";
                payloadMessage := msg; payloadDetails := None |}
       | ValidationError details =>
           replySend Replied 400
             {| statusCode := 400; error := "Bad Request";
                payloadMessage := "Validation failed";
                payloadDetails := Some details |}
       | ResponseValidationError details =>
           replySend Replied 500
             {| statusCode := 500; error := "Internal Server Error";
                payloadMessage :=
                  "Response validation failed - server returned invalid data";
                payloadDetails := Some details |}
       | OtherError _ _ => throw error
       end.

(** [validatedHandler] (lines 412-542) *)
Definition validatedHandler (endpointConfig : EndpointConfig)
    (request : FastifyRequest) : M St HandlerReturn :=
  tryCatch (tryBlock endpointConfig request) catchBlock.

(** [config?.operationId || autoGeneratedOperationId] (lines 544-546) *)
Definition endpointOperationId (endpointConfig : EndpointConfig) : string :=
  let autoGeneratedOperationId :=
    generateOperationId (url endpointConfig) (methodName (method endpointConfig)) in
  orElse (match config endpointConfig with
          | Some options => operationId options
          | None => None
          end) autoGeneratedOperationId.

(** [authenticateToken] (lines 610-664) *)
Definition authenticateToken (serverConfig : APIServerConfig)
    (request : FastifyRequest) : M St HookReturn :=
  emit EvAuthCheck ;;;
  let authHeader := r_authorization request in
  if falsy authHeader then
    replySend HookReplied 401
      {| statusCode := 401; error := "Unauthorized";
         payloadMessage := "Missing authorization header";
         payloadDetails := None |}
  else
    let parts := split " " (match authHeader with Some h => h | None => "" end) in
    if orb (negb (Nat.eqb (List.length parts) 2))
           (negb (String.eqb (nth 0 parts "") "Bearer")) then
      replySend HookReplied 401
        {| statusCode := 401; error := "Unauthorized";
           payloadMessage :=
             "Invalid authorization header format. Expected: Bearer <token>";
           payloadDetails := None |}
    else
      let token := nth 1 parts "" in
      match apiToken serverConfig with
      | TokenValidator validator =>
          emit (EvValidatorCall token) ;;;
          let result := validator token request in
          if negb (valid result) then
            replySend HookReplied 403
              {| statusCode := 403; error := "Forbidden";
                 payloadMessage := orElse (authError result) "Invalid token";
                 payloadDetails := None |}
          else if negb (isUndefined (context result)) then
            ret (HookDone (setAuth request (context result)))
          else ret (HookDone request)
      | TokenString secret =>
          if negb (String.eqb token secret) then
            replySend HookReplied 403
              {| statusCode := 403; error := "Forbidden";
                 payloadMessage := "Invalid token";
                 payloadDetails := None |}
          else ret (HookDone request)
      end.

(** *** The schema of the route (lines 548-589; validate.ts, lines 24-35) *)

(** A response schema of a route: a schema of the endpoint, or one of
    the two object schemas that the library builds itself. *)
Inductive ResponseSchema : Type :=
| DeclaredSchema (schema : Schema)
| LibrarySchema (schema : ZodType).

(** A record of schemas by status code, read and written by key. *)
Definition Responses : Type := list (Z * ResponseSchema).

(** [responses[code]] *)
Fixpoint getResponse (responses : Responses) (code : Z) : option ResponseSchema :=
  match responses with
  | [] => None
  | (c, schema) :: rest =>
      if Z.eqb c code then Some schema else getResponse rest code
  end.

(** [responses[code] = schema] *)
Fixpoint setResponse (responses : Responses) (code : Z) (schema : ResponseSchema)
    : Responses :=
  match responses with
  | [] => [(code, schema)]
  | (c, s) :: rest =>
      if Z.eqb c code then (c, schema) :: rest
      else (c, s) :: setResponse rest code schema
  end.

(** [createStandardResponses]: [{...responses, 400: ..., 500: ...}] *)
Definition createStandardResponses (responses : Responses) : Responses :=
  setResponse (setResponse responses 400 (LibrarySchema ErrorResponseSchema))
    500 (LibrarySchema ErrorResponseSchema).

(** The [schema] of the route options (lines 574-589), without the
    descriptive fields; [schema_security] tells whether
    [security: [{ bearerAuth: [] }]] is present. *)
Record RouteSchema : Type := mkRouteSchema {
  schema_operationId : string;
  schema_querystring : option Schema;
  schema_params : option Schema;
  schema_body : option Schema;
  schema_response : Responses;
  schema_security : bool
}.

(** [responses] of [createEndpoint] (lines 549-566) *)
Definition endpointResponses (endpointConfig : EndpointConfig) : Responses :=
  let responses := [(200%Z, DeclaredSchema (applyStrict (response endpointConfig)))] in
  if authenticated endpointConfig
  then setResponse (setResponse responses 401 (LibrarySchema authErrorSchema))
         403 (LibrarySchema authErrorSchema)
  else responses.

Definition routeSchema (endpointConfig : EndpointConfig) : RouteSchema :=
  {| schema_operationId := endpointOperationId endpointConfig;
     schema_querystring :=
       match query endpointConfig with
       | Some schema => Some (applyStrict schema)
       | None => None
       end;
     schema_params :=
       match params endpointConfig with
       | Some schema => Some (applyStrict schema)
       | None => None
       end;
     schema_body :=
       match body endpointConfig with
       | Some schema =>
           if negb (isGET (method endpointConfig))
           then Some (applyStrict schema) else None
       | None => None
       end;
     schema_response := createStandardResponses (endpointResponses endpointConfig);
     schema_security := authenticated endpointConfig |}.

(** The route that [createEndpoint] registers (lines 570-594): the
    schema, the route handler, and the pre-handler exactly for an
    authenticated endpoint. *)
Record Route : Type := mkRoute {
  route_method : HttpMethod;
  route_url : string;
  route_schema : RouteSchema;
  route_preHandler : option (FastifyRequest -> M St HookReturn);
  route_handler : FastifyRequest -> M St HandlerReturn
}.

Definition route_operationId (route : Route) : string :=
  schema_operationId (route_schema route).

Definition createEndpoint (serverConfig : APIServerConfig)
    (endpointConfig : EndpointConfig) : Route :=
  {| route_method := method endpointConfig;
     route_url := url endpointConfig;
     route_schema := routeSchema endpointConfig;
     route_preHandler :=
       if authenticated endpointConfig
       then Some (authenticateToken serverConfig) else None;
     route_handler := validatedHandler endpointConfig |}.

(** *** The framework's handling of a request on a route

    The validator and the serialiser of the route are those of the zod
    type provider, which [APIServer] installs: both call [safeParse] of
    the schema. *)

Definition rawPart (request : FastifyRequest) (part : Part) : value :=
  match part with
  | PQuery => r_query request
  | PBody => r_body request
  | PParams => r_params request
  end.

Definition registeredSchema (schema : RouteSchema) (part : Part) : option Schema :=
  match part with
  | PQuery => schema_querystring schema
  | PBody => schema_body schema
  | PParams => schema_params schema
  end.

(** What the validation of the framework ends with: the request with
    its validated parts, or the first part that failed with its issues. *)
Inductive Validated : Type :=
| Passed (request : FastifyRequest)
| Rejected (part : Part) (issues : list ZodIssue).

(** The framework gives a part to the validator of the route, [null]
    standing in for [undefined]; the first failure ends the validation;
    after a success the part is replaced by the parsed data when these
    are truthy.  The steps taken are returned with the outcome. *)
Fixpoint validateParts (schema : RouteSchema) (parts : list Part)
    (request : FastifyRequest) : list Event * Validated :=
  match parts with
  | [] => ([], Passed request)
  | part :: rest =>
      match registeredSchema schema part with
      | None => validateParts schema rest request
      | Some validator =>
          let raw := rawPart request part in
          match safeParse validator (if isUndefined raw then VNull else raw) with
          | SafeParseError issues => ([EvValidate part], Rejected part issues)
          | SafeParseSuccess data =>
              let '(steps, outcome) :=
                validateParts schema rest
                  (if truthy data then setPart request part data else request) in
              (EvValidate part :: steps, outcome)
          end
      end
  end.

(** The order in which the framework validates: params, body, query. *)
Definition frameworkOrder : list Part := [PParams; PBody; PQuery].

Definition validate (schema : RouteSchema) (request : FastifyRequest)
    : list Event * Validated :=
  validateParts schema frameworkOrder request.

(** The serialiser of the route: the payload is parsed by the schema
    registered for the status code and the parsed data are given to
    [JSON.stringify]; without a schema for the code the payload itself
    is. *)
Definition serialise (responses : Responses) (code : Z) (payload : value)
    : Response :=
  let parsed :=
    match getResponse responses code with
    | Some (DeclaredSchema schema) => safeParse schema payload
    | Some (LibrarySchema schema) => safeParse schema payload
    | None => SafeParseSuccess payload
    end in
  match parsed with
  | SafeParseSuccess data =>
      if hasBigInt data then ServerError stringifyError
      else Transmitted code data
  | SafeParseError issues => SerialisationError code issues
  end.

(** The response: the reply that was sent, serialised; when none was
    sent, the error that reached the framework. *)
Definition responseOf (responses : Responses) (reply : option (Z * value))
    (thrown : option JsError) : Response :=
  match reply, thrown with
  | Some (code, payload), _ => serialise responses code payload
  | None, Some e => ServerError e
  | None, None => NoReply
  end.

Definition respond (responses : Responses) (thrown : option JsError)
    : M St Response :=
  emit EvTransmit ;;;
  fun w => (Normal (responseOf responses (sent w) thrown), w).

(** What the framework does with the outcome of the route handler: a
    returned value is sent, with the status 200. *)
Definition deliver (responses : Responses) (outcome : Completion HandlerReturn)
    : M St Response :=
  match outcome with
  | Normal (Returned result) => send 200 result ;;; respond responses None
  | Normal (Replied _ _) => respond responses None
  | Throws e => respond responses (Some e)
  end.

(** A request on a route: the validation of the framework, then the
    hook, then the route handler unless the hook has replied, then the
    response. *)
Definition handleRequest (route : Route) (request : FastifyRequest)
    : M St Response :=
  let responses := schema_response (route_schema route) in
  newReply ;;;
  emitAll (fst (validate (route_schema route) request)) ;;;
  match snd (validate (route_schema route) request) with
  | Rejected part issues =>
      emit EvTransmit ;;; ret (SchemaError part issues)
  | Passed validated =>
      fun w =>
        match match route_preHandler route with
              | Some hook => hook validated w
              | None => (Normal (HookDone validated), w)
              end with
        | (Normal (HookReplied _ _), w') => respond responses None w'
        | (Normal (HookDone request'), w') =>
            let '(outcome, w'') := route_handler route request' w' in
            deliver responses outcome w''
        | (Throws e, w') => respond responses (Some e) w'
        end
  end.

(** *** Vocabulary of the statements *)

Definition declaredPart (endpointConfig : EndpointConfig) (part : Part)
    : option Schema :=
  match part with
  | PQuery => query endpointConfig
  | PBody => body endpointConfig
  | PParams => params endpointConfig
  end.

(** What the block of a part computes: the strict parse of a declared
    part, [undefined] for an undeclared one. *)
Definition partResult (declared : option Schema) (raw : value)
    : SafeParseReturn :=
  match declared with
  | Some schema => safeParse (applyStrict schema) raw
  | None => SafeParseSuccess VUndefined
  end.

(** [earlier] is validated before [part]. *)
Definition partBefore (earlier part : Part) : bool :=
  match earlier, part with
  | PQuery, PBody | PQuery, PParams | PBody, PParams => true
  | _, _ => false
  end.

(** The step a part contributes: none when it is not declared. *)
Definition partSteps (part : Part) (declared : option Schema) : list Event :=
  match declared with
  | Some _ => [EvSafeParse part]
  | None => []
  end.

Definition addSteps (w : World St) (steps : list Event) : World St :=
  mkWorld (console w) (journal w ++ steps) (store w) (sent w).

(** The world after the steps [steps], the last of which sends the
    reply [payload] with the status [code]. *)
Definition replyWorld (w : World St) (steps : list Event) (code : Z)
    (payload : ErrorPayload) : World St :=
  mkWorld (console w) (journal w ++ steps) (store w)
    (firstSend (sent w) code (payloadValue payload)).

(** The parts validated up to and including [part]. *)
Definition partsUpTo (part : Part) : list Part :=
  match part with
  | PQuery => [PQuery]
  | PBody => [PQuery; PBody]
  | PParams => [PQuery; PBody; PParams]
  end.

(** The parse steps of the declared parts among [parts]. *)
Definition requestSteps (endpointConfig : EndpointConfig) (parts : list Part)
    : list Event :=
  flat_map (fun part => partSteps part (declaredPart endpointConfig part)) parts.

Definition badRequest (details : list FieldError) : ErrorPayload :=
  {| statusCode := 400; error := "Bad Request";
     payloadMessage := "Validation failed";
     payloadDetails := Some details |}.

Definition allParts : list Part := [PQuery; PBody; PParams].

Definition notFound (msg : string) : ErrorPayload :=
  {| statusCode := 404; error := "Not Found";
     payloadMessage := msg; payloadDetails := None |}.

Definition invalidResponse (details : list FieldError) : ErrorPayload :=
  {| statusCode := 500; error := "Internal Server Error";
     payloadMessage :=
       "Response validation failed - server returned invalid data";
     payloadDetails := Some details |}.

Definition unauthorized (msg : string) : ErrorPayload :=
  {| statusCode := 401; error := "Unauthorized";
     payloadMessage := msg; payloadDetails := None |}.

Definition forbidden (msg : string) : ErrorPayload :=
  {| statusCode := 403; error := "Forbidden";
     payloadMessage := msg; payloadDetails := None |}.

(** An error payload without its details: what the schemas that the
    library registers for 400, 401, 403 and 500 keep of it. *)
Definition wirePayload (payload : ErrorPayload) : value :=
  VObj [("statusCode", VNum (statusCode payload));
        ("error", VStr (error payload));
        ("message", VStr (payloadMessage payload))].

(** All three parts pass, with the given validated values. *)
Definition validatesTo (endpointConfig : EndpointConfig)
    (request : FastifyRequest) (vq vb vp : value) : Prop :=
  partResult (query endpointConfig) (r_query request) = SafeParseSuccess vq
  /\ partResult (body endpointConfig) (r_body request) = SafeParseSuccess vb
  /\ partResult (params endpointConfig) (r_params request) = SafeParseSuccess vp.

(** The configured credential accepts the token: equality with the
    secret string, or [valid] of the validator's result. *)
Definition accepts (credential : ApiToken) (token : string)
    (request : FastifyRequest) : bool :=
  match credential with
  | TokenString secret => String.eqb token secret
  | TokenValidator validator => valid (validator token request)
  end.

(** The context the validator supplied; a secret string supplies none. *)
Definition suppliedContext (credential : ApiToken) (token : string)
    (request : FastifyRequest) : value :=
  match credential with
  | TokenString _ => VUndefined
  | TokenValidator validator => context (validator token request)
  end.

(** The message of the 403 reply for a token that is not accepted. *)
Definition rejectionMessage (credential : ApiToken) (token : string)
    (request : FastifyRequest) : string :=
  match credential with
  | TokenString _ => "Invalid token"
  | TokenValidator validator =>
      orElse (authError (validator token request)) "Invalid token"
  end.

Definition validatorSteps (credential : ApiToken) (token : string) : list Event :=
  match credential with
  | TokenString _ => []
  | TokenValidator _ => [EvValidatorCall token]
  end.

(** The request the route handler receives after an accepted token. *)
Definition authenticatedRequest (credential : ApiToken) (token : string)
    (request : FastifyRequest) : FastifyRequest :=
  if isUndefined (suppliedContext credential token request) then request
  else setAuth request (suppliedContext credential token request).

Definition missingHeader : string := "Missing authorization header".

Definition badHeaderFormat : string :=
  "Invalid authorization header format. Expected: Bearer <token>".

(** The steps a computation adds to the journal. *)
Definition stepsOf {A} (m : M St A) (w : World St) : list Event :=
  skipn (List.length (journal w)) (journal (snd (m w))).

(** What the validator of the route answers for a part of the request. *)
Definition frameworkResult (schema : RouteSchema) (request : FastifyRequest)
    (part : Part) : SafeParseReturn :=
  match registeredSchema schema part with
  | Some validator =>
      safeParse validator
        (if isUndefined (rawPart request part) then VNull else rawPart request part)
  | None => SafeParseSuccess (rawPart request part)
  end.

(** [earlier] is validated by the framework before [part]. *)
Definition frameworkBefore (earlier part : Part) : bool :=
  match earlier, part with
  | PParams, PBody | PParams, PQuery | PBody, PQuery => true
  | _, _ => false
  end.

(** The parts the framework validates up to and including [part]. *)
Definition frameworkUpTo (part : Part) : list Part :=
  match part with
  | PParams => [PParams]
  | PBody => [PParams; PBody]
  | PQuery => [PParams; PBody; PQuery]
  end.

(** The validation steps of the registered parts among [parts]. *)
Definition registeredSteps (schema : RouteSchema) (parts : list Part)
    : list Event :=
  flat_map (fun part => match registeredSchema schema part with
                        | Some _ => [EvValidate part]
                        | None => []
                        end) parts.

(** The request after the framework has validated [part] with the
    parsed data [data]. *)
Definition validatedPart (schema : RouteSchema) (request : FastifyRequest)
    (part : Part) (data : value) : FastifyRequest :=
  match registeredSchema schema part with
  | Some _ => if truthy data then setPart request part data else request
  | None => request
  end.

(** The world in which the hook and the route handler of a request
    start: the reply is new, the validation steps are taken. *)
Definition afterValidation (w : World St) (steps : list Event) : World St :=
  mkWorld (console w) (journal w ++ steps) (store w) None.

(** The request passes the validation of the framework as [validated]. *)
Definition passesValidation (endpointConfig : EndpointConfig)
    (request validated : FastifyRequest) : Prop :=
  snd (validate (routeSchema endpointConfig) request) = Passed validated.

(** The validated request passes the hook of the endpoint, which takes
    the steps [pre] and hands [admitted] to the route handler. *)
Definition passesHook (serverConfig : APIServerConfig)
    (endpointConfig : EndpointConfig) (validated admitted : FastifyRequest)
    (pre : list Event) : Prop :=
  if authenticated endpointConfig
  then exists token,
         r_authorization validated = Some ("Bearer " ++ token)%string
         /\ hasChar " " token = false
         /\ accepts (apiToken serverConfig) token validated = true
         /\ admitted = authenticatedRequest (apiToken serverConfig) token validated
         /\ pre = EvAuthCheck :: validatorSteps (apiToken serverConfig) token
  else admitted = validated /\ pre = [].

(** The run of a new request answers with the error reply [payload]:
    after the steps [steps] the reply is sent with the status [code], and
    it is transmitted without its details; the console and the state of
    the handlers are as they were. *)
Definition answersWith (run : M St Response) (w : World St) (steps : list Event)
    (code : Z) (payload : ErrorPayload) : Prop :=
  run w
  = (Normal (Transmitted code (wirePayload payload)),
     mkWorld (console w) (journal w ++ steps ++ [EvReplySend code; EvTransmit])
       (store w) (Some (code, payloadValue payload))).

(** The steps of the framework's validation of a request. *)
Definition validationSteps (endpointConfig : EndpointConfig)
    (request : FastifyRequest) : list Event :=
  fst (validate (routeSchema endpointConfig) request).
End Pipeline.

Arguments EndpointConfig Schema St : clear implicits.
Arguments Route Schema St : clear implicits.
Arguments RouteSchema Schema : clear implicits.
Arguments ResponseSchema Schema : clear implicits.
Arguments Responses Schema : clear implicits.
Arguments LibrarySchema {Schema} schema.


(** [msg] contains the quoted key [k]. *)
Definition namesKey (msg k : string) : Prop :=
  exists before after, msg = (before ++ quoteKey k ++ after)%string.

(** No [transform] anywhere in the schema. *)
Fixpoint transformFree (schema : ZodType) : bool :=
  match schema with
  | ZodString _ | ZodNumber | ZodBoolean => true
  | ZodOptional inner => transformFree inner
  | ZodDefault inner _ => transformFree inner
  | ZodObject shape _ => forallb (fun kv => transformFree (snd kv)) shape
  | ZodEffects _ _ => false
  end.

Fixpoint uniqueKeys (keys : list string) : bool :=
  match keys with
  | [] => true
  | k :: rest => andb (negb (inKeys rest k)) (uniqueKeys rest)
  end.

(** Every shape declares a key once, as an object literal does. *)
Fixpoint wellFormed (schema : ZodType) : bool :=
  match schema with
  | ZodString _ | ZodNumber | ZodBoolean => true
  | ZodOptional inner => wellFormed inner
  | ZodDefault inner _ => wellFormed inner
  | ZodObject shape _ =>
      andb (uniqueKeys (map fst shape))
           (forallb (fun kv => wellFormed (snd kv)) shape)
  | ZodEffects inner _ => wellFormed inner
  end.

(** The operation identifier in the words of the specification: the URL
    lowercased, its leading slash stripped, the remaining slashes replaced
    by underscores, then an underscore and the lowercase method. *)
Definition operationIdSpec (url method : string) : string :=
  (replaceSlashes (replaceLeadingSlash (toLowerCase url))
     ++ "_" ++ toLowerCase method)%string.

(** ** Endpoints of the examples and tests, used in the concrete lemmas

    The handler state is a counter of handler runs. *)

Definition objectFields (v : value) : list (string * value) :=
  match v with VObj fields => fields | _ => [] end.

Definition userBody : ZodType :=
  ZodObject [("name", ZodString (Some 1)); ("email", ZodString None)] Strip.

Definition limitQuery : ZodType :=
  ZodObject [("limit", ZodString None)] Strip.

Definition userResponse : ZodType :=
  ZodObject [("id", ZodString None); ("name", ZodString None)] Strip.

(** [POST /users] with a query and a body. *)
Definition createUser : EndpointConfig ZodType nat :=
  {| method := POST; url := "/users";
     query := Some limitQuery; body := Some userBody; params := None;
     response := userResponse; config := None; authenticated := false;
     handler := fun request n =>
       (Normal (VObj [("id", VStr "1");
                      ("name", getProp (objectFields (r_body request)) "name")]),
        S n, None) |}.

(** [GET /users/:id]; the user 999 does not exist, the user 500 makes
    the handler return an object without [name], the user 0 makes it
    throw a plain [Error]. *)
Definition getUser : EndpointConfig ZodType nat :=
  {| method := GET; url := "/users/:id";
     query := None; body := None;
     params := Some (ZodObject [("id", ZodString None)] Strip);
     response := userResponse; config := None; authenticated := true;
     handler := fun request n =>
       let id := getProp (objectFields (r_params request)) "id" in
       (match id with
        | VStr "999" => Throws (NotFoundError "User not found")
        | VStr "0" => Throws (OtherError "Error" "boom")
        | VStr "500" => Normal (VObj [("id", id)])
        | _ => Normal (VObj [("id", id); ("name", VStr "Ada")])
        end, S n, None) |}.

(** A body declared as [z.object({...}).optional()]. *)
Definition patchUser : EndpointConfig ZodType nat :=
  {| method := PATCH; url := "/users";
     query := None; body := Some (ZodOptional userBody); params := None;
     response := userResponse; config := None; authenticated := false;
     handler := handler createUser |}.

(** [z.string().transform(val => val.length)] *)
Definition stringLength : ZodType :=
  ZodEffects (ZodString None)
    (fun v => match v with
              | VStr s => VNum (Z.of_nat (String.length s))
              | _ => v
              end).

Definition requestOf (authorization : option string)
    (q b p : value) : FastifyRequest :=
  {| r_url := "/users"; r_method := "POST"; r_authorization := authorization;
     r_query := q; r_body := b; r_params := p; r_auth := VUndefined |}.

Definition world0 : World nat := mkWorld [] [] 0 None.

(** [POST /users?limit=10] with an empty name. *)
Definition emptyNameRequest : FastifyRequest :=
  requestOf None (VObj [("limit", VStr "10")])
    (VObj [("name", VStr ""); ("email", VStr "a@b.com")]) (VObj []).

(** [POST /users] with no [limit] and an empty name. *)
Definition twoBadPartsRequest : FastifyRequest :=
  requestOf None (VObj [])
    (VObj [("name", VStr ""); ("email", VStr "a@b.com")]) (VObj []).

(** A body with a field the schema does not declare. *)
Definition extraFieldBody : value :=
  VObj [("name", VStr "John"); ("email", VStr "j@b.com");
        ("extraField", VStr "should-be-rejected")].

Definition extraFieldRequest : FastifyRequest :=
  requestOf None (VObj [("limit", VStr "10")]) extraFieldBody (VObj []).

(** [GET /users/<id>?verbose=1] with a body, under the given header. *)
Definition getUserRequest (authorization : option string) (id : string)
    : FastifyRequest :=
  {| r_url := "/users/" ++ id; r_method := "GET";
     r_authorization := authorization;
     r_query := VObj [("verbose", VStr "1")];
     r_body := VObj [("note", VStr "raw")];
     r_params := VObj [("id", VStr id)];
     r_auth := VUndefined |}.

(** A body whose [name] is replaced by its length. *)
Definition nameLengthBody : ZodType :=
  ZodObject [("name", stringLength)] Strip.

Definition renameUser : EndpointConfig ZodType nat :=
  {| method := PUT; url := "/users";
     query := None; body := Some nameLengthBody; params := None;
     response := ZodObject [("length", ZodNumber)] Strip;
     config := Some {| operationId := Some "renameUser" |};
     authenticated := false;
     handler := fun request n =>
       (Normal (VObj [("length", getProp (objectFields (r_body request)) "name")]),
        S n, None) |}.

Definition secretServer : APIServerConfig :=
  {| apiToken := TokenString "secret-token" |}.

Definition adminContext : value :=
  VObj [("userId", VStr "123"); ("role", VStr "admin")].

(** The validator of the custom-auth tests: one token is known. *)
Definition validatorServer : APIServerConfig :=
  {| apiToken := TokenValidator (fun token _ =>
       if String.eqb token "valid-custom-token"
       then {| valid := true; context := adminContext; authError := None |}
       else {| valid := false; context := VUndefined;
               authError := Some "Custom error message" |}) |}.

(** [GET /users] with [limit] defaulting to "10". *)
Definition listUsers : EndpointConfig ZodType nat :=
  {| method := GET; url := "/users";
     query := Some (ZodObject [("limit", ZodDefault (ZodString None) (VStr "10"))]
                      Strip);
     body := None; params := None;
     response := ZodObject [("limit", ZodString None)] Strip;
     config := None; authenticated := false;
     handler := fun request n =>
       (Normal (VObj [("limit", getProp (objectFields (r_query request)) "limit")]),
        S n, None) |}.

Definition listUsersRequest : FastifyRequest :=
  {| r_url := "/users"; r_method := "GET"; r_authorization := None;
     r_query := VObj []; r_body := VUndefined; r_params := VObj [];
     r_auth := VUndefined |}.

(** A validator that rejects every token with an empty error text. *)
Definition silentServer : APIServerConfig :=
  {| apiToken := TokenValidator (fun _ _ =>
       {| valid := false; context := VUndefined; authError := Some "" |}) |}.

(** ** The configuration built by the constructor (lines 194-275) *)

(** [parseInt(s, 10)]: leading white space, an optional sign, then the
    longest run of decimal digits; [None] is [NaN].  The result here is
    the integer the digits denote; JavaScript rounds it to a double, so
    the two agree up to 2^53.  The white space of the 8-bit characters:
    tab to carriage return, space, no-break space. *)
Definition isWhiteSpace (c : ascii) : bool :=
  let n := nat_of_ascii c in
  orb (andb (Nat.leb 9 n) (Nat.leb n 13)) (orb (Nat.eqb n 32) (Nat.eqb n 160)).

Fixpoint trimStart (s : string) : string :=
  match s with
  | String c rest => if isWhiteSpace c then trimStart rest else s
  | EmptyString => EmptyString
  end.

Definition digitValue (c : ascii) : option Z :=
  let n := nat_of_ascii c in
  if andb (Nat.leb 48 n) (Nat.leb n 57) then Some (Z.of_nat (n - 48)) else None.

Fixpoint parseDigits (acc : Z) (s : string) : Z :=
  match s with
  | String c rest =>
      match digitValue c with
      | Some d => parseDigits (10 * acc + d) rest
      | None => acc
      end
  | EmptyString => acc
  end.

Definition parseUnsigned (s : string) : option Z :=
  match s with
  | String c _ =>
      match digitValue c with
      | Some _ => Some (parseDigits 0 s)
      | None => None
      end
  | EmptyString => None
  end.

Definition parseInt (s : string) : option Z :=
  match trimStart s with
  | String "-"%char rest => option_map Z.opp (parseUnsigned rest)
  | String "+"%char rest => parseUnsigned rest
  | trimmed => parseUnsigned trimmed
  end.

(** [a ?? b] *)
Definition nullish {A} (a : option A) (b : A) : A :=
  match a with Some x => x | None => b end.

(** [APIServerConfig] as the caller gives it: every field is optional.
    [opt_fastify] tells whether an instance was provided. *)
Record APIServerOptions : Type := mkOptions {
  opt_fastify : bool;
  opt_port : option Z;
  opt_host : option string;
  opt_env : option string;
  opt_logLevel : option string;
  opt_corsOrigin : option string;
  opt_apiToken : option ApiToken;
  opt_rateLimitMax : option Z;
  opt_rateLimitWindow : option string;
  opt_rateLimitAllow : option (list string);
  opt_metricsEnabled : option bool;
  opt_apiTitle : option string;
  opt_apiDescription : option string;
  opt_apiVersion : option string;
  opt_loadEnv : option bool
}.

(** [process.env] at the time the constructor merges the defaults. *)
Definition Env : Type := string -> option string.

(** [this.config]; a port or limit of [None] is [NaN]. *)
Record ResolvedConfig : Type := mkResolved {
  cfg_port : option Z;
  cfg_host : string;
  cfg_env : string;
  cfg_logLevel : string;
  cfg_corsOrigin : string;
  cfg_apiToken : ApiToken;
  cfg_rateLimitMax : option Z;
  cfg_rateLimitWindow : string;
  cfg_rateLimitAllow : list string;
  cfg_metricsEnabled : bool;
  cfg_apiTitle : string;
  cfg_apiDescription : string;
  cfg_apiVersion : string;
  cfg_loadEnv : bool
}.

(** The merge of lines 257-275. *)
Definition resolveConfig (config : APIServerOptions) (env : Env) : ResolvedConfig :=
  {| cfg_port :=
       match opt_port config with
       | Some port => Some port
       | None => parseInt (orElse (env "PORT") "3000")
       end;
     cfg_host := nullish (opt_host config) (nullish (env "HOST") "127.0.0.1");
     cfg_env := nullish (opt_env config) (nullish (env "NODE_ENV") "development");
     cfg_logLevel := nullish (opt_logLevel config) (nullish (env "LOG_LEVEL") "info");
     cfg_corsOrigin := nullish (opt_corsOrigin config) (nullish (env "CORS_ORIGIN") "*");
     cfg_apiToken :=
       nullish (opt_apiToken config)
         (TokenString
            (nullish (env "API_TOKEN") "development-token-change-in-production"));
     cfg_rateLimitMax :=
       match opt_rateLimitMax config with
       | Some n => Some n
       | None => parseInt (orElse (env "RATE_LIMIT_MAX") "100")
       end;
     cfg_rateLimitWindow :=
       nullish (opt_rateLimitWindow config) (nullish (env "RATE_LIMIT_WINDOW") "15m");
     cfg_rateLimitAllow := nullish (opt_rateLimitAllow config) [];
     cfg_metricsEnabled :=
       nullish (opt_metricsEnabled config)
         (negb (match env "METRICS_ENABLED" with
                | Some v => String.eqb v "false"
                | None => false
                end));
     cfg_apiTitle := nullish (opt_apiTitle config) "API Documentation";
     cfg_apiDescription :=
       nullish (opt_apiDescription config)
         "API built with Fastify, Zod, and TypeScript";
     cfg_apiVersion := nullish (opt_apiVersion config) "1.0.0";
     cfg_loadEnv := nullish (opt_loadEnv config) true |}.

(** The part of [this.config] that [authenticateToken] reads. *)
Definition authConfig (config : ResolvedConfig) : APIServerConfig :=
  {| apiToken := cfg_apiToken config |}.

(** ** [start] and [stop] (lines 675-733) *)

(** What the server does to the outside: calls of [listen] and [close]
    on the instance, with their success, and console output. *)
Inductive LifecycleEvent : Type :=
| CallListen (port : option Z) (host : string) (ok : bool)
| CallClose (ok : bool)
| LogAttached
| LogRunning
| LogStartFailed (err : JsError).

Record ServerState : Type := mkServerState {
  lc_config : ResolvedConfig;
  started : bool;
  ownsFastifyInstance : bool;
  lc_events : list LifecycleEvent
}.

(** The fields the constructor sets (lines 191-211). *)
Definition newServer (config : APIServerOptions) (env : Env) : ServerState :=
  {| lc_config := resolveConfig config env;
     started := false;
     ownsFastifyInstance := negb (opt_fastify config);
     lc_events := [] |}.

Definition lifecycleStep (s : ServerState) (started' : bool)
    (events : list LifecycleEvent) : ServerState :=
  {| lc_config := lc_config s;
     started := started';
     ownsFastifyInstance := ownsFastifyInstance s;
     lc_events := lc_events s ++ events |}.

(** [start]; [listenError] is the error [fastify.listen] throws, if any. *)
Definition start (listenError : option JsError) (s : ServerState)
    : Completion unit * ServerState :=
  if started s then
    (Throws (OtherError "Error" "Server is already started"), s)
  else if negb (ownsFastifyInstance s) then
    (Normal tt, lifecycleStep s true [LogAttached])
  else
    let port := cfg_port (lc_config s) in
    let host := cfg_host (lc_config s) in
    match listenError with
    | None =>
        (Normal tt, lifecycleStep s true [CallListen port host true; LogRunning])
    | Some err =>
        (Throws err,
         lifecycleStep s false [CallListen port host false; LogStartFailed err])
    end.

(** [stop]; [closeError] is the error [fastify.close] throws, if any. *)
Definition stop (closeError : option JsError) (s : ServerState)
    : Completion unit * ServerState :=
  if negb (started s) then (Normal tt, s)
  else if negb (ownsFastifyInstance s) then
    (Normal tt, lifecycleStep s false [])
  else
    match closeError with
    | None => (Normal tt, lifecycleStep s false [CallClose true])
    | Some err => (Throws err, lifecycleStep s true [CallClose false])
    end.

(** A call of [start] or [stop], with what the instance will answer. *)
Inductive LifecycleOp : Type :=
| OpStart (listenError : option JsError)
| OpStop (closeError : option JsError).

Definition runOp (op : LifecycleOp) (s : ServerState) : ServerState :=
  match op with
  | OpStart listenError => snd (start listenError s)
  | OpStop closeError => snd (stop closeError s)
  end.

Definition runOps (ops : list LifecycleOp) (s : ServerState) : ServerState :=
  fold_left (fun state op => runOp op state) ops s.

Definition isInstanceCall (e : LifecycleEvent) : bool :=
  match e with
  | CallListen _ _ _ | CallClose _ => true
  | _ => false
  end.

(** The calls that succeeded, [true] for [listen] and [false] for [close]. *)
Fixpoint successfulCalls (events : list LifecycleEvent) : list bool :=
  match events with
  | [] => []
  | CallListen _ _ true :: rest => true :: successfulCalls rest
  | CallClose true :: rest => false :: successfulCalls rest
  | _ :: rest => successfulCalls rest
  end.

(** [listen], [close], [listen], ... : [expected] is the next call. *)
Fixpoint alternates (expected : bool) (calls : list bool) : bool :=
  match calls with
  | [] => true
  | c :: rest => andb (Bool.eqb c expected) (alternates (negb expected) rest)
  end.

(** ** The endpoint of [examples/simple.ts] *)

(** [`Hello, ${request.query.name || 'World'}!`]; by its type the name
    is a string or undefined, and reading a property of an undefined
    query throws. *)
Definition helloHandler {St : Type} (request : FastifyRequest) (s : St)
    : Completion value * St * option (Z * value) :=
  match r_query request with
  | VUndefined | VNull =>
      (Throws (OtherError "TypeError" "Cannot read properties of undefined"), s,
       None)
  | q =>
      let name := match getProp (objectFields q) "name" with
                  | VStr n => orElse (Some n) "World"
                  | _ => "World"
                  end in
      (Normal (VObj [("message", VStr ("Hello, " ++ name ++ "!"))]), s, None)
  end.

Definition helloEndpoint (St : Type) : EndpointConfig ZodType St :=
  {| method := GET; url := "/hello";
     query := Some (ZodObject [("name", ZodOptional (ZodString None))] Strip);
     body := None; params := None;
     response := ZodObject [("message", ZodString None)] Strip;
     config := None; authenticated := false;
     handler := helloHandler |}.

(** [GET /users/count]: the response schema has a default that the
    handler leaves out. *)
Definition countUsers : EndpointConfig ZodType nat :=
  {| method := GET; url := "/users/count";
     query := None; body := None; params := None;
     response :=
       ZodObject [("count", ZodNumber);
                  ("unit", ZodDefault (ZodString None) (VStr "users"))] Strip;
     config := None; authenticated := false;
     handler := fun _ n => (Normal (VObj [("count", VNum 2)]), S n, None) |}.

(** A body with a nested object, declared with the default policy. *)
Definition nestedBody : ZodType :=
  ZodObject [("user", ZodObject [("name", ZodString None)] Strip)] Strip.

(** ** Endpoints whose handlers answer themselves, throw, or return
    what cannot be serialised *)





(** [POST /data], authenticated, with a body. *)
Definition createData : EndpointConfig ZodType nat :=
  {| method := POST; url := "/data";
     query := None;
     body := Some (ZodObject [("content", ZodString None)] Strip);
     params := None;
     response := ZodObject [("message", ZodString None)] Strip;
     config := None; authenticated := true;
     handler := fun _ n =>
       (Normal (VObj [("message", VStr "Data created")]), S n, None) |}.

(** [POST /data] without a header and with a body that lacks [content]. *)
Definition wrongFieldRequest : FastifyRequest :=
  {| r_url := "/data"; r_method := "POST"; r_authorization := None;
     r_query := VObj []; r_body := VObj [("wrongField", VStr "test")];
     r_params := VObj []; r_auth := VUndefined |}.

Definition emailTaken : list FieldError :=
  [{| field := "body.email"; message := "Email already taken" |}].

(** [POST /custom-validation] of the tests: the handler throws a
    [ValidationError] for an address that is taken. *)
Definition customValidation : EndpointConfig ZodType nat :=
  {| method := POST; url := "/custom-validation";
     query := None;
     body := Some (ZodObject [("email", ZodString None)] Strip);
     params := None;
     response := ZodObject [("success", ZodBoolean)] Strip;
     config := None; authenticated := false;
     handler := fun request n =>
       match getProp (objectFields (r_body request)) "email" with
       | VStr "taken@example.com" => (Throws (ValidationError emailTaken), S n, None)
       | _ => (Normal (VObj [("success", VBool true)]), S n, None)
       end |}.

Definition takenRequest : FastifyRequest :=
  {| r_url := "/custom-validation"; r_method := "POST"; r_authorization := None;
     r_query := VObj [];
     r_body := VObj [("email", VStr "taken@example.com")];
     r_params := VObj []; r_auth := VUndefined |}.

(** [GET /rows/count]: the handler returns the BigInt of a driver where
    the schema declares a number. *)
Definition countRows : EndpointConfig ZodType nat :=
  {| method := GET; url := "/rows/count";
     query := None; body := None; params := None;
     response := ZodObject [("count", ZodNumber)] Strip;
     config := None; authenticated := false;
     handler := fun _ n => (Normal (VObj [("count", VBigInt 10)]), S n, None) |}.

(** [PUT /users] with the name "Ada". *)
Definition renameRequest : FastifyRequest :=
  {| r_url := "/users"; r_method := "PUT"; r_authorization := None;
     r_query := VObj []; r_body := VObj [("name", VStr "Ada")];
     r_params := VObj []; r_auth := VUndefined |}.

Definition emptyOptions : APIServerOptions :=
  {| opt_fastify := false; opt_port := None; opt_host := None; opt_env := None;
     opt_logLevel := None; opt_corsOrigin := None; opt_apiToken := None;
     opt_rateLimitMax := None; opt_rateLimitWindow := None;
     opt_rateLimitAllow := None; opt_metricsEnabled := None;
     opt_apiTitle := None; opt_apiDescription := None; opt_apiVersion := None;
     opt_loadEnv := None |}.

Definition emptyEnv : Env := fun _ => None.

(** * Properties *)

Unset Implicit Arguments.

(** ** Operation identifiers *)

Lemma lowerChar_slash (c : ascii) :
  Ascii.eqb (lowerChar c) "/"%char = Ascii.eqb c "/"%char.
Proof.
  destruct c as [[] [] [] [] [] [] [] []]; reflexivity.
Qed.

Lemma toLowerCase_replaceLeadingSlash (s : string) :
  toLowerCase (replaceLeadingSlash s) = replaceLeadingSlash (toLowerCase s).
Proof.
  destruct s as [|c rest]; [reflexivity|].
  pose proof (lowerChar_slash c) as Hc.
  destruct (Ascii.eqb_spec c "/"%char) as [->|Hne]; [reflexivity|].
  destruct (Ascii.eqb_spec (lowerChar c) "/"%char) as [|Hne']; [discriminate|].
  assert (Hkeep : forall (a : ascii) (t : string), a <> "/"%char ->
            replaceLeadingSlash (String a t) = String a t).
  { intros a t Ha.
    destruct a as [[] [] [] [] [] [] [] []]; try reflexivity.
    exfalso; apply Ha; reflexivity. }
  rewrite Hkeep by assumption.
  cbn [toLowerCase].
  rewrite Hkeep by assumption. reflexivity.
Qed.

(** C7, as the code has it.  The generated identifier is the URL
    lowercased, with the leading slash stripped and every remaining slash
    replaced by an underscore, followed by an underscore and the lowercase
    method; no other character is changed, so [GET /users/:id] gives
    [users_:id_get]; a non-empty [config.operationId] replaces the
    generated identifier, an absent or empty one does not. *)
Theorem operationId_generated_or_overridden :
  forall (Schema St : Type) (endpointConfig : EndpointConfig Schema St),
    generateOperationId (url endpointConfig) (methodName (method endpointConfig))
    = operationIdSpec (url endpointConfig) (methodName (method endpointConfig))
    /\ generateOperationId "/users/:id" (methodName GET) = "users_:id_get"
    /\ endpointOperationId endpointConfig
       = match config endpointConfig with
         | Some {| operationId := Some override |} =>
             if String.eqb override "" then
               generateOperationId (url endpointConfig)
                 (methodName (method endpointConfig))
             else override
         | _ => generateOperationId (url endpointConfig)
                  (methodName (method endpointConfig))
         end.
Proof.
  intros Schema St ep. split; [|split].
  - unfold generateOperationId, operationIdSpec.
    rewrite toLowerCase_replaceLeadingSlash. reflexivity.
  - reflexivity.
  - unfold endpointOperationId, orElse.
    destruct (config ep) as [[[override|]]|]; reflexivity.
Qed.

(** C7 as stated fails on its own example: the colon of a path
    parameter is kept, so [GET /users/:id] does not give [users__id_get]. *)
Lemma operationId_keeps_colon :
  generateOperationId "/users/:id" (methodName GET) = "users_:id_get"
  /\ generateOperationId "/users/:id" (methodName GET) <> "users__id_get".
Proof.
  split; [reflexivity|]. vm_compute. discriminate.
Qed.

(** ** The request pipeline *)

Section PipelineFacts.
Context {Schema : Type} {zod : ZodTypeAny Schema} {St : Type}.
Implicit Types (w : World St) (endpointConfig : EndpointConfig Schema St).

Lemma addSteps_nil w : addSteps w [] = w.
Proof. destruct w; unfold addSteps; cbn. now rewrite app_nil_r. Qed.

Lemma addSteps_addSteps w a b :
  addSteps (addSteps w a) b = addSteps w (a ++ b).
Proof. unfold addSteps; cbn. now rewrite app_assoc. Qed.

Lemma stepsOf_journal {A} (m : M St A) w steps :
  journal (snd (m w)) = journal w ++ steps -> stepsOf m w = steps.
Proof.
  intros Hj. unfold stepsOf. rewrite Hj.
  rewrite skipn_app, skipn_all, Nat.sub_diag. reflexivity.
Qed.

Lemma stepsOf_addSteps {A} (m : M St A) w (a : Completion A)
    console' steps store' sent' :
  m w = (a, mkWorld console' (journal w ++ steps) store' sent') ->
  stepsOf m w = steps.
Proof. intros Hm. apply stepsOf_journal. now rewrite Hm. Qed.

Lemma validatePart_run part (declared : option Schema) raw w :
  validatePart (St := St) part declared raw w =
  match partResult declared raw with
  | SafeParseSuccess data => (Normal data, addSteps w (partSteps part declared))
  | SafeParseError errors =>
      (Throws (ValidationError (map (requestFieldError part) errors)),
       addSteps w (partSteps part declared))
  end.
Proof.
  destruct declared as [schema|]; cbn.
  - unfold bind, emit. cbn. destruct (safeParse (applyStrict schema) raw); reflexivity.
  - now rewrite addSteps_nil.
Qed.

Lemma callHandler_run endpointConfig typedRequest w :
  callHandler endpointConfig typedRequest w =
  (let '(completion, store', own) :=
     handler endpointConfig typedRequest (store w) in
   (completion,
    mkWorld (console w) (journal w ++ [EvHandlerCall typedRequest]) store'
      (ownSend own (sent w)))).
Proof. reflexivity. Qed.

(** The run of [validatedHandler] when [part] is the first part that
    fails. *)
Lemma validatedHandler_rejected :
  forall endpointConfig request w part errors,
    partResult (declaredPart endpointConfig part) (rawPart request part)
      = SafeParseError errors ->
    (forall earlier, partBefore earlier part = true ->
       exists data,
         partResult (declaredPart endpointConfig earlier) (rawPart request earlier)
           = SafeParseSuccess data) ->
    validatedHandler endpointConfig request w =
    (Normal (Replied 400 (badRequest (map (requestFieldError part) errors))),
     mkWorld (console w)
       (journal w ++ requestSteps endpointConfig (partsUpTo part) ++ [EvReplySend 400])
       (store w)
       (firstSend (sent w) 400
          (payloadValue (badRequest (map (requestFieldError part) errors))))).
Proof.
  intros ep req w part errors Hfail Hearlier.
  unfold validatedHandler, tryCatch, tryBlock, bind.
  destruct part; cbn [declaredPart rawPart] in Hfail.
  - rewrite validatePart_run, Hfail. cbn.
    unfold replySend, send, bind, emit, ret. cbn.
    rewrite app_nil_r, <- app_assoc. reflexivity.
  - destruct (Hearlier PQuery eq_refl) as [vq Hq]. cbn in Hq.
    rewrite validatePart_run, Hq, validatePart_run, Hfail. cbn.
    unfold replySend, send, bind, emit, ret. cbn.
    rewrite app_nil_r, <- !app_assoc. reflexivity.
  - destruct (Hearlier PQuery eq_refl) as [vq Hq]. cbn in Hq.
    destruct (Hearlier PBody eq_refl) as [vb Hb]. cbn in Hb.
    rewrite validatePart_run, Hq, validatePart_run, Hb, validatePart_run, Hfail.
    cbn. unfold replySend, send, bind, emit, ret. cbn.
    rewrite app_nil_r, <- !app_assoc. reflexivity.
Qed.
Ltac run_validation Hvalid Hhandler :=
  destruct Hvalid as (Hq & Hb & Hp);
  unfold validatedHandler, tryCatch, tryBlock, bind;
  rewrite validatePart_run, Hq, validatePart_run, Hb, validatePart_run, Hp;
  rewrite callHandler_run; cbn [store addSteps fst snd];
  rewrite Hhandler; cbn [console journal store sent fst snd].

Ltac finish_run :=
  unfold catchBlock, replySend, send, consoleError, throw, bind, emit, ret, addSteps,
    requestSteps, allParts;
  cbn [console journal store sent fst snd flat_map];
  rewrite ?app_nil_r, <- ?app_assoc; cbn [app]; try reflexivity.

(** The run of [validatedHandler] when the handler throws. *)
Lemma validatedHandler_thrown endpointConfig request w vq vb vp e store' own :
  validatesTo endpointConfig request vq vb vp ->
  handler endpointConfig (typedRequestOf request vq vb vp) (store w)
    = (Throws e, store', own) ->
  validatedHandler endpointConfig request w =
  catchBlock e
    (mkWorld (console w)
       (journal w ++ requestSteps endpointConfig allParts
          ++ [EvHandlerCall (typedRequestOf request vq vb vp)])
       store' (ownSend own (sent w))).
Proof.
  intros Hvalid Hthrow. run_validation Hvalid Hthrow.
  f_equal. finish_run.
Qed.

(** The run of [validatedHandler] when the response guard fails on a
    result that can be serialised for the log. *)
Lemma validatedHandler_guard_failed endpointConfig request w vq vb vp
    result store' own errors :
  validatesTo endpointConfig request vq vb vp ->
  handler endpointConfig (typedRequestOf request vq vb vp) (store w)
    = (Normal result, store', own) ->
  safeParse (applyStrict (response endpointConfig)) result
    = SafeParseError errors ->
  hasBigInt result = false ->
  validatedHandler endpointConfig request w =
  (Normal (Replied 500 (invalidResponse (map responseFieldError errors))),
   mkWorld
     (console w ++ [{| log_label := "Response validation failed:";
                       log_url := r_url request;
                       log_method := r_method request;
                       log_errors := errors;
                       log_response := result |}])
     (journal w ++ requestSteps endpointConfig allParts
        ++ [EvHandlerCall (typedRequestOf request vq vb vp);
            EvResponseGuard; EvReplySend 500])
     store'
     (firstSend (ownSend own (sent w)) 500
        (payloadValue (invalidResponse (map responseFieldError errors))))).
Proof.
  intros Hvalid Hreturn Hguard Hjson. run_validation Hvalid Hreturn.
  unfold emit. cbn [console journal store sent].
  rewrite Hguard, Hjson. finish_run.
Qed.

(** The run of [validatedHandler] when the response guard fails on a
    result that [JSON.stringify] refuses: the error of [JSON.stringify]
    is thrown on, nothing is logged and no reply is sent. *)
Lemma validatedHandler_unserialisable endpointConfig request w vq vb vp
    result store' own errors :
  validatesTo endpointConfig request vq vb vp ->
  handler endpointConfig (typedRequestOf request vq vb vp) (store w)
    = (Normal result, store', own) ->
  safeParse (applyStrict (response endpointConfig)) result
    = SafeParseError errors ->
  hasBigInt result = true ->
  validatedHandler endpointConfig request w =
  (Throws stringifyError,
   mkWorld (console w)
     (journal w ++ requestSteps endpointConfig allParts
        ++ [EvHandlerCall (typedRequestOf request vq vb vp); EvResponseGuard])
     store' (ownSend own (sent w))).
Proof.
  intros Hvalid Hreturn Hguard Hjson. run_validation Hvalid Hreturn.
  unfold emit. cbn [console journal store sent].
  rewrite Hguard, Hjson. finish_run.
Qed.

(** The run of [validatedHandler] when the response guard passes. *)
Lemma validatedHandler_returned endpointConfig request w vq vb vp
    result store' own data :
  validatesTo endpointConfig request vq vb vp ->
  handler endpointConfig (typedRequestOf request vq vb vp) (store w)
    = (Normal result, store', own) ->
  safeParse (applyStrict (response endpointConfig)) result
    = SafeParseSuccess data ->
  validatedHandler endpointConfig request w =
  (Normal (Returned result),
   mkWorld (console w)
     (journal w ++ requestSteps endpointConfig allParts
        ++ [EvHandlerCall (typedRequestOf request vq vb vp);
            EvResponseGuard; EvReturn])
     store' (ownSend own (sent w))).
Proof.
  intros Hvalid Hreturn Hguard. run_validation Hvalid Hreturn.
  unfold emit. cbn [console journal store sent].
  rewrite Hguard. finish_run.
Qed.

(** Either some part is the first to fail, or all three pass. *)
Lemma validation_cases endpointConfig request :
  (exists part errors,
      partResult (declaredPart endpointConfig part) (rawPart request part)
        = SafeParseError errors
      /\ forall earlier, partBefore earlier part = true ->
           exists data,
             partResult (declaredPart endpointConfig earlier)
               (rawPart request earlier) = SafeParseSuccess data)
  \/ (exists vq vb vp, validatesTo endpointConfig request vq vb vp).
Proof.
  destruct (partResult (query endpointConfig) (r_query request)) as [vq|eq] eqn:Hq.
  2:{ left. exists PQuery, eq. split; [exact Hq|]. intros [] H; discriminate. }
  destruct (partResult (body endpointConfig) (r_body request)) as [vb|eb] eqn:Hb.
  2:{ left. exists PBody, eb. split; [exact Hb|].
      intros [] H; try discriminate. now exists vq. }
  destruct (partResult (params endpointConfig) (r_params request)) as [vp|ep] eqn:Hp.
  2:{ left. exists PParams, ep. split; [exact Hp|].
      intros [] H; try discriminate; [now exists vq | now exists vb]. }
  right. exists vq, vb, vp. repeat split; assumption.
Qed.

Lemma requestSteps_not_handler endpointConfig parts e :
  In e (requestSteps endpointConfig parts) -> isHandlerCall e = false.
Proof.
  unfold requestSteps. rewrite in_flat_map. intros (part & _ & Hin).
  unfold partSteps in Hin. destruct (declaredPart endpointConfig part); cbn in Hin.
  - destruct Hin as [<-|[]]. reflexivity.
  - destruct Hin.
Qed.

(** The catch block sends one reply or throws the error on; it leaves
    the console and the state of the handlers alone. *)
Lemma catchBlock_run e w :
  exists completion steps sent',
    catchBlock (St := St) e w
      = (completion, mkWorld (console w) (journal w ++ steps) (store w) sent')
    /\ In steps [[]; [EvReplySend 404]; [EvReplySend 400]; [EvReplySend 500]].
Proof.
  destruct w as [c j s r].
  destruct e; cbn; unfold replySend, send, throw, bind, emit, ret; cbn.
  - exists (Normal (Replied 400 (badRequest details))), [EvReplySend 400].
    eexists. split; [reflexivity | cbn; tauto].
  - exists (Normal (Replied 500 (invalidResponse details))), [EvReplySend 500].
    eexists. split; [reflexivity | cbn; tauto].
  - exists (Normal (Replied 404 (notFound msg))), [EvReplySend 404].
    eexists. split; [reflexivity | cbn; tauto].
  - exists (Throws (OtherError name msg)), [], r.
    split; [now rewrite app_nil_r | cbn; tauto].
Qed.

(** The cases of one run of [validatedHandler] after the parts have
    passed: what the handler does, and what the guard says. *)
Lemma handler_cases endpointConfig request w vq vb vp :
  (exists e store' own,
      handler endpointConfig (typedRequestOf request vq vb vp) (store w)
        = (Throws e, store', own))
  \/ (exists result store' own data,
        handler endpointConfig (typedRequestOf request vq vb vp) (store w)
          = (Normal result, store', own)
        /\ safeParse (applyStrict (response endpointConfig)) result
           = SafeParseSuccess data)
  \/ (exists result store' own errors,
        handler endpointConfig (typedRequestOf request vq vb vp) (store w)
          = (Normal result, store', own)
        /\ safeParse (applyStrict (response endpointConfig)) result
           = SafeParseError errors).
Proof.
  destruct (handler endpointConfig (typedRequestOf request vq vb vp) (store w))
    as [[[result|e] store'] own] eqn:Hhandler.
  - destruct (safeParse (applyStrict (response endpointConfig)) result)
      as [data|errors] eqn:Hguard.
    + right. left. exists result, store', own, data. now split.
    + right. right. exists result, store', own, errors. now split.
  - left. now exists e, store', own.
Qed.

(** The shapes of the steps of one run of [validatedHandler]. *)
Lemma validatedHandler_steps endpointConfig request w :
  (exists part,
      stepsOf (validatedHandler endpointConfig request) w
        = requestSteps endpointConfig (partsUpTo part) ++ [EvReplySend 400]
      /\ exists errors,
           partResult (declaredPart endpointConfig part) (rawPart request part)
             = SafeParseError errors)
  \/ (exists vq vb vp tail,
        validatesTo endpointConfig request vq vb vp
        /\ stepsOf (validatedHandler endpointConfig request) w
            = requestSteps endpointConfig allParts
                ++ EvHandlerCall (typedRequestOf request vq vb vp) :: tail
        /\ In tail [[]; [EvReplySend 404]; [EvReplySend 400]; [EvReplySend 500];
                    [EvResponseGuard; EvReplySend 500];
                    [EvResponseGuard];
                    [EvResponseGuard; EvReturn]]).
Proof.
  destruct (validation_cases endpointConfig request)
    as [(part & errors & Hfail & Hearlier) | (vq & vb & vp & Hvalid)].
  - left. exists part. split; [|now exists errors].
    eapply stepsOf_addSteps.
    rewrite (validatedHandler_rejected _ _ w _ _ Hfail Hearlier). reflexivity.
  - right. exists vq, vb, vp.
    destruct (handler_cases endpointConfig request w vq vb vp)
      as [(e & store' & own & Hhandler)
         | [(result & store' & own & data & Hhandler & Hguard)
           | (result & store' & own & errors & Hhandler & Hguard)]].
    + destruct (catchBlock_run e
                  (mkWorld (console w)
                     (journal w ++ requestSteps endpointConfig allParts
                        ++ [EvHandlerCall (typedRequestOf request vq vb vp)])
                     store' (ownSend own (sent w))))
        as (completion & steps & sent' & Hcatch & Hsteps).
      exists steps. split; [exact Hvalid|]. split.
      * eapply stepsOf_addSteps.
        rewrite (validatedHandler_thrown _ _ w _ _ _ _ _ _ Hvalid Hhandler), Hcatch.
        cbn [console journal store]. rewrite <- !app_assoc. reflexivity.
      * cbn in Hsteps |- *. tauto.
    + exists [EvResponseGuard; EvReturn]. split; [exact Hvalid|]. split.
      * eapply stepsOf_addSteps.
        rewrite (validatedHandler_returned _ _ w _ _ _ _ _ _ _ Hvalid Hhandler Hguard).
        reflexivity.
      * cbn; tauto.
    + destruct (hasBigInt result) eqn:Hjson.
      * exists [EvResponseGuard]. split; [exact Hvalid|]. split.
        -- eapply stepsOf_addSteps.
           rewrite (validatedHandler_unserialisable _ _ w _ _ _ _ _ _ _
                      Hvalid Hhandler Hguard Hjson).
           reflexivity.
        -- cbn; tauto.
      * exists [EvResponseGuard; EvReplySend 500]. split; [exact Hvalid|]. split.
        -- eapply stepsOf_addSteps.
           rewrite (validatedHandler_guard_failed _ _ w _ _ _ _ _ _ _
                      Hvalid Hhandler Hguard Hjson).
           reflexivity.
        -- cbn; tauto.
Qed.

(** The handler is called only after all parts pass, and with the
    typed request built from the validated values. *)
Lemma handlerCall_typedRequest endpointConfig request w typedRequest :
  In (EvHandlerCall typedRequest)
     (stepsOf (validatedHandler endpointConfig request) w) ->
  exists vq vb vp,
    validatesTo endpointConfig request vq vb vp
    /\ typedRequest = typedRequestOf request vq vb vp.
Proof.
  intros Hin.
  destruct (validatedHandler_steps endpointConfig request w)
    as [(part & Hsteps & _) | (vq & vb & vp & tail & Hvalid & Hsteps & Htail)];
    rewrite Hsteps in Hin; apply in_app_or in Hin.
  - destruct Hin as [Hin|[Hin|[]]]; [|discriminate].
    apply requestSteps_not_handler in Hin. discriminate.
  - exists vq, vb, vp. split; [exact Hvalid|].
    destruct Hin as [Hin|[Hin|Hin]].
    + apply requestSteps_not_handler in Hin. discriminate.
    + now inversion Hin.
    + exfalso. cbn in Htail.
      repeat (destruct Htail as [<-|Htail]; [cbn in Hin; intuition discriminate|]).
      exact Htail.
Qed.


(** A run of [validatedHandler] only adds steps to the journal. *)
Lemma validatedHandler_journal endpointConfig request w :
  journal (snd (validatedHandler endpointConfig request w))
  = journal w ++ stepsOf (validatedHandler endpointConfig request) w.
Proof.
  assert (Hshape : exists steps,
             journal (snd (validatedHandler endpointConfig request w))
             = journal w ++ steps).
  { destruct (validation_cases endpointConfig request)
      as [(part & errors & Hfail & Hearlier) | (vq & vb & vp & Hvalid)].
    - rewrite (validatedHandler_rejected _ _ w _ _ Hfail Hearlier). eexists. reflexivity.
    - destruct (handler_cases endpointConfig request w vq vb vp)
        as [(e & store' & own & Hhandler)
           | [(result & store' & own & data & Hhandler & Hguard)
             | (result & store' & own & errors & Hhandler & Hguard)]].
      + destruct (catchBlock_run e
                    (mkWorld (console w)
                       (journal w ++ requestSteps endpointConfig allParts
                          ++ [EvHandlerCall (typedRequestOf request vq vb vp)])
                       store' (ownSend own (sent w))))
          as (completion & steps & sent' & Hcatch & Hsteps).
        rewrite (validatedHandler_thrown _ _ w _ _ _ _ _ _ Hvalid Hhandler), Hcatch.
        cbn [snd console journal store]. rewrite <- !app_assoc. eexists. reflexivity.
      + rewrite (validatedHandler_returned _ _ w _ _ _ _ _ _ _ Hvalid Hhandler Hguard).
        eexists. reflexivity.
      + destruct (hasBigInt result) eqn:Hjson.
        * rewrite (validatedHandler_unserialisable _ _ w _ _ _ _ _ _ _
                     Hvalid Hhandler Hguard Hjson). eexists. reflexivity.
        * rewrite (validatedHandler_guard_failed _ _ w _ _ _ _ _ _ _
                     Hvalid Hhandler Hguard Hjson). eexists. reflexivity. }
  destruct Hshape as [steps Hsteps].
  now rewrite (stepsOf_journal _ _ _ Hsteps).
Qed.

(** The steps of [validatedHandler] are none of the framework's
    validation, nor of the pre-handler. *)
Lemma validatedHandler_steps_index endpointConfig request w :
  Forall (fun e => 5 <= stepIndex e <= 10)
    (stepsOf (validatedHandler endpointConfig request) w).
Proof.
  assert (Hparse : forall parts,
             Forall (fun e => 5 <= stepIndex e <= 10)
               (requestSteps endpointConfig parts)).
  { intros parts. apply Forall_forall. intros e He.
    unfold requestSteps in He. apply in_flat_map in He as (part & _ & He).
    unfold partSteps in He.
    destruct (declaredPart endpointConfig part); [|destruct He].
    destruct He as [<-|[]]. destruct part; cbn; lia. }
  destruct (validatedHandler_steps endpointConfig request w)
    as [(part & Hsteps & _) | (vq & vb & vp & tail & _ & Hsteps & Htail)];
    rewrite Hsteps; apply Forall_app; split; try apply Hparse.
  - repeat constructor; cbn; lia.
  - constructor; [cbn; lia|]. cbn in Htail.
    repeat (destruct Htail as [<-|Htail]; [repeat constructor; cbn; lia|]).
    destruct Htail.
Qed.

(** A run of [validatedHandler] that does not call the handler leaves
    its state as it was. *)
Lemma validatedHandler_store endpointConfig request w :
  (forall typedRequest,
      ~ In (EvHandlerCall typedRequest)
           (stepsOf (validatedHandler endpointConfig request) w)) ->
  store (snd (validatedHandler endpointConfig request w)) = store w.
Proof.
  intros Hnocall.
  destruct (validation_cases endpointConfig request)
    as [(part & errors & Hfail & Hearlier) | (vq & vb & vp & Hvalid)].
  - now rewrite (validatedHandler_rejected _ _ w _ _ Hfail Hearlier).
  - exfalso. apply (Hnocall (typedRequestOf request vq vb vp)).
    destruct (validatedHandler_steps endpointConfig request w)
      as [(part & _ & errors & Hfail) | (vq' & vb' & vp' & tail & Hvalid' & Hsteps & _)].
    + destruct Hvalid as (Hq & Hb & Hp).
      destruct part; cbn in Hfail; congruence.
    + destruct Hvalid as (Hq & Hb & Hp). destruct Hvalid' as (Hq' & Hb' & Hp').
      rewrite Hsteps. apply in_or_app. right. left.
      congruence.
Qed.
End PipelineFacts.


(** ** Splitting the Authorization header *)

Lemma split_nonempty (sep : ascii) (s : string) : split sep s <> [].
Proof.
  destruct s as [|c rest]; cbn; [discriminate|].
  destruct (Ascii.eqb c sep); [discriminate|].
  destruct (split sep rest); discriminate.
Qed.

(** A string without the separator is a single segment. *)
Lemma split_without_separator (sep : ascii) (s : string) :
  hasChar sep s = false -> split sep s = [s].
Proof.
  induction s as [|c rest IH]; cbn; [reflexivity|].
  rewrite Ascii.eqb_sym. intros H. apply orb_false_elim in H as [Hc Hrest].
  rewrite Hc, (IH Hrest). reflexivity.
Qed.

(** Joining the segments with the separator gives the string back. *)
Lemma join_split (sep : ascii) (s : string) :
  join (String sep EmptyString) (split sep s) = s.
Proof.
  unfold join. induction s as [|c rest IH]; cbn; [reflexivity|].
  pose proof (split_nonempty sep rest) as Hne.
  destruct (Ascii.eqb_spec c sep) as [->|Hc].
  - cbn. destruct (split sep rest) as [|seg segs]; [contradiction|].
    cbn in IH |- *. now rewrite IH.
  - destruct (split sep rest) as [|seg segs]; [contradiction|].
    cbn in IH |- *. destruct segs; cbn in IH |- *; now rewrite IH.
Qed.

(** No segment contains the separator. *)
Lemma split_segments (sep : ascii) (s : string) :
  Forall (fun seg => hasChar sep seg = false) (split sep s).
Proof.
  induction s as [|c rest IH]; cbn.
  - constructor; [reflexivity|constructor].
  - destruct (Ascii.eqb_spec c sep) as [->|Hc].
    + constructor; [reflexivity|exact IH].
    + destruct (split sep rest) as [|seg segs]; inversion IH; subst.
      * constructor; [|constructor]. cbn.
        destruct (Ascii.eqb_spec sep c); [congruence|reflexivity].
      * constructor; [|assumption]. unfold hasChar in *. cbn.
        destruct (Ascii.eqb_spec sep c); [congruence|assumption].
Qed.

(** The test of [authenticateToken] on the parts of the header: exactly
    two parts, the first being [Bearer], means that the header is
    [Bearer], one space, and a token without a space. *)
Lemma bearer_parts (h : string) :
  orb (negb (Nat.eqb (List.length (split " " h)) 2))
      (negb (String.eqb (nth 0 (split " " h) "") "Bearer")) = false
  <-> exists token,
        h = ("Bearer " ++ token)%string /\ hasChar " " token = false.
Proof.
  split.
  - intros H. apply orb_false_elim in H as [Hlen Hscheme].
    apply negb_false_iff in Hlen, Hscheme.
    apply Nat.eqb_eq in Hlen. apply String.eqb_eq in Hscheme.
    pose proof (join_split " " h) as Hjoin.
    pose proof (split_segments " " h) as Hsegs.
    destruct (split " " h) as [|scheme [|token [|extra rest]]]; try discriminate.
    cbn in Hscheme, Hjoin. subst scheme. exists token. split.
    + now rewrite <- Hjoin.
    + inversion Hsegs as [|? ? _ Htail]; subst. now inversion Htail.
  - intros (token & -> & Htoken). cbn.
    rewrite (split_without_separator " " token Htoken). reflexivity.
Qed.

Lemma bearer_token (token : string) :
  hasChar " " token = false ->
  nth 1 (split " " ("Bearer " ++ token)) "" = token.
Proof.
  intros Htoken. cbn. now rewrite (split_without_separator " " token Htoken).
Qed.

(** ** The bearer-token pre-handler *)

Section AuthFacts.
Context {St : Type}.
Implicit Types (w : World St) (serverConfig : APIServerConfig).

(** The run of [authenticateToken] on an absent or empty header. *)
Lemma authenticateToken_missing serverConfig request w :
  falsy (r_authorization request) = true ->
  authenticateToken serverConfig request w =
  (Normal (HookReplied 401 (unauthorized missingHeader)),
   replyWorld w [EvAuthCheck; EvReplySend 401] 401 (unauthorized missingHeader)).
Proof.
  intros Hfalsy. unfold authenticateToken, bind, emit. cbn.
  rewrite Hfalsy. unfold replySend, send, bind, emit, ret, replyWorld. cbn.
  now rewrite <- app_assoc.
Qed.

(** The run on a header that is not [Bearer], a space and a token
    without a space. *)
Lemma authenticateToken_malformed serverConfig request w h :
  r_authorization request = Some h -> h <> "" ->
  (forall token, h = ("Bearer " ++ token)%string -> hasChar " " token = true) ->
  authenticateToken serverConfig request w =
  (Normal (HookReplied 401 (unauthorized badHeaderFormat)),
   replyWorld w [EvAuthCheck; EvReplySend 401] 401 (unauthorized badHeaderFormat)).
Proof.
  intros Hheader Hne Hshape. unfold authenticateToken, bind, emit. cbn.
  rewrite Hheader. cbn [falsy].
  destruct (String.eqb_spec h ""); [contradiction|].
  destruct (orb (negb (Nat.eqb (List.length (split " " h)) 2))
                (negb (String.eqb (nth 0 (split " " h) "") "Bearer"))) eqn:Htest.
  - unfold replySend, send, bind, emit, ret, replyWorld. cbn.
    now rewrite <- app_assoc.
  - apply bearer_parts in Htest as (token & Heq & Htoken).
    rewrite (Hshape token Heq) in Htoken. discriminate.
Qed.

Lemma bearer_header_test (token : string) :
  hasChar " " token = false ->
  String.eqb ("Bearer " ++ token) "" = false
  /\ orb (negb (Nat.eqb (List.length (split " " ("Bearer " ++ token))) 2))
         (negb (String.eqb (nth 0 (split " " ("Bearer " ++ token)) "") "Bearer"))
     = false.
Proof.
  intros Htoken. split; [reflexivity|].
  apply bearer_parts. now exists token.
Qed.

(** The run on a well-formed header whose token is not accepted. *)
Lemma authenticateToken_rejected serverConfig request w token :
  r_authorization request = Some ("Bearer " ++ token)%string ->
  hasChar " " token = false ->
  accepts (apiToken serverConfig) token request = false ->
  authenticateToken serverConfig request w =
  (Normal (HookReplied 403
             (forbidden (rejectionMessage (apiToken serverConfig) token request))),
   replyWorld w
     (EvAuthCheck :: validatorSteps (apiToken serverConfig) token ++ [EvReplySend 403])
     403 (forbidden (rejectionMessage (apiToken serverConfig) token request))).
Proof.
  intros Hheader Htoken Hrejects.
  destruct (bearer_header_test token Htoken) as [Hnonempty Htest].
  unfold authenticateToken, bind, emit. cbn [fst snd console journal store sent].
  rewrite Hheader. cbn [falsy]. rewrite Hnonempty, Htest.
  rewrite (bearer_token token Htoken).
  unfold accepts in Hrejects.
  destruct (apiToken serverConfig) as [secret|validator];
    cbn [rejectionMessage validatorSteps]; rewrite Hrejects; cbn [negb];
    unfold replySend, send, bind, emit, ret, replyWorld; cbn;
    now rewrite <- !app_assoc.
Qed.

(** The run on a well-formed header whose token is accepted. *)
Lemma authenticateToken_accepted serverConfig request w token :
  r_authorization request = Some ("Bearer " ++ token)%string ->
  hasChar " " token = false ->
  accepts (apiToken serverConfig) token request = true ->
  authenticateToken serverConfig request w =
  (Normal (HookDone (authenticatedRequest (apiToken serverConfig) token request)),
   addSteps w (EvAuthCheck :: validatorSteps (apiToken serverConfig) token)).
Proof.
  intros Hheader Htoken Haccepts.
  destruct (bearer_header_test token Htoken) as [Hnonempty Htest].
  unfold authenticateToken, bind, emit. cbn [fst snd console journal store sent].
  rewrite Hheader. cbn [falsy]. rewrite Hnonempty, Htest.
  rewrite (bearer_token token Htoken).
  unfold accepts in Haccepts. unfold authenticatedRequest.
  destruct (apiToken serverConfig) as [secret|validator];
    cbn [suppliedContext validatorSteps isUndefined]; rewrite Haccepts; cbn [negb].
  - unfold ret, addSteps. cbn. reflexivity.
  - destruct (isUndefined (context (validator token request)));
      unfold ret, addSteps; cbn; now rewrite <- !app_assoc.
Qed.

(** The header is absent or empty, malformed, or well formed. *)
Lemma header_cases (header : option string) :
  falsy header = true
  \/ (exists h, header = Some h /\ h <> ""
        /\ forall token, h = ("Bearer " ++ token)%string ->
                         hasChar " " token = true)
  \/ (exists token, header = Some ("Bearer " ++ token)%string
        /\ hasChar " " token = false).
Proof.
  destruct header as [h|]; [|left; reflexivity].
  destruct (String.eqb_spec h "") as [->|Hne]; [left; reflexivity|].
  right.
  destruct (orb (negb (Nat.eqb (List.length (split " " h)) 2))
                (negb (String.eqb (nth 0 (split " " h) "") "Bearer"))) eqn:Htest.
  - left. exists h. repeat split; try assumption.
    intros token Heq. destruct (hasChar " " token) eqn:Htoken; [reflexivity|].
    assert (Hfalse : orb (negb (Nat.eqb (List.length (split " " h)) 2))
              (negb (String.eqb (nth 0 (split " " h) "") "Bearer")) = false)
      by (apply bearer_parts; now exists token).
    congruence.
  - right. apply bearer_parts in Htest as (token & -> & Htoken). now exists token.
Qed.
End AuthFacts.

(** ** The token check, case by case *)

Section AuthCases.
Context {St : Type}.
Implicit Types (w : World St) (serverConfig : APIServerConfig).

Lemma validatorSteps_shape (credential : ApiToken) token :
  Forall validatorStep (validatorSteps credential token)
  /\ List.length (validatorSteps credential token) <= 1.
Proof.
  destruct credential; cbn; split; auto; repeat constructor.
Qed.

(** The pre-handler either replies 401 or 403, or passes a request
    with the same query, body and params on. *)
Lemma authenticateToken_cases serverConfig request w :
  (exists code payload pre,
      authenticateToken serverConfig request w
      = (Normal (HookReplied code payload),
         replyWorld w (EvAuthCheck :: pre ++ [EvReplySend code]) code payload)
      /\ (code = 401 \/ code = 403)%Z
      /\ payloadDetails payload = None
      /\ Forall validatorStep pre /\ List.length pre <= 1)
  \/ (exists token,
        r_authorization request = Some ("Bearer " ++ token)%string
        /\ hasChar " " token = false
        /\ accepts (apiToken serverConfig) token request = true
        /\ authenticateToken serverConfig request w
           = (Normal (HookDone
                        (authenticatedRequest (apiToken serverConfig) token request)),
              addSteps w (EvAuthCheck :: validatorSteps (apiToken serverConfig) token))).
Proof.
  destruct (header_cases (r_authorization request))
    as [Hfalsy | [(h & Hheader & Hne & Hshape) | (token & Hheader & Htoken)]].
  - left. exists 401%Z, (unauthorized missingHeader), [].
    rewrite (authenticateToken_missing serverConfig request w Hfalsy).
    repeat split; auto.
  - left. exists 401%Z, (unauthorized badHeaderFormat), [].
    rewrite (authenticateToken_malformed serverConfig request w h Hheader Hne Hshape).
    repeat split; auto.
  - destruct (validatorSteps_shape (apiToken serverConfig) token) as [Hall Hlen].
    destruct (accepts (apiToken serverConfig) token request) eqn:Haccepts.
    + right. exists token.
      rewrite (authenticateToken_accepted serverConfig request w token
                 Hheader Htoken Haccepts).
      repeat split; auto.
    + left. exists 403%Z,
        (forbidden (rejectionMessage (apiToken serverConfig) token request)),
        (validatorSteps (apiToken serverConfig) token).
      rewrite (authenticateToken_rejected serverConfig request w token
                 Hheader Htoken Haccepts).
      repeat split; auto.
Qed.

(** What the token check answers does not depend on the world. *)
Lemma authenticateToken_answer serverConfig request w w' :
  fst (authenticateToken serverConfig request w)
  = fst (authenticateToken serverConfig request w').
Proof.
  destruct (header_cases (r_authorization request))
    as [Hfalsy | [(h & Hheader & Hne & Hshape) | (token & Hheader & Htoken)]].
  - now rewrite !(authenticateToken_missing serverConfig request _ Hfalsy).
  - now rewrite !(authenticateToken_malformed serverConfig request _ h Hheader Hne Hshape).
  - destruct (accepts (apiToken serverConfig) token request) eqn:Haccepts.
    + now rewrite !(authenticateToken_accepted serverConfig request _ token
                      Hheader Htoken Haccepts).
    + now rewrite !(authenticateToken_rejected serverConfig request _ token
                      Hheader Htoken Haccepts).
Qed.

Lemma authenticatedRequest_parts (credential : ApiToken) token request :
  r_query (authenticatedRequest credential token request) = r_query request
  /\ r_body (authenticatedRequest credential token request) = r_body request
  /\ r_params (authenticatedRequest credential token request) = r_params request
  /\ r_url (authenticatedRequest credential token request) = r_url request
  /\ r_method (authenticatedRequest credential token request) = r_method request.
Proof.
  unfold authenticatedRequest.
  destruct (isUndefined (suppliedContext credential token request));
    repeat split; reflexivity.
Qed.
End AuthCases.

(** ** The registered route *)

(** The schemas that the library registers for error replies keep the
    status code, the error and the message of a payload, and drop its
    details. *)
Lemma ErrorResponseSchema_parse (payload : ErrorPayload) :
  safeParse ErrorResponseSchema (payloadValue payload)
  = SafeParseSuccess (wirePayload payload).
Proof. destruct payload as [code err msg [details|]]; reflexivity. Qed.

Lemma authErrorSchema_parse (payload : ErrorPayload) :
  safeParse authErrorSchema (payloadValue payload)
  = SafeParseSuccess (wirePayload payload).
Proof. destruct payload as [code err msg [details|]]; reflexivity. Qed.

Section RouteFacts.
Context {Schema : Type} {zod : ZodTypeAny Schema} {St : Type}.
Implicit Types (w : World St) (endpointConfig : EndpointConfig Schema St)
  (serverConfig : APIServerConfig) (schema : RouteSchema Schema).

(** *** The validation of the framework *)

Lemma validateParts_cons schema part rest request :
  validateParts schema (part :: rest) request
  = match frameworkResult schema request part with
    | SafeParseError issues =>
        (registeredSteps schema [part], Rejected part issues)
    | SafeParseSuccess data =>
        (registeredSteps schema [part]
           ++ fst (validateParts schema rest (validatedPart schema request part data)),
         snd (validateParts schema rest (validatedPart schema request part data)))
    end.
Proof.
  unfold frameworkResult, validatedPart, registeredSteps.
  cbn [validateParts flat_map]. rewrite app_nil_r.
  destruct (registeredSchema schema part) as [validator|].
  - destruct (safeParse validator
                (if isUndefined (rawPart request part) then VNull
                 else rawPart request part)) as [data|issues]; [|reflexivity].
    destruct (validateParts schema rest
                (if truthy data then setPart request part data else request));
      reflexivity.
  - destruct (validateParts schema rest request); reflexivity.
Qed.

Lemma rawPart_validatedPart schema request changed data part :
  changed <> part ->
  rawPart (validatedPart schema request changed data) part = rawPart request part.
Proof.
  intros Hne. unfold validatedPart.
  destruct (registeredSchema schema changed); [|reflexivity].
  destruct (truthy data); [|reflexivity].
  destruct changed, part; try contradiction; reflexivity.
Qed.

Lemma rawPart_validatedPart_same schema request part data :
  rawPart (validatedPart schema request part data) part
  = match registeredSchema schema part with
    | Some _ => if truthy data then data else rawPart request part
    | None => rawPart request part
    end.
Proof.
  unfold validatedPart.
  destruct (registeredSchema schema part); [|reflexivity].
  destruct (truthy data); [|reflexivity]. destruct part; reflexivity.
Qed.

Lemma frameworkResult_validatedPart schema request changed data part :
  changed <> part ->
  frameworkResult schema (validatedPart schema request changed data) part
  = frameworkResult schema request part.
Proof.
  intros Hne. unfold frameworkResult.
  now rewrite (rawPart_validatedPart schema request changed data part Hne).
Qed.

Lemma validatedPart_keeps schema request part data :
  r_url (validatedPart schema request part data) = r_url request
  /\ r_method (validatedPart schema request part data) = r_method request
  /\ r_authorization (validatedPart schema request part data)
     = r_authorization request
  /\ r_auth (validatedPart schema request part data) = r_auth request.
Proof.
  unfold validatedPart.
  destruct (registeredSchema schema part); [|now repeat split].
  destruct (truthy data); now repeat split.
Qed.

(** The validation of the framework, part by part: either some part is
    the first that its validator rejects, and the later parts are not
    validated, or every part passes and the request goes on with the
    parsed data of the registered parts. *)
Lemma validate_spec schema request :
  (exists part issues,
      validate schema request
        = (registeredSteps schema (frameworkUpTo part), Rejected part issues)
      /\ frameworkResult schema request part = SafeParseError issues
      /\ forall earlier, frameworkBefore earlier part = true ->
           exists data,
             frameworkResult schema request earlier = SafeParseSuccess data)
  \/ (exists validated,
        validate schema request
          = (registeredSteps schema frameworkOrder, Passed validated)
        /\ (forall part, exists data,
               frameworkResult schema request part = SafeParseSuccess data
               /\ rawPart validated part
                  = match registeredSchema schema part with
                    | Some _ => if truthy data then data else rawPart request part
                    | None => rawPart request part
                    end)
        /\ r_url validated = r_url request
        /\ r_method validated = r_method request
        /\ r_authorization validated = r_authorization request
        /\ r_auth validated = r_auth request).
Proof.
  unfold validate, frameworkOrder.
  rewrite validateParts_cons.
  destruct (frameworkResult schema request PParams) as [dp|ip] eqn:Hp.
  2:{ left. exists PParams, ip. split; [reflexivity|]. split; [exact Hp|].
      intros [] H; discriminate. }
  set (r1 := validatedPart schema request PParams dp).
  rewrite validateParts_cons.
  assert (Hb1 : frameworkResult schema r1 PBody
                = frameworkResult schema request PBody)
    by (apply frameworkResult_validatedPart; discriminate).
  rewrite Hb1.
  destruct (frameworkResult schema request PBody) as [db|ib] eqn:Hb.
  2:{ left. exists PBody, ib. cbn [fst snd].
      split; [unfold registeredSteps; cbn [flat_map frameworkUpTo];
              now rewrite !app_nil_r|].
      split; [exact Hb|].
      intros [] H; try discriminate. now exists dp. }
  set (r2 := validatedPart schema r1 PBody db).
  rewrite validateParts_cons.
  assert (Hq2 : frameworkResult schema r2 PQuery
                = frameworkResult schema request PQuery).
  { unfold r2, r1. rewrite !frameworkResult_validatedPart by discriminate.
    reflexivity. }
  rewrite Hq2.
  destruct (frameworkResult schema request PQuery) as [dq|iq] eqn:Hq.
  2:{ left. exists PQuery, iq. cbn [fst snd].
      split; [unfold registeredSteps; cbn [flat_map frameworkUpTo];
              now rewrite !app_nil_r|].
      split; [exact Hq|].
      intros [] H; try discriminate; [now exists db | now exists dp]. }
  right. exists (validatedPart schema r2 PQuery dq). cbn [validateParts fst snd].
  split; [unfold registeredSteps; cbn [flat_map]; now rewrite !app_nil_r|].
  split.
  - intros [].
    + exists dq. split; [exact Hq|].
      rewrite rawPart_validatedPart_same. unfold r2, r1.
      now rewrite !rawPart_validatedPart by discriminate.
    + exists db. split; [exact Hb|].
      rewrite rawPart_validatedPart by discriminate. unfold r2.
      rewrite rawPart_validatedPart_same. unfold r1.
      now rewrite !rawPart_validatedPart by discriminate.
    + exists dp. split; [exact Hp|].
      rewrite rawPart_validatedPart by discriminate. unfold r2.
      rewrite rawPart_validatedPart by discriminate. unfold r1.
      now rewrite rawPart_validatedPart_same.
  - destruct (validatedPart_keeps schema r2 PQuery dq) as (Hu3 & Hm3 & Ha3 & Hx3).
    destruct (validatedPart_keeps schema r1 PBody db) as (Hu2 & Hm2 & Ha2 & Hx2).
    destruct (validatedPart_keeps schema request PParams dp)
      as (Hu1 & Hm1 & Ha1 & Hx1).
    fold r1 in Hu1, Hm1, Ha1, Hx1. fold r2 in Hu2, Hm2, Ha2, Hx2.
    repeat split; congruence.
Qed.

(** A request whose first failing part is [part] is rejected for it. *)
Lemma validate_rejected schema request part issues :
  frameworkResult schema request part = SafeParseError issues ->
  (forall earlier, frameworkBefore earlier part = true ->
     exists data, frameworkResult schema request earlier = SafeParseSuccess data) ->
  validate schema request
  = (registeredSteps schema (frameworkUpTo part), Rejected part issues).
Proof.
  intros Hfail Hearlier.
  destruct (validate_spec schema request)
    as [(part' & issues' & Hrun & Hfail' & Hearlier')
       | (validated & _ & Hall & _)].
  - destruct (frameworkBefore part' part) eqn:Hbefore.
    + destruct (Hearlier part' Hbefore) as [data Hdata]. congruence.
    + destruct (frameworkBefore part part') eqn:Hafter.
      * destruct (Hearlier' part Hafter) as [data Hdata]. congruence.
      * assert (Hsame : part' = part)
          by (destruct part, part'; try discriminate; reflexivity).
        subst part'. rewrite Hfail in Hfail'. injection Hfail' as <-. exact Hrun.
  - destruct (Hall part) as (data & Hdata & _). congruence.
Qed.

(** The steps of the validation are the first of a request. *)
Lemma registeredSteps_index schema parts :
  Forall (fun e => stepIndex e <= 2) (registeredSteps schema parts).
Proof.
  apply Forall_forall. intros e He. unfold registeredSteps in He.
  apply in_flat_map in He as (part & _ & He).
  destruct (registeredSchema schema part); [|destruct He].
  destruct He as [<-|[]]. destruct part; cbn; lia.
Qed.

Lemma validate_steps_sorted schema request :
  StronglySorted lt (map stepIndex (fst (validate schema request)))
  /\ Forall (fun e => stepIndex e <= 2) (fst (validate schema request)).
Proof.
  destruct (validate_spec schema request)
    as [(part & issues & -> & _) | (validated & -> & _)]; cbn [fst];
    (split; [|apply registeredSteps_index]);
    unfold registeredSteps;
    try destruct part; cbn [frameworkUpTo frameworkOrder flat_map registeredSchema];
    destruct (schema_params schema), (schema_body schema),
      (schema_querystring schema); cbn; repeat constructor.
Qed.
(** *** The response schemas and the serialiser *)

Lemma getResponse_setResponse (responses : Responses Schema) (code code' : Z)
    (registered : ResponseSchema Schema) :
  getResponse (setResponse responses code registered) code'
  = if Z.eqb code code' then Some registered else getResponse responses code'.
Proof.
  induction responses as [|[c s] rest IH]; cbn.
  - reflexivity.
  - destruct (Z.eqb_spec c code) as [->|Hne]; cbn.
    + destruct (Z.eqb code code'); reflexivity.
    + rewrite IH. destruct (Z.eqb_spec c code') as [->|Hne'];
        destruct (Z.eqb_spec code code'); congruence.
Qed.

Lemma createStandardResponses_lookup_aux (responses : Responses Schema) (code : Z) :
  getResponse (createStandardResponses responses) code
  = if orb (Z.eqb code 400) (Z.eqb code 500)
    then Some (LibrarySchema ErrorResponseSchema)
    else getResponse responses code.
Proof.
  unfold createStandardResponses. rewrite !getResponse_setResponse.
  destruct (Z.eqb_spec 500 code) as [<-|H500]; [reflexivity|].
  destruct (Z.eqb_spec 400 code) as [<-|H400]; [reflexivity|].
  destruct (Z.eqb_spec code 400); [congruence|].
  destruct (Z.eqb_spec code 500); [congruence|]. reflexivity.
Qed.

(** The response schemas of the route of an endpoint, by status code. *)
Lemma routeSchema_response endpointConfig (code : Z) :
  getResponse (schema_response (routeSchema endpointConfig)) code
  = (if orb (Z.eqb code 400) (Z.eqb code 500)
     then Some (LibrarySchema ErrorResponseSchema)
     else if Z.eqb code 200
          then Some (DeclaredSchema (applyStrict (response endpointConfig)))
          else if andb (authenticated endpointConfig)
                    (orb (Z.eqb code 401) (Z.eqb code 403))
               then Some (LibrarySchema authErrorSchema)
               else None).
Proof.
  cbn [routeSchema schema_response].
  rewrite createStandardResponses_lookup_aux. unfold endpointResponses.
  destruct (orb (Z.eqb code 400) (Z.eqb code 500)); [reflexivity|].
  destruct (authenticated endpointConfig); cbn [andb].
  - rewrite !getResponse_setResponse. cbn [getResponse].
    destruct (Z.eqb_spec 403 code) as [<-|H403]; [reflexivity|].
    destruct (Z.eqb_spec 401 code) as [<-|H401]; [reflexivity|].
    destruct (Z.eqb_spec 200 code) as [<-|H200]; [reflexivity|].
    destruct (Z.eqb_spec code 200); [congruence|].
    destruct (Z.eqb_spec code 401); [congruence|].
    destruct (Z.eqb_spec code 403); [congruence|]. reflexivity.
  - cbn [getResponse].
    destruct (Z.eqb_spec 200 code) as [<-|H200]; [reflexivity|].
    destruct (Z.eqb_spec code 200); [congruence|]. reflexivity.
Qed.

(** An error reply of the library is transmitted without its details:
    the 400 and 500 of the route handler, the 401 and 403 of the token
    check of an authenticated endpoint, and the 404, which has none. *)
Lemma serialise_reply endpointConfig (code : Z) (payload : ErrorPayload) :
  (code = 400 \/ code = 500
   \/ (authenticated endpointConfig = true /\ (code = 401 \/ code = 403))
   \/ (code = 404 /\ payloadDetails payload = None))%Z ->
  serialise (schema_response (routeSchema endpointConfig)) code (payloadValue payload)
  = Transmitted code (wirePayload payload).
Proof.
  intros Hcode. unfold serialise. rewrite routeSchema_response.
  destruct Hcode as [->|[->|[[Hauth [->| ->]]|[-> Hdetails]]]];
    cbn [Z.eqb Pos.eqb orb andb]; rewrite ?Hauth; cbn [andb];
    rewrite ?ErrorResponseSchema_parse, ?authErrorSchema_parse; try reflexivity.
  destruct payload as [c e m d]. cbn in Hdetails. subst d.
  destruct (authenticated endpointConfig); reflexivity.
Qed.


(** *** The run of a request *)

Lemma respond_run (responses : Responses Schema) (thrown : option JsError) w :
  respond responses thrown w
  = (Normal (responseOf responses (sent w) thrown),
     mkWorld (console w) (journal w ++ [EvTransmit]) (store w) (sent w)).
Proof. reflexivity. Qed.

Lemma deliver_run (responses : Responses Schema) (outcome : Completion HandlerReturn)
    w :
  deliver responses outcome w
  = (Normal (responseOf responses
               (match outcome with
                | Normal (Returned result) => firstSend (sent w) 200 result
                | _ => sent w
                end)
               (match outcome with Throws e => Some e | _ => None end)),
     mkWorld (console w) (journal w ++ [EvTransmit]) (store w)
       (match outcome with
        | Normal (Returned result) => firstSend (sent w) 200 result
        | _ => sent w
        end)).
Proof. destruct outcome as [[result|code payload]|e]; reflexivity. Qed.

(** A request that fails the validation of the framework. *)
Lemma handleRequest_rejected serverConfig endpointConfig request w steps part issues :
  validate (routeSchema endpointConfig) request = (steps, Rejected part issues) ->
  handleRequest (createEndpoint serverConfig endpointConfig) request w
  = (Normal (SchemaError part issues),
     mkWorld (console w) (journal w ++ steps ++ [EvTransmit]) (store w) None).
Proof.
  intros Hvalidate. unfold handleRequest, bind, newReply, emitAll, emit, ret.
  cbn [createEndpoint route_schema]. rewrite Hvalidate.
  cbn. now rewrite <- app_assoc.
Qed.

(** A request that passes the validation and is answered by the token
    check. *)
Lemma handleRequest_hook_replied serverConfig endpointConfig request w steps
    validated code payload w' :
  validate (routeSchema endpointConfig) request = (steps, Passed validated) ->
  authenticated endpointConfig = true ->
  authenticateToken serverConfig validated (afterValidation w steps)
    = (Normal (HookReplied code payload), w') ->
  handleRequest (createEndpoint serverConfig endpointConfig) request w
  = respond (schema_response (routeSchema endpointConfig)) None w'.
Proof.
  intros Hvalidate Hauth Hhook.
  unfold handleRequest, bind, newReply, emitAll.
  cbn [createEndpoint route_schema route_preHandler route_handler].
  rewrite Hvalidate, Hauth. cbn [fst snd console journal store sent].
  unfold afterValidation in Hhook. now rewrite Hhook.
Qed.

(** A request that passes the validation and the hook. *)
Lemma handleRequest_admitted serverConfig endpointConfig request w steps
    validated admitted pre :
  validate (routeSchema endpointConfig) request = (steps, Passed validated) ->
  passesHook serverConfig endpointConfig validated admitted pre ->
  handleRequest (createEndpoint serverConfig endpointConfig) request w
  = deliver (schema_response (routeSchema endpointConfig))
      (fst (validatedHandler endpointConfig admitted
              (afterValidation w (steps ++ pre))))
      (snd (validatedHandler endpointConfig admitted
              (afterValidation w (steps ++ pre)))).
Proof.
  intros Hvalidate Hhook.
  unfold handleRequest, bind, newReply, emitAll.
  cbn [createEndpoint route_schema route_preHandler route_handler].
  rewrite Hvalidate. cbn [fst snd console journal store sent].
  unfold passesHook in Hhook.
  destruct (authenticated endpointConfig).
  - destruct Hhook as (token & Hheader & Htoken & Haccepts & -> & ->).
    rewrite (authenticateToken_accepted serverConfig validated _ token
               Hheader Htoken Haccepts).
    unfold addSteps, afterValidation. cbn [console journal store sent].
    rewrite <- app_assoc.
    destruct (validatedHandler endpointConfig
                (authenticatedRequest (apiToken serverConfig) token validated) _);
      reflexivity.
  - destruct Hhook as [-> ->]. rewrite app_nil_r. unfold afterValidation.
    destruct (validatedHandler endpointConfig validated _); reflexivity.
Qed.
End RouteFacts.

(** *** The cases of the run of a request *)

Ltac norm_app := repeat (progress (rewrite <- ?app_assoc; cbn [app])).

Section RouteRuns.
Context {Schema : Type} {zod : ZodTypeAny Schema} {St : Type}.
Implicit Types (w : World St) (endpointConfig : EndpointConfig Schema St)
  (serverConfig : APIServerConfig).



(** The steps of the token check come in order, after the validation
    of the framework and before the parses of the route handler. *)
Lemma hookSteps_sorted (pre : list Event) :
  Forall validatorStep pre -> List.length pre <= 1 ->
  StronglySorted lt (map stepIndex (EvAuthCheck :: pre))
  /\ Forall (fun e => 3 <= stepIndex e <= 4) (EvAuthCheck :: pre).
Proof.
  intros Hpre Hlen.
  destruct pre as [|e [|e' pre]]; cbn in Hlen; try lia.
  - split; repeat constructor; cbn; lia.
  - inversion Hpre as [|? ? He _]; subst. unfold validatorStep in He.
    split; cbn [map]; rewrite ?He.
    + repeat constructor.
    + repeat (apply Forall_cons; [cbn; lia|]). apply Forall_nil.
Qed.

(** The hook an admitted request has passed took the steps of the
    token check, or none. *)
Lemma passesHook_steps serverConfig endpointConfig validated admitted pre :
  passesHook serverConfig endpointConfig validated admitted pre ->
  StronglySorted lt (map stepIndex pre)
  /\ Forall (fun e => 3 <= stepIndex e <= 4) pre
  /\ (In EvAuthCheck pre -> authenticated endpointConfig = true)
  /\ (forall part, rawPart admitted part = rawPart validated part)
  /\ r_url admitted = r_url validated
  /\ r_method admitted = r_method validated.
Proof.
  unfold passesHook. destruct (authenticated endpointConfig).
  - intros (token & _ & _ & _ & -> & ->).
    destruct (validatorSteps_shape (apiToken serverConfig) token) as [Hall Hlen].
    destruct (hookSteps_sorted _ Hall Hlen) as [Hsorted Hindex].
    destruct (authenticatedRequest_parts (apiToken serverConfig) token validated)
      as (Hq & Hb & Hp & Hu & Hm).
    repeat split; try assumption.
    intros []; cbn; assumption.
  - intros [-> ->]. repeat split; try constructor. intros [].
Qed.

(** A request fails the validation of the framework, or is answered
    by the token check, or reaches the route handler. *)
Lemma handleRequest_cases serverConfig endpointConfig request w :
  (exists part issues,
      validate (routeSchema endpointConfig) request
        = (registeredSteps (routeSchema endpointConfig) (frameworkUpTo part),
           Rejected part issues)
      /\ frameworkResult (routeSchema endpointConfig) request part
         = SafeParseError issues)
  \/ (exists validated code payload pre,
        snd (validate (routeSchema endpointConfig) request) = Passed validated
        /\ authenticated endpointConfig = true
        /\ (forall w', fst (authenticateToken serverConfig validated w')
                       = Normal (HookReplied code payload))
        /\ (code = 401 \/ code = 403)%Z
        /\ Forall validatorStep pre /\ List.length pre <= 1
        /\ answersWith
             (handleRequest (createEndpoint serverConfig endpointConfig) request) w
             (validationSteps endpointConfig request ++ EvAuthCheck :: pre)
             code payload)
  \/ (exists validated admitted pre,
        snd (validate (routeSchema endpointConfig) request) = Passed validated
        /\ passesHook serverConfig endpointConfig validated admitted pre
        /\ (authenticated endpointConfig = true ->
            forall w', exists request',
              fst (authenticateToken serverConfig validated w')
              = Normal (HookDone request'))).
Proof.
  destruct (validate_spec (routeSchema endpointConfig) request)
    as [(part & issues & Hvalidate & Hfail & _) | (validated & Hvalidate & _)].
  - left. now exists part, issues.
  - right. destruct (authenticated endpointConfig) eqn:Hauth.
    + destruct (authenticateToken_cases serverConfig validated
                  (afterValidation w
                     (registeredSteps (routeSchema endpointConfig) frameworkOrder)))
        as [(code & payload & pre & Hhook & Hcode & Hdetails & Hpre & Hlen)
           | (token & Hheader & Htoken & Haccepts & Hhook)].
      * left. exists validated, code, payload, pre.
        split; [now rewrite Hvalidate|]. split; [reflexivity|].
        split.
        { intros w'.
          rewrite (authenticateToken_answer serverConfig validated w'
                     (afterValidation w
                        (registeredSteps (routeSchema endpointConfig) frameworkOrder))).
          now rewrite Hhook. }
        repeat split; try assumption.
        unfold answersWith, validationSteps.
        rewrite (handleRequest_hook_replied serverConfig endpointConfig request w
                   _ _ _ _ _ Hvalidate Hauth Hhook).
        rewrite respond_run, Hvalidate.
        unfold replyWorld, afterValidation, firstSend.
        cbn [fst snd console journal store sent responseOf].
        rewrite serialise_reply by (rewrite Hauth; intuition).
        f_equal. f_equal. now norm_app.
      * right. exists validated,
          (authenticatedRequest (apiToken serverConfig) token validated),
          (EvAuthCheck :: validatorSteps (apiToken serverConfig) token).
        split; [now rewrite Hvalidate|]. split.
        -- unfold passesHook. rewrite Hauth. exists token. now repeat split.
        -- intros _ w'. eexists.
           now rewrite (authenticateToken_accepted serverConfig validated w' token
                          Hheader Htoken Haccepts).
    + right. exists validated, validated, [].
      split; [now rewrite Hvalidate|]. split.
      * unfold passesHook. rewrite Hauth. now split.
      * discriminate.
Qed.

(** What a request that passes the validation of the framework keeps. *)
Lemma validate_passed endpointConfig request validated :
  snd (validate (routeSchema endpointConfig) request) = Passed validated ->
  validationSteps endpointConfig request
    = registeredSteps (routeSchema endpointConfig) frameworkOrder
  /\ r_url validated = r_url request
  /\ r_method validated = r_method request
  /\ r_authorization validated = r_authorization request
  /\ r_auth validated = r_auth request.
Proof.
  intros Hpassed. unfold validationSteps.
  destruct (validate_spec (routeSchema endpointConfig) request)
    as [(part & issues & Hvalidate & _) | (validated' & Hvalidate & _ & Hkeeps)];
    rewrite Hvalidate in Hpassed |- *; cbn in Hpassed |- *; [discriminate|].
  injection Hpassed as <-. now split.
Qed.

(** The run of a request that the token check answers. *)
Lemma handleRequest_hook_answers serverConfig endpointConfig request w validated
    code payload pre :
  snd (validate (routeSchema endpointConfig) request) = Passed validated ->
  authenticated endpointConfig = true ->
  (forall w',
      authenticateToken serverConfig validated w'
      = (Normal (HookReplied code payload),
         replyWorld w' (EvAuthCheck :: pre ++ [EvReplySend code]) code payload)) ->
  (code = 401 \/ code = 403)%Z ->
  answersWith (handleRequest (createEndpoint serverConfig endpointConfig) request) w
    (validationSteps endpointConfig request ++ EvAuthCheck :: pre) code payload.
Proof.
  intros Hpassed Hauth Hhook Hcode.
  unfold answersWith, validationSteps.
  destruct (validate (routeSchema endpointConfig) request) as [steps outcome] eqn:Hv.
  cbn [fst snd] in Hpassed |- *. subst outcome.
  rewrite (handleRequest_hook_replied serverConfig endpointConfig request w
             _ _ _ _ _ Hv Hauth (Hhook _)).
  rewrite respond_run.
  unfold replyWorld, afterValidation, firstSend.
  cbn [fst snd console journal store sent responseOf].
  rewrite serialise_reply by (rewrite Hauth; intuition).
  f_equal. f_equal. now norm_app.
Qed.

(** The run of a request that reaches the route handler. *)
Lemma handleRequest_reaches serverConfig endpointConfig request w validated
    admitted pre :
  snd (validate (routeSchema endpointConfig) request) = Passed validated ->
  passesHook serverConfig endpointConfig validated admitted pre ->
  handleRequest (createEndpoint serverConfig endpointConfig) request w
  = deliver (schema_response (routeSchema endpointConfig))
      (fst (validatedHandler endpointConfig admitted
              (afterValidation w (validationSteps endpointConfig request ++ pre))))
      (snd (validatedHandler endpointConfig admitted
              (afterValidation w (validationSteps endpointConfig request ++ pre)))).
Proof.
  intros Hvalidate Hhook. unfold validationSteps.
  apply handleRequest_admitted with (validated := validated); [|exact Hhook].
  destruct (validate (routeSchema endpointConfig) request) as [steps outcome].
  cbn in Hvalidate |- *. now subst outcome.
Qed.

(** The steps of a request that reaches the route handler: the
    validation, the hook, the route handler, the transmission. *)
Lemma handleRequest_reaches_steps serverConfig endpointConfig request w validated
    admitted pre :
  snd (validate (routeSchema endpointConfig) request) = Passed validated ->
  passesHook serverConfig endpointConfig validated admitted pre ->
  stepsOf (handleRequest (createEndpoint serverConfig endpointConfig) request) w
  = validationSteps endpointConfig request ++ pre
      ++ stepsOf (validatedHandler endpointConfig admitted)
           (afterValidation w (validationSteps endpointConfig request ++ pre))
      ++ [EvTransmit].
Proof.
  intros Hvalidate Hhook. apply stepsOf_journal.
  rewrite (handleRequest_reaches _ _ _ w _ _ _ Hvalidate Hhook), deliver_run.
  cbn [snd journal]. rewrite validatedHandler_journal.
  unfold afterValidation at 1. cbn [journal].
  now rewrite <- !app_assoc.
Qed.


(** The run of a request that reaches the route handler and fails its
    parse of [part], the first to fail there. *)
Lemma handleRequest_part_rejected serverConfig endpointConfig request w validated
    admitted pre part errors :
  snd (validate (routeSchema endpointConfig) request) = Passed validated ->
  passesHook serverConfig endpointConfig validated admitted pre ->
  partResult (declaredPart endpointConfig part) (rawPart admitted part)
    = SafeParseError errors ->
  (forall earlier, partBefore earlier part = true ->
     exists data,
       partResult (declaredPart endpointConfig earlier) (rawPart admitted earlier)
         = SafeParseSuccess data) ->
  answersWith (handleRequest (createEndpoint serverConfig endpointConfig) request) w
    (validationSteps endpointConfig request ++ pre
       ++ requestSteps endpointConfig (partsUpTo part))
    400 (badRequest (map (requestFieldError part) errors)).
Proof.
  intros Hpassed Hhook Hfail Hearlier. unfold answersWith.
  rewrite (handleRequest_reaches _ _ _ w _ _ _ Hpassed Hhook).
  rewrite (validatedHandler_rejected _ _ _ _ _ Hfail Hearlier), deliver_run.
  unfold afterValidation, firstSend.
  cbn [fst snd console journal store sent responseOf].
  rewrite serialise_reply by intuition.
  f_equal. f_equal. now norm_app.
Qed.

(** A part that is not registered with the route reaches the route
    handler as the request has it. *)
Lemma unregistered_part_kept serverConfig endpointConfig request validated
    admitted pre part :
  snd (validate (routeSchema endpointConfig) request) = Passed validated ->
  passesHook serverConfig endpointConfig validated admitted pre ->
  registeredSchema (routeSchema endpointConfig) part = None ->
  rawPart admitted part = rawPart request part.
Proof.
  intros Hpassed Hhook Hnone.
  destruct (passesHook_steps _ _ _ _ _ Hhook) as (_ & _ & _ & -> & _).
  destruct (validate_spec (routeSchema endpointConfig) request)
    as [(failing & issues & Hvalidate & _) | (validated' & Hvalidate & Hall & _)];
    rewrite Hvalidate in Hpassed; cbn [snd] in Hpassed; [discriminate|].
  injection Hpassed as <-.
  destruct (Hall part) as (data & _ & Hraw). now rewrite Hnone in Hraw.
Qed.
End RouteRuns.

(** ** Validation, token check, handler call and response guard *)

Section RouteClaims.
Context {Schema : Type} {zod : ZodTypeAny Schema} {St : Type}.
Implicit Types (w : World St) (endpointConfig : EndpointConfig Schema St)
  (serverConfig : APIServerConfig).

(** C1, as the code has it.  Validation stops at the first part that
    fails, and there are two validations.  The framework validates the
    parts registered with the route in the order params, body,
    querystring: the first part its validator rejects ends the request
    with the framework's error for the issues of that part alone; the
    steps taken are the validations up to that part and the
    transmission, so no later part is validated, the token check and
    the handler do not run, nothing is logged and the state of the
    handlers is as before.  A request that passes and is admitted by the
    hook is parsed again by the route handler in the order query, body,
    params: the first part that fails there is answered 400
    "Validation failed", the reply sent carries the field errors of
    that part alone, each prefixed by the name of the part, no later
    part is parsed and the handler is not called. *)
Theorem validation_stops_at_first_failing_part :
  forall serverConfig endpointConfig request w,
    let run := handleRequest (createEndpoint serverConfig endpointConfig) request in
    (forall part issues,
        frameworkResult (routeSchema endpointConfig) request part
          = SafeParseError issues ->
        (forall earlier, frameworkBefore earlier part = true ->
           exists data,
             frameworkResult (routeSchema endpointConfig) request earlier
               = SafeParseSuccess data) ->
        run w
        = (Normal (SchemaError part issues),
           mkWorld (console w)
             (journal w
                ++ registeredSteps (routeSchema endpointConfig) (frameworkUpTo part)
                ++ [EvTransmit])
             (store w) None))
    /\ (forall validated admitted pre part errors,
          snd (validate (routeSchema endpointConfig) request) = Passed validated ->
          passesHook serverConfig endpointConfig validated admitted pre ->
          partResult (declaredPart endpointConfig part) (rawPart admitted part)
            = SafeParseError errors ->
          (forall earlier, partBefore earlier part = true ->
             exists data,
               partResult (declaredPart endpointConfig earlier)
                 (rawPart admitted earlier) = SafeParseSuccess data) ->
          answersWith run w
            (validationSteps endpointConfig request ++ pre
               ++ requestSteps endpointConfig (partsUpTo part))
            400 (badRequest (map (requestFieldError part) errors))).
Proof.
  intros srv ep req w run. subst run. split.
  - intros part issues Hfail Hearlier.
    apply handleRequest_rejected.
    now apply validate_rejected.
  - intros validated admitted pre part errors Hpassed Hhook Hfail Hearlier.
    now apply handleRequest_part_rejected with (validated := validated)
                                                (admitted := admitted).
Qed.

(** C2, as the code has it.  On an authenticated endpoint the token
    check runs on the requests that pass the validation of the
    framework.  For such a request: an absent or empty Authorization
    header is answered 401 "Missing authorization header"; a non-empty
    header that is not [Bearer], one space and a token without a space
    is answered 401 with the format message; a token different from the
    configured secret string is answered 403 "Invalid token"; a token
    for which the validator function returns [valid = false] is
    answered 403 with the validator's error, or "Invalid token" when
    that error is absent or empty; in each of these cases the reply is
    what is transmitted, and neither a part is parsed by the route
    handler nor the handler called.  An accepted token lets the route
    handler run, and a context supplied by the validator is the [auth]
    of the request every handler call sees. *)
Theorem bearer_authentication_outcomes :
  forall serverConfig endpointConfig request validated w,
    authenticated endpointConfig = true ->
    snd (validate (routeSchema endpointConfig) request) = Passed validated ->
    let run := handleRequest (createEndpoint serverConfig endpointConfig) request in
    let checked := validationSteps endpointConfig request ++ [EvAuthCheck] in
    (falsy (r_authorization request) = true ->
       answersWith run w checked 401 (unauthorized "Missing authorization header"))
    /\ (forall h,
          r_authorization request = Some h -> h <> "" ->
          (forall token, h = ("Bearer " ++ token)%string ->
                         hasChar " " token = true) ->
          answersWith run w checked 401
            (unauthorized
               "Invalid authorization header format. Expected: Bearer <token>"))
    /\ (forall token secret,
          r_authorization request = Some ("Bearer " ++ token)%string ->
          hasChar " " token = false ->
          apiToken serverConfig = TokenString secret -> token <> secret ->
          answersWith run w checked 403 (forbidden "Invalid token"))
    /\ (forall token validator,
          r_authorization request = Some ("Bearer " ++ token)%string ->
          hasChar " " token = false ->
          apiToken serverConfig = TokenValidator validator ->
          valid (validator token validated) = false ->
          answersWith run w (checked ++ [EvValidatorCall token]) 403
            (forbidden
               (orElse (authError (validator token validated)) "Invalid token")))
    /\ (forall token,
          r_authorization request = Some ("Bearer " ++ token)%string ->
          hasChar " " token = false ->
          accepts (apiToken serverConfig) token validated = true ->
          let admitted :=
            authenticatedRequest (apiToken serverConfig) token validated in
          let w' :=
            afterValidation w
              (checked ++ validatorSteps (apiToken serverConfig) token) in
          run w
          = deliver (schema_response (routeSchema endpointConfig))
              (fst (validatedHandler endpointConfig admitted w'))
              (snd (validatedHandler endpointConfig admitted w'))
          /\ forall typedRequest,
               In (EvHandlerCall typedRequest) (stepsOf run w) ->
               isUndefined (suppliedContext (apiToken serverConfig) token validated)
                 = false ->
               r_auth typedRequest
               = suppliedContext (apiToken serverConfig) token validated).
Proof.
  intros srv ep req validated w Hauth Hpassed run checked. subst run checked.
  destruct (validate_passed ep req validated Hpassed) as (_ & _ & _ & Hheader & _).
  rewrite <- Hheader.
  split; [|split; [|split; [|split]]].
  - intros Hfalsy.
    pose proof (handleRequest_hook_answers srv ep req w validated 401
                  (unauthorized missingHeader) [] Hpassed Hauth
                  (fun w' => authenticateToken_missing srv validated w' Hfalsy))
      as Hrun.
    apply Hrun. now left.
  - intros h Hh Hne Hshape.
    pose proof (handleRequest_hook_answers srv ep req w validated 401
                  (unauthorized badHeaderFormat) [] Hpassed Hauth
                  (fun w' => authenticateToken_malformed srv validated w' h
                               Hh Hne Hshape))
      as Hrun.
    apply Hrun. now left.
  - intros token secret Hh Htoken Hsecret Hdiff.
    assert (Hrejects : accepts (apiToken srv) token validated = false).
    { rewrite Hsecret. cbn. now apply String.eqb_neq. }
    pose proof (handleRequest_hook_answers srv ep req w validated 403 _ _
                  Hpassed Hauth
                  (fun w' => authenticateToken_rejected srv validated w' token
                               Hh Htoken Hrejects))
      as Hrun.
    rewrite Hsecret in Hrun. cbn [validatorSteps rejectionMessage app] in Hrun.
    apply Hrun. now right.
  - intros token validator Hh Htoken Hvalidator Hinvalid.
    assert (Hrejects : accepts (apiToken srv) token validated = false).
    { rewrite Hvalidator. exact Hinvalid. }
    pose proof (handleRequest_hook_answers srv ep req w validated 403 _ _
                  Hpassed Hauth
                  (fun w' => authenticateToken_rejected srv validated w' token
                               Hh Htoken Hrejects))
      as Hrun.
    rewrite Hvalidator in Hrun. cbn [validatorSteps rejectionMessage] in Hrun.
    rewrite <- app_assoc. apply Hrun. now right.
  - intros token Hh Htoken Haccepts admitted w'. subst admitted w'.
    assert (Hhook : passesHook srv ep validated
                      (authenticatedRequest (apiToken srv) token validated)
                      (EvAuthCheck :: validatorSteps (apiToken srv) token)).
    { unfold passesHook. rewrite Hauth. exists token. now repeat split. }
    rewrite <- app_assoc. cbn [app]. split.
    + exact (handleRequest_reaches _ _ _ w _ _ _ Hpassed Hhook).
    + intros treq Hin Hdefined.
      rewrite (handleRequest_reaches_steps _ _ _ w _ _ _ Hpassed Hhook) in Hin.
      apply in_app_or in Hin as [Hin|Hin].
      { exfalso. destruct (validate_steps_sorted (routeSchema ep) req) as [_ Hidx].
        rewrite Forall_forall in Hidx. specialize (Hidx _ Hin). cbn in Hidx. lia. }
      apply in_app_or in Hin as [Hin|Hin].
      { exfalso. destruct Hin as [Hin|Hin]; [discriminate|].
        unfold validatorSteps in Hin. destruct (apiToken srv); cbn in Hin;
          intuition discriminate. }
      apply in_app_or in Hin as [Hin|[Hin|[]]]; [|discriminate].
      apply handlerCall_typedRequest in Hin as (vq & vb & vp & _ & ->).
      cbn. unfold authenticatedRequest. rewrite Hdefined. reflexivity.
Qed.
End RouteClaims.

Section GuardClaims.
Context {Schema : Type} {zod : ZodTypeAny Schema} {St : Type}.
Implicit Types (w : World St) (endpointConfig : EndpointConfig Schema St)
  (serverConfig : APIServerConfig).



(** C9.  Every call of the handler receives [undefined] for each part
    the endpoint does not declare, whatever the raw request carried
    there: the typed request overwrites query, body and params with the
    validated values. *)
Theorem undeclared_parts_reach_handler_undefined :
  forall endpointConfig request w typedRequest,
    In (EvHandlerCall typedRequest)
       (stepsOf (validatedHandler endpointConfig request) w) ->
    (query endpointConfig = None -> r_query typedRequest = VUndefined)
    /\ (body endpointConfig = None -> r_body typedRequest = VUndefined)
    /\ (params endpointConfig = None -> r_params typedRequest = VUndefined)
    /\ exists vq vb vp,
         validatesTo endpointConfig request vq vb vp
         /\ typedRequest = typedRequestOf request vq vb vp.
Proof.
  intros ep req w treq Hin.
  destruct (handlerCall_typedRequest ep req w treq Hin)
    as (vq & vb & vp & Hvalid & ->).
  pose proof Hvalid as (Hq & Hb & Hp).
  repeat split.
  - intros Hnone. rewrite Hnone in Hq. cbn in Hq |- *. congruence.
  - intros Hnone. rewrite Hnone in Hb. cbn in Hb |- *. congruence.
  - intros Hnone. rewrite Hnone in Hp. cbn in Hp |- *. congruence.
  - exists vq, vb, vp. split; [assumption|reflexivity].
Qed.
End GuardClaims.

(** ** The order of the steps of a request *)

Section PipelineOrder.
Context {Schema : Type} {zod : ZodTypeAny Schema} {St : Type}.
Implicit Types (w : World St) (endpointConfig : EndpointConfig Schema St)
  (serverConfig : APIServerConfig).


(** A failing part keeps [validatedHandler] from calling the handler. *)
Lemma validatedHandler_failing_part endpointConfig request w part errors :
  partResult (declaredPart endpointConfig part) (rawPart request part)
    = SafeParseError errors ->
  store (snd (validatedHandler endpointConfig request w)) = store w
  /\ console (snd (validatedHandler endpointConfig request w)) = console w
  /\ forall typedRequest,
       ~ In (EvHandlerCall typedRequest)
            (stepsOf (validatedHandler endpointConfig request) w).
Proof.
  intros Hfail.
  assert (Hnocall : forall typedRequest,
             ~ In (EvHandlerCall typedRequest)
                  (stepsOf (validatedHandler endpointConfig request) w)).
  { intros treq Hin.
    apply handlerCall_typedRequest in Hin as (vq & vb & vp & (Hq & Hb & Hp) & _).
    destruct part; cbn in Hfail; congruence. }
  destruct (validation_cases endpointConfig request)
    as [(first & errors' & Hfirst & Hearlier) | (vq & vb & vp & (Hq & Hb & Hp))].
  - rewrite (validatedHandler_rejected _ _ w _ _ Hfirst Hearlier). cbn.
    repeat split. exact Hnocall.
  - exfalso. destruct part; cbn in Hfail; congruence.
Qed.

(** Where a handler call can stand among the steps of a request. *)
Lemma handlerCall_reaches serverConfig endpointConfig request w typedRequest :
  In (EvHandlerCall typedRequest)
     (stepsOf (handleRequest (createEndpoint serverConfig endpointConfig) request) w) ->
  exists validated admitted pre,
    snd (validate (routeSchema endpointConfig) request) = Passed validated
    /\ passesHook serverConfig endpointConfig validated admitted pre
    /\ In (EvHandlerCall typedRequest)
          (stepsOf (validatedHandler endpointConfig admitted)
             (afterValidation w (validationSteps endpointConfig request ++ pre))).
Proof.
  intros Hin.
  destruct (handleRequest_cases serverConfig endpointConfig request w)
    as [(part & issues & Hvalidate & _)
       | [(validated & code & payload & pre & Hpassed & Hauth & _ & _ & Hpre & _ & Hrun)
         | (validated & admitted & pre & Hpassed & Hhook & _)]].
  - exfalso.
    rewrite (stepsOf_journal _ _ _
               (f_equal (fun r => journal (snd r))
                  (handleRequest_rejected serverConfig _ _ w _ _ _ Hvalidate))) in Hin.
    apply in_app_or in Hin as [Hin|[Hin|[]]]; [|discriminate].
    pose proof (registeredSteps_index (routeSchema endpointConfig) (frameworkUpTo part))
      as Hidx.
    rewrite Forall_forall in Hidx. specialize (Hidx _ Hin). cbn in Hidx. lia.
  - exfalso. unfold answersWith in Hrun.
    rewrite (stepsOf_journal _ _ _ (f_equal (fun r => journal (snd r)) Hrun)) in Hin.
    apply in_app_or in Hin as [Hin|Hin];
      [|cbn in Hin; intuition discriminate].
    apply in_app_or in Hin as [Hin|Hin].
    + destruct (validate_steps_sorted (routeSchema endpointConfig) request)
        as [_ Hidx].
      rewrite Forall_forall in Hidx. specialize (Hidx _ Hin). cbn in Hidx. lia.
    + destruct Hin as [Hin|Hin]; [discriminate|].
      rewrite Forall_forall in Hpre. specialize (Hpre _ Hin). discriminate.
  - exists validated, admitted, pre. split; [exact Hpassed|]. split; [exact Hhook|].
    rewrite (handleRequest_reaches_steps _ _ _ w _ _ _ Hpassed Hhook) in Hin.
    destruct (passesHook_steps _ _ _ _ _ Hhook) as (_ & Hidx' & _).
    apply in_app_or in Hin as [Hin|Hin].
    { exfalso.
      destruct (validate_steps_sorted (routeSchema endpointConfig) request)
        as [_ Hidx].
      rewrite Forall_forall in Hidx. specialize (Hidx _ Hin). cbn in Hidx. lia. }
    apply in_app_or in Hin as [Hin|Hin].
    { exfalso. rewrite Forall_forall in Hidx'. specialize (Hidx' _ Hin).
      cbn in Hidx'. lia. }
    apply in_app_or in Hin as [Hin|[Hin|[]]]; [exact Hin | discriminate].
Qed.

(** The token check runs on authenticated endpoints only. *)
Lemma authCheck_authenticated serverConfig endpointConfig request w :
  In EvAuthCheck
     (stepsOf (handleRequest (createEndpoint serverConfig endpointConfig) request) w) ->
  authenticated endpointConfig = true.
Proof.
  intros Hin.
  destruct (handleRequest_cases serverConfig endpointConfig request w)
    as [(part & issues & Hvalidate & _)
       | [(validated & code & payload & pre & _ & Hauth & _)
         | (validated & admitted & pre & Hpassed & Hhook & _)]].
  - exfalso.
    rewrite (stepsOf_journal _ _ _
               (f_equal (fun r => journal (snd r))
                  (handleRequest_rejected serverConfig _ _ w _ _ _ Hvalidate))) in Hin.
    apply in_app_or in Hin as [Hin|[Hin|[]]]; [|discriminate].
    pose proof (registeredSteps_index (routeSchema endpointConfig) (frameworkUpTo part))
      as Hidx.
    rewrite Forall_forall in Hidx. specialize (Hidx _ Hin). cbn in Hidx. lia.
  - exact Hauth.
  - rewrite (handleRequest_reaches_steps _ _ _ w _ _ _ Hpassed Hhook) in Hin.
    destruct (passesHook_steps _ _ _ _ _ Hhook) as (_ & _ & Hpauth & _).
    apply in_app_or in Hin as [Hin|Hin].
    { exfalso.
      destruct (validate_steps_sorted (routeSchema endpointConfig) request)
        as [_ Hidx].
      rewrite Forall_forall in Hidx. specialize (Hidx _ Hin). cbn in Hidx. lia. }
    apply in_app_or in Hin as [Hin|Hin]; [now apply Hpauth|].
    exfalso. apply in_app_or in Hin as [Hin|[Hin|[]]]; [|discriminate].
    pose proof (validatedHandler_steps_index endpointConfig admitted
                  (afterValidation w
                     (validationSteps endpointConfig request ++ pre))) as Hidx.
    rewrite Forall_forall in Hidx. specialize (Hidx _ Hin). cbn in Hidx. lia.
Qed.

End PipelineOrder.

(** ** A header with an empty token *)

Section EmptyToken.
Context {St : Type}.
Implicit Types (w : World St) (serverConfig : APIServerConfig).

(** C10.  The header [Bearer] followed by one space passes the format
    test with the empty string as its token: the reply is never 401; a
    non-empty secret string answers 403 "Invalid token"; a validator
    function is called with the empty token and its result decides. *)
Theorem empty_bearer_token_reaches_credential :
  forall serverConfig request w,
    r_authorization request = Some "Bearer " ->
    (forall payload,
        fst (authenticateToken serverConfig request w)
        <> Normal (HookReplied 401 payload))
    /\ (forall secret,
          apiToken serverConfig = TokenString secret -> secret <> "" ->
          fst (authenticateToken serverConfig request w)
          = Normal (HookReplied 403 (forbidden "Invalid token")))
    /\ (forall validator,
          apiToken serverConfig = TokenValidator validator ->
          In (EvValidatorCall "")
             (stepsOf (authenticateToken serverConfig request) w)
          /\ fst (authenticateToken serverConfig request w)
             = if valid (validator "" request)
               then Normal (HookDone
                              (if isUndefined (context (validator "" request))
                               then request
                               else setAuth request (context (validator "" request))))
               else Normal (HookReplied 403
                              (forbidden
                                 (orElse (authError (validator "" request))
                                    "Invalid token")))).
Proof.
  intros srv req w Hheader.
  assert (Hshape : r_authorization req = Some ("Bearer " ++ "")%string)
    by exact Hheader.
  assert (Htoken : hasChar " " "" = false) by reflexivity.
  destruct (accepts (apiToken srv) "" req) eqn:Haccepts.
  - pose proof (authenticateToken_accepted srv req w "" Hshape Htoken Haccepts)
      as Hrun.
    rewrite (stepsOf_addSteps _ _ _ _ _ _ _ Hrun), Hrun. cbn [fst].
    split; [discriminate|]. split.
    + intros secret Hsecret Hne. rewrite Hsecret in Haccepts.
      cbn [accepts] in Haccepts. apply String.eqb_eq in Haccepts. congruence.
    + intros validator Hvalidator. rewrite Hvalidator in *. cbn in Haccepts.
      rewrite Haccepts. split; [cbn; tauto|]. reflexivity.
  - pose proof (authenticateToken_rejected srv req w "" Hshape Htoken Haccepts)
      as Hrun.
    unfold replyWorld in Hrun.
    rewrite (stepsOf_addSteps _ _ _ _ _ _ _ Hrun), Hrun. cbn [fst].
    split; [discriminate|]. split.
    + intros secret Hsecret _. rewrite Hsecret. reflexivity.
    + intros validator Hvalidator. rewrite Hvalidator in *. cbn in Haccepts.
      rewrite Haccepts. split; [cbn; tauto|]. reflexivity.
Qed.
End EmptyToken.
(** ** The zod fragment: strictness and re-validation *)

Lemma ZodType_nested_ind (P : ZodType -> Prop) :
  (forall minLength, P (ZodString minLength)) ->
  P ZodNumber -> P ZodBoolean ->
  (forall inner, P inner -> P (ZodOptional inner)) ->
  (forall inner d, P inner -> P (ZodDefault inner d)) ->
  (forall shape policy,
      Forall (fun kv => P (snd kv)) shape -> P (ZodObject shape policy)) ->
  (forall inner f, P inner -> P (ZodEffects inner f)) ->
  forall schema, P schema.
Proof.
  intros Hstring Hnumber Hboolean Hoptional Hdefault Hobject Heffects.
  fix IH 1. intros [minLength| | |inner|inner d|shape policy|inner f].
  - apply Hstring.
  - apply Hnumber.
  - apply Hboolean.
  - apply Hoptional, IH.
  - apply Hdefault, IH.
  - apply Hobject.
    induction shape as [|[key validator] rest IHrest]; constructor;
      [apply IH | exact IHrest].
  - apply Heffects, IH.
Qed.

Lemma inKeys_In (keys : list string) (k : string) :
  inKeys keys k = true <-> In k keys.
Proof.
  unfold inKeys. rewrite existsb_exists. split.
  - intros (x & Hx & Heq). apply String.eqb_eq in Heq. now subst.
  - intros Hin. exists k. split; [assumption | apply String.eqb_refl].
Qed.

Lemma hasKey_In (fields : list (string * value)) (k : string) :
  hasKey fields k = true <-> In k (map fst fields).
Proof. apply inKeys_In. Qed.

Lemma getProp_missing (fields : list (string * value)) (k : string) :
  ~ In k (map fst fields) -> getProp fields k = VUndefined.
Proof.
  induction fields as [|[k' v] rest IH]; cbn; [reflexivity|].
  intros Hnot. destruct (String.eqb_spec k' k) as [->|Hne].
  - exfalso. apply Hnot. now left.
  - apply IH. intros Hin. apply Hnot. now right.
Qed.

Lemma isUndefined_true (v : value) : isUndefined v = true -> v = VUndefined.
Proof. destruct v; cbn; congruence. Qed.

(** A failed parse reports at least one issue. *)
Lemma invalid_has_issue (schema : ZodType) :
  forall p input issues, _parse schema p input = Invalid issues -> issues <> [].
Proof.
  induction schema as [minLength| | |inner IH|inner d IH|shape policy|inner IH f];
    intros p input issues Hparse; cbn [_parse] in Hparse.
  - destruct input; try congruence.
    destruct minLength as [n|]; [|discriminate].
    destruct (Nat.ltb (String.length s) n); congruence.
  - destruct input; congruence.
  - destruct input; congruence.
  - destruct (isUndefined input); [discriminate | eauto].
  - eauto.
  - destruct input; try congruence.
    unfold finishObject in Hparse.
    destruct (parseShape _parse p fields shape) as [found pairs].
    destruct policy, (extraKeysOf shape fields), found; cbn in Hparse; congruence.
  - destruct (_parse inner p input) eqn:Hinner; [discriminate|].
    injection Hparse as <-. eauto.
Qed.

Lemma string_app_assoc (a b c : string) :
  ((a ++ b) ++ c)%string = (a ++ b ++ c)%string.
Proof. induction a as [|ch a IH]; cbn; [reflexivity | now rewrite IH]. Qed.

Lemma string_app_nil_r (a : string) : (a ++ "")%string = a.
Proof. induction a as [|ch a IH]; cbn; [reflexivity | now rewrite IH]. Qed.

Lemma namesKey_prefix (prefix msg k : string) :
  namesKey msg k -> namesKey (prefix ++ msg) k.
Proof.
  intros (before & after & ->). exists (prefix ++ before)%string, after.
  now rewrite string_app_assoc.
Qed.

(** The message built from a list of keys quotes each of them. *)
Lemma joinValues_names (keys : list string) (k : string) :
  In k keys -> namesKey (joinValues keys) k.
Proof.
  unfold joinValues, join.
  induction keys as [|x xs IH]; intros Hin; [destruct Hin|].
  destruct Hin as [->|Hin].
  - cbn. destruct (map quoteKey xs) as [|y ys].
    + exists "", "". cbn. now rewrite string_app_nil_r.
    + exists "", (", " ++ String.concat ", " (y :: ys))%string. reflexivity.
  - specialize (IH Hin). destruct xs as [|y ys]; [destruct Hin|].
    apply (namesKey_prefix (quoteKey x ++ ", ")) in IH.
    rewrite string_app_assoc in IH. exact IH.
Qed.

Lemma extraKeysOf_In (shape : list (string * ZodType))
    (fields : list (string * value)) (k : string) :
  In k (extraKeysOf shape fields)
  <-> In k (map fst fields) /\ ~ In k (shapeKeys shape).
Proof.
  unfold extraKeysOf. rewrite filter_In, negb_true_iff.
  split; intros [Hin Hnot]; split; try assumption.
  - intros Hshape. apply inKeys_In in Hshape. congruence.
  - destruct (inKeys (shapeKeys shape) k) eqn:Hk; [|reflexivity].
    apply inKeys_In in Hk. contradiction.
Qed.

(** A strict object schema reports the undeclared keys of an object,
    whatever the declared keys hold. *)
Lemma strict_object_reports_unknown_key (shape : list (string * ZodType))
    (p : list string) (fields : list (string * value)) (k : string) :
  In k (map fst fields) -> ~ In k (shapeKeys shape) ->
  exists issues,
    _parse (ZodObject shape Strict) p (VObj fields) = Invalid issues
    /\ In (unrecognizedKeys (extraKeysOf shape fields) p) issues
    /\ In k (extraKeysOf shape fields).
Proof.
  intros Hin Hnot.
  assert (Hextra : In k (extraKeysOf shape fields))
    by (apply extraKeysOf_In; split; assumption).
  cbn [_parse]. unfold finishObject.
  destruct (parseShape _parse p fields shape) as [found pairs].
  destruct (extraKeysOf shape fields) as [|e es] eqn:He; [destruct Hextra|].
  destruct (found ++ [unrecognizedKeys (e :: es) p]) as [|i more] eqn:Happ.
  - apply app_eq_nil in Happ as [_ Hnil]. discriminate.
  - exists (i :: more). rewrite <- Happ. repeat split; try assumption.
    apply in_or_app. right. now left.
Qed.

(** Making an object schema strict keeps its failures. *)
Lemma applyStrict_keeps_failure (schema : ZodType) (input : value) errors :
  safeParse schema input = SafeParseError errors ->
  exists errors', safeParse (applyStrict schema) input = SafeParseError errors'.
Proof.
  unfold applyStrict. cbn [safeParse instanceofZodObject strict ZodType_ZodTypeAny].
  destruct schema as [| | | | |shape policy|]; cbn [zodIsObject zodStrict]; eauto.
  unfold zodSafeParse. cbn [_parse].
  destruct input; try (intros _; eexists; reflexivity).
  unfold finishObject.
  destruct (parseShape _parse [] fields shape) as [found pairs].
  destruct policy, (extraKeysOf shape fields), found; cbn;
    intros H; try discriminate; eexists; reflexivity.
Qed.

Lemma filter_none {A} (f : A -> bool) (l : list A) :
  (forall x, In x l -> f x = false) -> filter f l = [].
Proof.
  induction l as [|a l IH]; cbn; intros H; [reflexivity|].
  rewrite (H a (or_introl eq_refl)). apply IH. intros x Hx. apply H. now right.
Qed.

Lemma filter_all {A} (f : A -> bool) (l : list A) :
  (forall x, In x l -> f x = true) -> filter f l = l.
Proof.
  induction l as [|a l IH]; cbn; intros H; [reflexivity|].
  rewrite (H a (or_introl eq_refl)). f_equal. apply IH. intros x Hx. apply H. now right.
Qed.

(** Without a transform, only [undefined] parses to [undefined]. *)
Lemma undefined_result_from_undefined (schema : ZodType) :
  transformFree schema = true ->
  forall p input, _parse schema p input = Valid VUndefined -> input = VUndefined.
Proof.
  induction schema as [minLength| | |inner IH|inner d IH|shape policy|inner IH f];
    intros Hfree p input Hparse; cbn [_parse transformFree] in *.
  - destruct input; try congruence.
    destruct minLength; [destruct (Nat.ltb _ _)|]; congruence.
  - destruct input; congruence.
  - destruct input; congruence.
  - destruct (isUndefined input) eqn:Hu; [now apply isUndefined_true | eauto].
  - destruct (isUndefined input) eqn:Hu; [now apply isUndefined_true | eauto].
  - destruct input; try congruence. unfold finishObject in Hparse.
    destruct (parseShape _parse p fields shape) as [found pairs].
    destruct policy, (extraKeysOf shape fields), found; cbn in Hparse; congruence.
  - discriminate.
Qed.

Lemma parseShape_cons_valid p fields key validator rest pairs :
  parseShape _parse p fields ((key, validator) :: rest) = ([], pairs) ->
  exists v pairs',
    _parse validator (p ++ [key]) (getProp fields key) = Valid v
    /\ parseShape _parse p fields rest = ([], pairs')
    /\ pairs = if orb (negb (isUndefined v)) (hasKey fields key)
               then (key, v) :: pairs' else pairs'.
Proof.
  cbn [parseShape].
  destruct (parseShape _parse p fields rest) as [issues pairs'].
  destruct (_parse validator (p ++ [key]) (getProp fields key)) as [v|found] eqn:Hv;
    intros H; injection H as Hi Hp.
  - subst. exists v, pairs'. auto.
  - apply app_eq_nil in Hi as [Hfound _]. apply invalid_has_issue in Hv. contradiction.
Qed.

(** The result object holds declared keys only. *)
Lemma parseShape_keys p fields sh :
  forall issues pairs,
    parseShape _parse p fields sh = (issues, pairs) ->
    forall k, In k (map fst pairs) -> In k (map fst sh).
Proof.
  induction sh as [|[key validator] rest IH]; cbn [parseShape];
    intros issues pairs H k Hin.
  - injection H as <- <-. destruct Hin.
  - destruct (parseShape _parse p fields rest) as [issues' pairs'] eqn:Hrest.
    destruct (_parse validator (p ++ [key]) (getProp fields key)) as [v|found];
      injection H as <- <-.
    + destruct (orb (negb (isUndefined v)) (hasKey fields key)); cbn in Hin |- *.
      * destruct Hin as [<-|Hin]; [now left | right; eapply IH; eauto].
      * right; eapply IH; eauto.
    + cbn. right; eapply IH; eauto.
Qed.

(** Reading a declared key back from the result object gives its
    parsed value, and the key is present exactly when it was set. *)
Lemma parseShape_lookup p fields extras :
  forall sh pairs,
    uniqueKeys (map fst sh) = true ->
    parseShape _parse p fields sh = ([], pairs) ->
    (forall k, In k (map fst extras) -> ~ In k (map fst sh)) ->
    forall key validator v,
      In (key, validator) sh ->
      _parse validator (p ++ [key]) (getProp fields key) = Valid v ->
      getProp (pairs ++ extras) key = v
      /\ hasKey (pairs ++ extras) key
         = orb (negb (isUndefined v)) (hasKey fields key).
Proof.
  induction sh as [|[k0 s0] rest IH]; intros pairs Hunique Hshape Hextras
    key validator v Hin Hv; [destruct Hin|].
  apply parseShape_cons_valid in Hshape as (v0 & pairs' & H0 & Hrest & ->).
  cbn [map fst uniqueKeys] in Hunique.
  apply andb_true_iff in Hunique as [Hk0 Hunique]. apply negb_true_iff in Hk0.
  assert (Hk0rest : ~ In k0 (map fst rest)).
  { intros Hbad. apply inKeys_In in Hbad. congruence. }
  assert (Hextras' : forall k, In k (map fst extras) -> ~ In k (map fst rest)).
  { intros k Hk Hbad. apply (Hextras k Hk). now right. }
  assert (Hk0missing : ~ In k0 (map fst (pairs' ++ extras))).
  { rewrite map_app. intros Hbad. apply in_app_or in Hbad as [Hbad|Hbad].
    - apply Hk0rest. eapply parseShape_keys; eauto.
    - apply (Hextras k0 Hbad). now left. }
  destruct Hin as [Heq|Hin].
  - injection Heq as <- <-. rewrite H0 in Hv. injection Hv as <-.
    destruct (orb (negb (isUndefined v0)) (hasKey fields k0)) eqn:Hincluded.
    + cbn. unfold hasKey. cbn. rewrite String.eqb_refl. auto.
    + apply orb_false_elim in Hincluded as [Hu _].
      apply negb_false_iff, isUndefined_true in Hu. subst v0. split.
      * now apply getProp_missing.
      * destruct (hasKey (pairs' ++ extras) k0) eqn:Hhas; [|reflexivity].
        apply hasKey_In in Hhas. contradiction.
  - assert (Hne : k0 <> key).
    { intros ->. apply Hk0rest. apply in_map_iff. now exists (key, validator). }
    destruct (IH pairs' Hunique Hrest Hextras' key validator v Hin Hv) as [Hget Hhas].
    destruct (orb (negb (isUndefined v0)) (hasKey fields k0)); [|now split].
    cbn. unfold hasKey in *. cbn.
    apply String.eqb_neq in Hne. rewrite Hne.
    rewrite String.eqb_sym in Hne. rewrite Hne. cbn. now split.
Qed.

(** Parsing an object that reads back like the result gives the result. *)
Lemma parseShape_again p fields fields' :
  forall sh pairs,
    Forall (fun kv => forall q v v',
                _parse (snd kv) q v = Valid v' -> _parse (snd kv) q v' = Valid v') sh ->
    parseShape _parse p fields sh = ([], pairs) ->
    (forall key validator v,
        In (key, validator) sh ->
        _parse validator (p ++ [key]) (getProp fields key) = Valid v ->
        getProp fields' key = v
        /\ hasKey fields' key = orb (negb (isUndefined v)) (hasKey fields key)) ->
    parseShape _parse p fields' sh = ([], pairs).
Proof.
  induction sh as [|[k0 s0] rest IH]; intros pairs Hidem Hshape Hlook;
    [exact Hshape|].
  apply parseShape_cons_valid in Hshape as (v0 & pairs' & H0 & Hrest & ->).
  inversion Hidem as [|? ? Hhead Htail]; subst.
  destruct (Hlook k0 s0 v0 (or_introl eq_refl) H0) as [Hget Hhas].
  cbn [snd] in Hhead.
  cbn [parseShape]. rewrite Hget, (Hhead _ _ _ H0), Hhas.
  rewrite (IH pairs' Htail Hrest).
  - destruct (isUndefined v0), (hasKey fields k0); reflexivity.
  - intros key validator v Hin. apply Hlook. now right.
Qed.

Lemma extraPairs_keys (shape : list (string * ZodType))
    (fields : list (string * value)) :
  forall k, In k (map fst (extraPairsOf shape fields)) -> ~ In k (map fst shape).
Proof.
  intros k Hin Hshape. apply in_map_iff in Hin as ([k' v] & <- & Hin).
  unfold extraPairsOf in Hin. apply filter_In in Hin as [_ Hnot].
  apply negb_true_iff in Hnot. apply inKeys_In in Hshape.
  unfold shapeKeys in Hnot. cbn in *. congruence.
Qed.

(** Without a transform, and with each key declared once, parsing the
    result of a successful parse gives that result back. *)
Lemma revalidation_is_identity (schema : ZodType) :
  transformFree schema = true -> wellFormed schema = true ->
  forall p input data,
    _parse schema p input = Valid data -> _parse schema p data = Valid data.
Proof.
  induction schema
    as [minLength| | |inner IH|inner d IH|shape policy IH|inner f IH]
    using ZodType_nested_ind;
    intros Hfree Hwf p input data Hparse; cbn [_parse transformFree wellFormed] in *.
  - destruct input; try congruence.
    destruct minLength as [n|].
    + destruct (Nat.ltb (String.length s) n) eqn:Hlen; [congruence|].
      injection Hparse as <-. cbn [_parse]. now rewrite Hlen.
    + injection Hparse as <-. reflexivity.
  - destruct input; try congruence. injection Hparse as <-. reflexivity.
  - destruct input; try congruence. injection Hparse as <-. reflexivity.
  - destruct (isUndefined input) eqn:Hu.
    + injection Hparse as <-. reflexivity.
    + destruct (isUndefined data) eqn:Hd.
      * apply isUndefined_true in Hd. now subst.
      * eapply IH; eauto.
  - destruct (isUndefined data) eqn:Hd.
    + apply isUndefined_true in Hd. subst data.
      pose proof (undefined_result_from_undefined inner Hfree p _ Hparse) as Hx.
      destruct (isUndefined input) eqn:Hu.
      * exact Hparse.
      * subst input. discriminate.
    + eapply IH; eauto.
  - destruct input; try congruence.
    apply andb_true_iff in Hwf as [Hunique Hwf].
    assert (Hidem : Forall (fun kv => forall q v v',
                _parse (snd kv) q v = Valid v' -> _parse (snd kv) q v' = Valid v')
              shape).
    { rewrite Forall_forall in IH |- *. intros kv Hkv.
      rewrite forallb_forall in Hfree, Hwf. apply IH; auto. }
    unfold finishObject in Hparse.
    destruct (parseShape _parse p fields shape) as [found pairs] eqn:Hshape.
    assert (Hdeclared : forall kv, In kv pairs ->
               negb (inKeys (shapeKeys shape) (fst kv)) = false).
    { intros kv Hkv. apply negb_false_iff, inKeys_In.
      eapply parseShape_keys; eauto. apply in_map. exact Hkv. }
    assert (Hnoextra : extraKeysOf shape pairs = []).
    { unfold extraKeysOf. apply filter_none. intros k Hk.
      apply in_map_iff in Hk as (kv & <- & Hkv). now apply Hdeclared. }
    destruct policy.
    + (* strip *)
      destruct found; [|discriminate].
      destruct (extraKeysOf shape fields); cbn in Hparse; injection Hparse as <-.
      all: unfold finishObject;
        rewrite (parseShape_again p fields pairs shape pairs Hidem Hshape);
        [reflexivity|];
        intros key validator v Hin Hv;
        rewrite <- (app_nil_r pairs) at 1 2;
        apply (parseShape_lookup p fields [] shape pairs Hunique Hshape)
          with (validator := validator); auto.
    + (* strict *)
      destruct (extraKeysOf shape fields) eqn:Hextra.
      2:{ destruct found; cbn in Hparse; discriminate. }
      destruct found; [|discriminate]. cbn in Hparse. injection Hparse as <-.
      unfold finishObject.
      rewrite (parseShape_again p fields pairs shape pairs Hidem Hshape).
      * rewrite Hnoextra. reflexivity.
      * intros key validator v Hin Hv.
        rewrite <- (app_nil_r pairs) at 1 2.
        apply (parseShape_lookup p fields [] shape pairs Hunique Hshape)
          with (validator := validator); auto.
    + (* passthrough *)
      destruct found; [|discriminate].
      destruct (extraKeysOf shape fields); cbn in Hparse; injection Hparse as <-.
      all: unfold finishObject;
        rewrite (parseShape_again p fields (pairs ++ extraPairsOf shape fields)
                   shape pairs Hidem Hshape);
        [| intros key validator v Hin Hv;
           apply (parseShape_lookup p fields (extraPairsOf shape fields) shape pairs
                    Hunique Hshape (extraPairs_keys shape fields))
             with (validator := validator); auto].
      all: assert (Hsame : extraPairsOf shape (pairs ++ extraPairsOf shape fields)
                           = extraPairsOf shape fields)
        by (unfold extraPairsOf at 1; rewrite filter_app, (filter_none _ pairs Hdeclared);
            cbn [app]; apply filter_all; intros kv Hkv;
            unfold extraPairsOf in Hkv; apply filter_In in Hkv as [_ Hkv]; exact Hkv).
      all: rewrite Hsame;
        destruct (extraKeysOf shape (pairs ++ extraPairsOf shape fields)); reflexivity.
  - discriminate.
Qed.

Lemma applyStrict_transformFree (schema : ZodType) :
  transformFree schema = true -> transformFree (applyStrict schema) = true.
Proof. destruct schema; cbn; auto. Qed.

Lemma applyStrict_wellFormed (schema : ZodType) :
  wellFormed schema = true -> wellFormed (applyStrict schema) = true.
Proof. destruct schema; cbn; auto. Qed.

(** Re-validation by the strict schema of a part. *)
Lemma strict_revalidation (schema : ZodType) (input data : value) :
  transformFree schema = true -> wellFormed schema = true ->
  safeParse (applyStrict schema) input = SafeParseSuccess data ->
  safeParse (applyStrict schema) data = SafeParseSuccess data.
Proof.
  intros Hfree Hwf.
  cbn [safeParse ZodType_ZodTypeAny]. unfold zodSafeParse.
  destruct (_parse (applyStrict schema) [] input) as [v|] eqn:Hparse; [|discriminate].
  intros Heq. injection Heq as ->.
  now rewrite (revalidation_is_identity (applyStrict schema)
                 (applyStrict_transformFree schema Hfree)
                 (applyStrict_wellFormed schema Hwf) [] input data Hparse).
Qed.


(** ** Strict parts and validated values *)

Section ValidatedValues.
Context {Schema : Type} {zod : ZodTypeAny Schema} {St : Type}.
Implicit Types (w : World St) (endpointConfig : EndpointConfig Schema St).

(** When all parts pass, the handler is called with the typed request
    built from the validated values. *)
Lemma handler_called_when_valid endpointConfig request w vq vb vp :
  validatesTo endpointConfig request vq vb vp ->
  In (EvHandlerCall (typedRequestOf request vq vb vp))
     (stepsOf (validatedHandler endpointConfig request) w).
Proof.
  intros (Hq & Hb & Hp).
  destruct (validatedHandler_steps endpointConfig request w)
    as [(part & _ & errors & Hfail)
       | (vq' & vb' & vp' & tail & (Hq' & Hb' & Hp') & Hsteps & _)].
  - exfalso. destruct part; cbn in Hfail; congruence.
  - rewrite Hsteps. apply in_or_app. right. left.
    rewrite Hq in Hq'. rewrite Hb in Hb'. rewrite Hp in Hp'.
    injection Hq' as <-. injection Hb' as <-. injection Hp' as <-. reflexivity.
Qed.

Lemma handler_sees_validated_values endpointConfig request w vq vb vp typedRequest :
  validatesTo endpointConfig request vq vb vp ->
  In (EvHandlerCall typedRequest)
     (stepsOf (validatedHandler endpointConfig request) w) ->
  typedRequest = typedRequestOf request vq vb vp.
Proof.
  intros (Hq & Hb & Hp) Hin.
  apply handlerCall_typedRequest in Hin as (vq' & vb' & vp' & (Hq' & Hb' & Hp') & ->).
  rewrite Hq in Hq'. rewrite Hb in Hb'. rewrite Hp in Hp'.
  injection Hq' as <-. injection Hb' as <-. injection Hp' as <-. reflexivity.
Qed.
End ValidatedValues.

(** C4, as the code has it.  For a part that the endpoint declares by
    an object schema (the kind [applyStrict] makes strict) and an object
    input holding a key the schema does not declare, the parse of the
    part gives an issue whose message quotes the undeclared key.  When
    the part is registered with the route (every part but the body of a
    GET endpoint), the framework rejects the request with its
    validation error, for that part or for a part validated before it,
    whatever the declared fields hold, and the token check and the
    handler do not run; when no part validated before it fails, the
    error is that of this part and holds that issue.  The body of a GET
    endpoint is parsed by the route handler only: once the request has
    passed the validation of the framework and the hook, and its query
    the parse of the route handler, the request is answered 400
    "Validation failed", the reply sent holding the field error made of
    that issue, and the handler is not called. *)
Theorem strict_object_part_rejects_undeclared_key :
  forall (St : Type) serverConfig (endpointConfig : EndpointConfig ZodType St)
         request (w : World St) part shape policy fields k,
    declaredPart endpointConfig part = Some (ZodObject shape policy) ->
    rawPart request part = VObj fields ->
    In k (map fst fields) -> ~ In k (shapeKeys shape) ->
    let run := handleRequest (createEndpoint serverConfig endpointConfig) request in
    let issue := unrecognizedKeys (extraKeysOf shape fields) [] in
    namesKey (issue_message issue) k
    /\ ((part = PBody -> isGET (method endpointConfig) = false) ->
        (exists failing issues,
            run w
            = (Normal (SchemaError failing issues),
               mkWorld (console w)
                 (journal w
                    ++ registeredSteps (routeSchema endpointConfig)
                         (frameworkUpTo failing)
                    ++ [EvTransmit])
                 (store w) None)
            /\ (failing = part \/ frameworkBefore failing part = true))
        /\ ((forall earlier, frameworkBefore earlier part = true ->
               exists data,
                 frameworkResult (routeSchema endpointConfig) request earlier
                   = SafeParseSuccess data) ->
            exists issues,
              fst (run w) = Normal (SchemaError part issues) /\ In issue issues))
    /\ (part = PBody -> isGET (method endpointConfig) = true ->
        forall validated admitted pre,
          snd (validate (routeSchema endpointConfig) request) = Passed validated ->
          passesHook serverConfig endpointConfig validated admitted pre ->
          (exists data,
              partResult (query endpointConfig) (r_query admitted)
              = SafeParseSuccess data) ->
          exists errors,
            answersWith run w
              (validationSteps endpointConfig request ++ pre
                 ++ requestSteps endpointConfig (partsUpTo PBody))
              400 (badRequest (map (requestFieldError PBody) errors))
            /\ In (requestFieldError PBody issue)
                  (map (requestFieldError PBody) errors)).
Proof.
  intros St srv ep req w part shape policy fields k Hdeclared Hraw Hin Hnot run issue.
  subst run issue.
  destruct (strict_object_reports_unknown_key shape [] fields k Hin Hnot)
    as (issues & Hparse & Hissue & Hextra).
  split; [|split].
  - cbn [issue_message unrecognizedKeys].
    apply namesKey_prefix, joinValues_names. exact Hextra.
  - intros Hmethod.
    assert (Hregistered : registeredSchema (routeSchema ep) part
                          = Some (ZodObject shape Strict)).
    { destruct part; cbn in Hdeclared |- *; rewrite Hdeclared; try reflexivity.
      now rewrite (Hmethod eq_refl). }
    assert (Hfail : frameworkResult (routeSchema ep) req part
                    = SafeParseError issues).
    { unfold frameworkResult. rewrite Hregistered, Hraw. cbn [isUndefined].
      cbn. unfold zodSafeParse. now rewrite Hparse. }
    split.
    + destruct (validate_spec (routeSchema ep) req)
        as [(failing & issues' & Hvalidate & Hfail' & Hearlier)
           | (validated & _ & Hall & _)].
      * exists failing, issues'. split.
        -- exact (handleRequest_rejected srv ep req w _ _ _ Hvalidate).
        -- destruct (frameworkBefore part failing) eqn:Hafter.
           ++ destruct (Hearlier part Hafter) as [data Hdata]. congruence.
           ++ destruct failing, part; try discriminate; auto.
      * destruct (Hall part) as (data & Hdata & _). congruence.
    + intros Hearlier. exists issues. split; [|exact Hissue].
      now rewrite (handleRequest_rejected srv ep req w _ _ _
                     (validate_rejected _ _ _ _ Hfail Hearlier)).
  - intros -> Hget validated admitted pre Hpassed Hhook [vq Hquery].
    cbn [declaredPart rawPart] in Hdeclared, Hraw.
    assert (Hkept : rawPart admitted PBody = rawPart req PBody).
    { apply (unregistered_part_kept srv ep req validated admitted pre PBody
               Hpassed Hhook).
      cbn. now rewrite Hdeclared, Hget. }
    assert (Hfail : partResult (declaredPart ep PBody) (rawPart admitted PBody)
                    = SafeParseError issues).
    { rewrite Hkept. cbn [declaredPart rawPart partResult].
      rewrite Hdeclared, Hraw. cbn. unfold zodSafeParse. now rewrite Hparse. }
    exists issues. split.
    + apply handleRequest_part_rejected with (validated := validated)
                                              (admitted := admitted);
        try assumption.
      intros [] H; try discriminate. now exists vq.
    + apply in_map. exact Hissue.
Qed.

(** ** The properties on the endpoints of the examples *)

(** C1 as stated fails: [POST /users] with a query that lacks [limit]
    and a body with an empty name has two failing parts; the body is
    validated first, the query is not validated at all, and the
    response holds the issue of the body only. *)
Lemma first_failure_hides_later_parts :
  frameworkResult (routeSchema createUser) twoBadPartsRequest PBody
    = SafeParseError [tooSmall 1 ["name"]]
  /\ frameworkResult (routeSchema createUser) twoBadPartsRequest PQuery
     = SafeParseError [invalidType "string" ["limit"] VUndefined]
  /\ handleRequest (createEndpoint secretServer createUser) twoBadPartsRequest world0
     = (Normal (SchemaError PBody [tooSmall 1 ["name"]]),
        mkWorld [] [EvValidate PBody; EvTransmit] 0 None)
  /\ fst (handleRequest (createEndpoint secretServer createUser)
            twoBadPartsRequest world0)
     <> Normal (SchemaError PBody
                  [tooSmall 1 ["name"]; invalidType "string" ["limit"] VUndefined]).
Proof.
  repeat split; try reflexivity. vm_compute. discriminate.
Qed.

(** [POST /users?limit=10] with an empty name is rejected by the
    framework for its body; [PUT /users] with a name passes the
    framework and fails the second parse of its transformed body. *)
Lemma validation_stops_at_first_failing_part_witness :
  handleRequest (createEndpoint secretServer createUser) emptyNameRequest world0
    = (Normal (SchemaError PBody [tooSmall 1 ["name"]]),
       mkWorld [] [EvValidate PBody; EvTransmit] 0 None)
  /\ answersWith
       (handleRequest (createEndpoint secretServer renameUser) renameRequest) world0
       [EvValidate PBody; EvSafeParse PBody] 400
       (badRequest [{| field := "body.name";
                       message := "Expected string, received number" |}]).
Proof.
  split.
  - apply (proj1 (validation_stops_at_first_failing_part secretServer createUser
                    emptyNameRequest world0)
             PBody [tooSmall 1 ["name"]]).
    + reflexivity.
    + intros [] H; try discriminate. eexists. reflexivity.
  - assert (Hhook : passesHook secretServer renameUser
                      (setPart renameRequest PBody (VObj [("name", VNum 3)]))
                      (setPart renameRequest PBody (VObj [("name", VNum 3)])) [])
      by (split; reflexivity).
    assert (Hearlier : forall earlier, partBefore earlier PBody = true ->
              exists data,
                partResult (declaredPart renameUser earlier)
                  (rawPart (setPart renameRequest PBody (VObj [("name", VNum 3)]))
                     earlier) = SafeParseSuccess data).
    { intros [] H; try discriminate. eexists. reflexivity. }
    exact (proj2 (validation_stops_at_first_failing_part secretServer renameUser
                    renameRequest world0)
             (setPart renameRequest PBody (VObj [("name", VNum 3)]))
             (setPart renameRequest PBody (VObj [("name", VNum 3)]))
             [] PBody [invalidType "string" ["name"] (VNum 3)]
             eq_refl Hhook eq_refl Hearlier).
Defined.

(** C2 as stated fails in three places: a present but empty header is
    answered with the missing-header message, not the format message;
    an empty error text of the validator is replaced by "Invalid
    token"; and a request without a header whose body the framework
    rejects is answered with the validation error of the framework, not
    with 401: the token check does not run. *)
Lemma empty_header_and_empty_error :
  r_authorization (getUserRequest (Some "") "7") = Some ""
  /\ fst (handleRequest (createEndpoint secretServer getUser)
            (getUserRequest (Some "") "7") world0)
     = Normal (Transmitted 401
                 (wirePayload (unauthorized "Missing authorization header")))
  /\ fst (handleRequest (createEndpoint secretServer getUser)
            (getUserRequest (Some "") "7") world0)
     <> Normal (Transmitted 401
                  (wirePayload
                     (unauthorized
                        "Invalid authorization header format. Expected: Bearer <token>")))
  /\ fst (handleRequest (createEndpoint silentServer getUser)
            (getUserRequest (Some "Bearer abc") "7") world0)
     = Normal (Transmitted 403 (wirePayload (forbidden "Invalid token")))
  /\ fst (handleRequest (createEndpoint silentServer getUser)
            (getUserRequest (Some "Bearer abc") "7") world0)
     <> Normal (Transmitted 403 (wirePayload (forbidden "")))
  /\ authenticated createData = true
  /\ r_authorization wrongFieldRequest = None
  /\ handleRequest (createEndpoint secretServer createData) wrongFieldRequest world0
     = (Normal (SchemaError PBody
                  [invalidType "string" ["content"] VUndefined;
                   unrecognizedKeys ["wrongField"] []]),
        mkWorld [] [EvValidate PBody; EvTransmit] 0 None).
Proof.
  repeat split; try reflexivity; vm_compute; discriminate.
Qed.

Lemma bearer_authentication_outcomes_witness :
  answersWith
    (handleRequest (createEndpoint secretServer getUser) (getUserRequest None "7"))
    world0 [EvValidate PParams; EvAuthCheck] 401
    (unauthorized "Missing authorization header")
  /\ answersWith
       (handleRequest (createEndpoint secretServer getUser)
          (getUserRequest (Some "InvalidFormat") "7"))
       world0 [EvValidate PParams; EvAuthCheck] 401
       (unauthorized "Invalid authorization header format. Expected: Bearer <token>")
  /\ answersWith
       (handleRequest (createEndpoint secretServer getUser)
          (getUserRequest (Some "Bearer invalid-token") "7"))
       world0 [EvValidate PParams; EvAuthCheck] 403 (forbidden "Invalid token")
  /\ answersWith
       (handleRequest (createEndpoint validatorServer getUser)
          (getUserRequest (Some "Bearer invalid-token") "7"))
       world0 [EvValidate PParams; EvAuthCheck; EvValidatorCall "invalid-token"] 403
       (forbidden "Custom error message")
  /\ (forall typedRequest,
         In (EvHandlerCall typedRequest)
            (stepsOf (handleRequest (createEndpoint validatorServer getUser)
                        (getUserRequest (Some "Bearer valid-custom-token") "7"))
               world0) ->
         r_auth typedRequest = adminContext).
Proof.
  assert (Hpassed : forall header,
             snd (validate (routeSchema getUser) (getUserRequest header "7"))
             = Passed (getUserRequest header "7")) by reflexivity.
  split; [|split; [|split; [|split]]].
  - apply (bearer_authentication_outcomes secretServer getUser
             (getUserRequest None "7") (getUserRequest None "7") world0
             eq_refl (Hpassed _)).
    reflexivity.
  - apply (proj1 (proj2 (bearer_authentication_outcomes secretServer getUser
                           (getUserRequest (Some "InvalidFormat") "7")
                           (getUserRequest (Some "InvalidFormat") "7") world0
                           eq_refl (Hpassed _)))
             "InvalidFormat" eq_refl).
    + discriminate.
    + intros token Heq. discriminate Heq.
  - apply (proj1 (proj2 (proj2 (bearer_authentication_outcomes secretServer getUser
                                  (getUserRequest (Some "Bearer invalid-token") "7")
                                  (getUserRequest (Some "Bearer invalid-token") "7")
                                  world0 eq_refl (Hpassed _))))
             "invalid-token" "secret-token" eq_refl eq_refl eq_refl).
    discriminate.
  - apply (proj1 (proj2 (proj2 (proj2
             (bearer_authentication_outcomes validatorServer getUser
                (getUserRequest (Some "Bearer invalid-token") "7")
                (getUserRequest (Some "Bearer invalid-token") "7") world0
                eq_refl (Hpassed _)))))
             "invalid-token" _ eq_refl eq_refl eq_refl).
    reflexivity.
  - intros typedRequest Hin.
    apply (proj2 (proj2 (proj2 (proj2 (proj2
             (bearer_authentication_outcomes validatorServer getUser
                (getUserRequest (Some "Bearer valid-custom-token") "7")
                (getUserRequest (Some "Bearer valid-custom-token") "7") world0
                eq_refl (Hpassed _)))))
             "valid-custom-token" eq_refl eq_refl eq_refl) typedRequest Hin).
    reflexivity.
Defined.



(** The typed request of [GET /users/7?verbose=1] sent with a body. *)
Lemma undeclared_parts_reach_handler_undefined_witness :
  r_query (getUserRequest None "7") = VObj [("verbose", VStr "1")]
  /\ r_body (getUserRequest None "7") = VObj [("note", VStr "raw")]
  /\ r_query (typedRequestOf (getUserRequest None "7")
                VUndefined VUndefined (VObj [("id", VStr "7")])) = VUndefined
  /\ r_body (typedRequestOf (getUserRequest None "7")
               VUndefined VUndefined (VObj [("id", VStr "7")])) = VUndefined.
Proof.
  assert (Hcall : In (EvHandlerCall
                        (typedRequestOf (getUserRequest None "7")
                           VUndefined VUndefined (VObj [("id", VStr "7")])))
                     (stepsOf (validatedHandler getUser (getUserRequest None "7"))
                        world0)).
  { vm_compute. right. left. reflexivity. }
  destruct (undeclared_parts_reach_handler_undefined getUser
              (getUserRequest None "7") world0 _ Hcall) as (Hq & Hb & _).
  split; [reflexivity|]. split; [reflexivity|].
  split; [exact (Hq eq_refl) | exact (Hb eq_refl)].
Defined.

(** C4 as stated fails in two ways.  With the body declared as an
    optional object, which [applyStrict] leaves as it is, the undeclared
    field is dropped, validation succeeds, the handler runs and the
    response is 200.  And with an undeclared key in the query of a
    request whose body fails, the response holds the issue of the body
    only, not the undeclared key of the query. *)
Lemma undeclared_field_dropped_or_unreported :
  body patchUser = Some (ZodOptional userBody)
  /\ hasKey (objectFields (r_body extraFieldRequest)) "extraField" = true
  /\ inKeys (shapeKeys [("name", ZodString (Some 1)); ("email", ZodString None)])
       "extraField" = false
  /\ handleRequest (createEndpoint secretServer patchUser) extraFieldRequest world0
     = (Normal (Transmitted 200 (VObj [("id", VStr "1"); ("name", VStr "John")])),
        mkWorld []
          [EvValidate PBody; EvSafeParse PBody;
           EvHandlerCall
             (typedRequestOf extraFieldRequest VUndefined
                (VObj [("name", VStr "John"); ("email", VStr "j@b.com")]) VUndefined);
           EvResponseGuard; EvReturn; EvTransmit]
          1 (Some (200%Z, VObj [("id", VStr "1"); ("name", VStr "John")])))
  /\ query createUser = Some limitQuery
  /\ hasKey (objectFields (VObj [("limit", VStr "10"); ("page", VStr "2")])) "page"
     = true
  /\ inKeys (shapeKeys [("limit", ZodString None)]) "page" = false
  /\ fst (handleRequest (createEndpoint secretServer createUser)
            (requestOf None (VObj [("limit", VStr "10"); ("page", VStr "2")])
               (VObj [("name", VStr ""); ("email", VStr "a@b.com")]) (VObj []))
            world0)
     = Normal (SchemaError PBody [tooSmall 1 ["name"]]).
Proof. repeat split; reflexivity. Qed.

Lemma strict_object_part_rejects_undeclared_key_witness :
  namesKey (issue_message (unrecognizedKeys ["extraField"] [])) "extraField"
  /\ exists issues,
       fst (handleRequest (createEndpoint secretServer createUser) extraFieldRequest
              world0)
         = Normal (SchemaError PBody issues)
       /\ In (unrecognizedKeys ["extraField"] []) issues.
Proof.
  assert (Hin : In "extraField" (map fst (objectFields extraFieldBody)))
    by (cbn; tauto).
  assert (Hnot : ~ In "extraField"
                     (shapeKeys [("name", ZodString (Some 1));
                                 ("email", ZodString None)])).
  { cbn. intros [H|[H|[]]]; discriminate. }
  destruct (strict_object_part_rejects_undeclared_key nat secretServer createUser
              extraFieldRequest world0 PBody
              [("name", ZodString (Some 1)); ("email", ZodString None)] Strip
              (objectFields extraFieldBody) "extraField" eq_refl eq_refl Hin Hnot)
    as (Hnames & Hregistered & _).
  split; [exact Hnames|].
  apply (proj2 (Hregistered (fun _ => eq_refl))).
  intros [] H; try discriminate. eexists. reflexivity.
Defined.



(** C6 fails on the endpoint [POST /custom-validation] of the tests,
    whose handler throws a [ValidationError] with one detail for the
    address [taken@example.com]: the route handler sends the reply 400
    with the details, and the response transmitted has lost them,
    because the schema registered for the status 400 does not declare
    [details]. *)
Theorem handler_validation_error_loses_details :
  fst (fst (handler customValidation
              (typedRequestOf takenRequest VUndefined
                 (VObj [("email", VStr "taken@example.com")]) VUndefined) 0))
    = Throws (ValidationError emailTaken)
  /\ handleRequest (createEndpoint secretServer customValidation) takenRequest world0
     = (Normal (Transmitted 400
                  (VObj [("statusCode", VNum 400); ("error", VStr "Bad Request");
                         ("message", VStr "Validation failed")])),
        mkWorld []
          [EvValidate PBody; EvSafeParse PBody;
           EvHandlerCall
             (typedRequestOf takenRequest VUndefined
                (VObj [("email", VStr "taken@example.com")]) VUndefined);
           EvReplySend 400; EvTransmit]
          1
          (Some (400%Z,
                 VObj [("statusCode", VNum 400); ("error", VStr "Bad Request");
                       ("message", VStr "Validation failed");
                       ("details",
                        VArr [VObj [("field", VStr "body.email");
                                    ("message", VStr "Email already taken")]])]))).
Proof. split; reflexivity. Qed.

(** C8 fails on [PUT /users], whose body schema replaces the name by
    its length: the body [{name: "Ada"}] matches the contract and
    validates to [{name: 3}]; the framework validates it and puts the
    validated body in place of the raw one, the route handler then
    parses that validated body with the same schema, which fails, and
    the request is answered 400 without a call of the handler. *)
Theorem transformed_body_fails_second_validation :
  safeParse (applyStrict nameLengthBody) (r_body renameRequest)
    = SafeParseSuccess (VObj [("name", VNum 3)])
  /\ snd (validate (routeSchema renameUser) renameRequest)
     = Passed (setPart renameRequest PBody (VObj [("name", VNum 3)]))
  /\ safeParse (applyStrict nameLengthBody) (VObj [("name", VNum 3)])
     = SafeParseError [invalidType "string" ["name"] (VNum 3)]
  /\ handleRequest (createEndpoint secretServer renameUser) renameRequest world0
     = (Normal (Transmitted 400
                  (VObj [("statusCode", VNum 400); ("error", VStr "Bad Request");
                         ("message", VStr "Validation failed")])),
        mkWorld []
          [EvValidate PBody; EvSafeParse PBody; EvReplySend 400; EvTransmit]
          0
          (Some (400%Z,
                 VObj [("statusCode", VNum 400); ("error", VStr "Bad Request");
                       ("message", VStr "Validation failed");
                       ("details",
                        VArr [VObj [("field", VStr "body.name");
                                    ("message",
                                     VStr "Expected string, received number")]])]))).
Proof. repeat split; reflexivity. Qed.

Lemma empty_bearer_token_reaches_credential_witness :
  fst (authenticateToken secretServer (getUserRequest (Some "Bearer ") "7") world0)
    = Normal (HookReplied 403 (forbidden "Invalid token"))
  /\ In (EvValidatorCall "")
        (stepsOf (authenticateToken validatorServer
                    (getUserRequest (Some "Bearer ") "7")) world0).
Proof.
  split.
  - apply (proj1 (proj2 (empty_bearer_token_reaches_credential secretServer
                           (getUserRequest (Some "Bearer ") "7") world0 eq_refl))
             "secret-token" eq_refl).
    discriminate.
  - exact (proj1 (proj2 (proj2 (empty_bearer_token_reaches_credential
                                  validatorServer
                                  (getUserRequest (Some "Bearer ") "7") world0
                                  eq_refl))
                    _ eq_refl)).
Defined.
(** * Further properties of the code *)

(** ** Operation identifiers: what they contain and when they collide *)

Lemma hasChar_app (c : ascii) (a b : string) :
  hasChar c (a ++ b) = orb (hasChar c a) (hasChar c b).
Proof.
  unfold hasChar. induction a as [|x a IH]; cbn; [reflexivity|].
  now rewrite IH, orb_assoc.
Qed.

Lemma replaced_char_no_slash (c : ascii) :
  Ascii.eqb "/" (if Ascii.eqb c "/" then "_" else c) = false.
Proof. destruct c as [[] [] [] [] [] [] [] []]; reflexivity. Qed.

Lemma replaceSlashes_no_slash (s : string) : hasChar "/" (replaceSlashes s) = false.
Proof.
  unfold hasChar.
  induction s as [|c s IH]; cbn [replaceSlashes list_ascii_of_string existsb];
    [reflexivity|].
  now rewrite IH, replaced_char_no_slash.
Qed.

(** X1.  A generated operation identifier never contains a slash. *)
Theorem generateOperationId_has_no_slash :
  forall (url : string) (m : HttpMethod),
    hasChar "/" (generateOperationId url (methodName m)) = false.
Proof.
  intros url m. unfold generateOperationId.
  rewrite !hasChar_app, replaceSlashes_no_slash.
  destruct m; reflexivity.
Qed.

Lemma lowerChar_idempotent (c : ascii) : lowerChar (lowerChar c) = lowerChar c.
Proof. destruct c as [[] [] [] [] [] [] [] []]; reflexivity. Qed.

Lemma toLowerCase_idempotent (s : string) : toLowerCase (toLowerCase s) = toLowerCase s.
Proof.
  induction s as [|c s IH]; cbn; [reflexivity|].
  now rewrite lowerChar_idempotent, IH.
Qed.

Lemma replaceSlashes_lower_char (c : ascii) :
  (if Ascii.eqb (lowerChar (if Ascii.eqb c "/" then "_" else c)) "/"
   then "_" else lowerChar (if Ascii.eqb c "/" then "_" else c))%char
  = (if Ascii.eqb (lowerChar c) "/" then "_" else lowerChar c)%char.
Proof. destruct c as [[] [] [] [] [] [] [] []]; reflexivity. Qed.

Lemma replaceSlashes_absorbs (s : string) :
  replaceSlashes (toLowerCase (replaceSlashes s)) = replaceSlashes (toLowerCase s).
Proof.
  induction s as [|c s IH]; cbn [replaceSlashes toLowerCase]; [reflexivity|].
  now rewrite replaceSlashes_lower_char, IH.
Qed.

Lemma replaceLeadingSlash_cases (c : ascii) (t : string) :
  (c = "/"%char /\ replaceLeadingSlash (String c t) = t)
  \/ (c <> "/"%char /\ replaceLeadingSlash (String c t) = String c t).
Proof.
  destruct (Ascii.eqb_spec c "/"%char) as [->|Hne]; [left; split; reflexivity|].
  right. split; [assumption|].
  destruct c as [[] [] [] [] [] [] [] []]; try reflexivity.
  exfalso; apply Hne; reflexivity.
Qed.

(** X2.  Generated operation identifiers are not unique per URL: the
    letter case of URL and method is forgotten, a slash after the first
    character gives the same identifier as an underscore in its place, and
    a leading slash the same as none. *)
Theorem generateOperationId_collisions :
  forall (url method : string),
    generateOperationId (toLowerCase url) (toLowerCase method)
      = generateOperationId url method
    /\ (forall c rest,
          generateOperationId (String c (replaceSlashes rest)) method
          = generateOperationId (String c rest) method)
    /\ generateOperationId (String "/" (replaceLeadingSlash url)) method
       = generateOperationId url method.
Proof.
  intros url method. unfold generateOperationId. split; [|split].
  - rewrite toLowerCase_replaceLeadingSlash, !toLowerCase_idempotent.
    now rewrite <- toLowerCase_replaceLeadingSlash.
  - intros c rest. f_equal.
    destruct (replaceLeadingSlash_cases c rest) as [[-> ->]|[Hne ->]].
    + cbn [replaceLeadingSlash]. apply replaceSlashes_absorbs.
    + destruct (replaceLeadingSlash_cases c (replaceSlashes rest))
        as [[Heq _]|[_ ->]]; [contradiction|].
      cbn [toLowerCase replaceSlashes]. now rewrite replaceSlashes_absorbs.
  - reflexivity.
Qed.

(** ** The catch block and the error classes *)

(** X3.  For an error of one of the three classes of [validate.ts], the
    reply of the catch block carries the status code and the message the
    class itself gives its instances. *)
Theorem catchBlock_agrees_with_error_classes :
  forall (St : Type) (e : JsError) (w : World St) (code : Z),
    errorStatusCode e = Some code ->
    exists payload,
      fst (catchBlock e w) = Normal (Replied code payload)
      /\ statusCode payload = code
      /\ payloadMessage payload = errorMessage e
      /\ In (EvReplySend code) (stepsOf (catchBlock e) w).
Proof.
  intros St e w code Hcode.
  destruct e; cbn in Hcode; try discriminate; injection Hcode as <-;
    eexists; (split; [reflexivity|]); repeat split;
    unfold stepsOf; cbn;
    rewrite skipn_app, skipn_all, Nat.sub_diag; cbn; auto.
Qed.

Lemma catchBlock_agrees_with_error_classes_witness :
  exists payload,
    fst (catchBlock (NotFoundError "User not found") world0)
      = Normal (Replied 404 payload)
    /\ statusCode payload = 404%Z
    /\ payloadMessage payload = "User not found"
    /\ In (EvReplySend 404) (stepsOf (catchBlock (NotFoundError "User not found")) world0).
Proof.
  apply (catchBlock_agrees_with_error_classes nat (NotFoundError "User not found")
           world0 404%Z).
  reflexivity.
Defined.

(** ** What [validatedHandler] throws, logs and returns *)

Section HandlerExtras.
Context {Schema : Type} {zod : ZodTypeAny Schema} {St : Type}.
Implicit Types (w : World St) (endpointConfig : EndpointConfig Schema St).

(** X4.  [validatedHandler] throws in two cases only, both after the
    parts have passed: the handler threw an error outside the three
    classes of [validate.ts], which is thrown on; or the handler
    returned a value that fails the response guard and that
    [JSON.stringify] refuses, and the [TypeError] of [JSON.stringify]
    is thrown.  A failed request validation never leaves it as an
    exception, nor does a failed guard on a value that can be logged. *)
Theorem validatedHandler_thrown_errors :
  forall endpointConfig request w e,
    fst (validatedHandler endpointConfig request w) = Throws e ->
    exists vq vb vp,
      validatesTo endpointConfig request vq vb vp
      /\ ((fst (fst (handler endpointConfig (typedRequestOf request vq vb vp)
                       (store w)))
           = Throws e
           /\ exists name msg, e = OtherError name msg)
          \/ (e = stringifyError
              /\ exists result errors,
                   fst (fst (handler endpointConfig
                               (typedRequestOf request vq vb vp) (store w)))
                   = Normal result
                   /\ safeParse (applyStrict (response endpointConfig)) result
                      = SafeParseError errors
                   /\ hasBigInt result = true)).
Proof.
  intros ep req w e Hthrows.
  destruct (validation_cases ep req)
    as [(part & errors & Hfail & Hearlier) | (vq & vb & vp & Hvalid)].
  - rewrite (validatedHandler_rejected ep req w part errors Hfail Hearlier) in Hthrows.
    discriminate.
  - exists vq, vb, vp. split; [exact Hvalid|].
    destruct (handler_cases ep req w vq vb vp)
      as [(e' & store' & own & Hhandler)
         | [(result & store' & own & data & Hhandler & Hguard)
           | (result & store' & own & errors & Hhandler & Hguard)]].
    + rewrite (validatedHandler_thrown ep req w vq vb vp e' store' own Hvalid Hhandler)
        in Hthrows.
      left. rewrite Hhandler. cbn [fst].
      destruct e'; cbn in Hthrows; try discriminate.
      injection Hthrows as <-. split; [reflexivity | eauto].
    + rewrite (validatedHandler_returned ep req w vq vb vp result store' own data
                 Hvalid Hhandler Hguard) in Hthrows. discriminate.
    + destruct (hasBigInt result) eqn:Hjson.
      * rewrite (validatedHandler_unserialisable ep req w vq vb vp result store' own
                   errors Hvalid Hhandler Hguard Hjson) in Hthrows.
        injection Hthrows as <-. right. split; [reflexivity|].
        exists result, errors. rewrite Hhandler. now repeat split.
      * rewrite (validatedHandler_guard_failed ep req w vq vb vp result store' own
                   errors Hvalid Hhandler Hguard Hjson) in Hthrows. discriminate.
Qed.

(** X5.  The console is written in one case only: the handler
    returned a value that fails the response guard and that
    [JSON.stringify] accepts; one entry is then added, with the URL and
    the method of the request, the issues and the value.  A failed
    request validation, an error thrown by the handler, a value that
    passes the guard, and a failing value that [JSON.stringify] refuses
    all leave the console as it was. *)
Theorem validatedHandler_logs_guard_failures_only :
  forall endpointConfig request w,
    let after := snd (validatedHandler endpointConfig request w) in
    (forall part errors,
        partResult (declaredPart endpointConfig part) (rawPart request part)
          = SafeParseError errors ->
        console after = console w)
    /\ (forall vq vb vp completion store' own,
          validatesTo endpointConfig request vq vb vp ->
          handler endpointConfig (typedRequestOf request vq vb vp) (store w)
            = (completion, store', own) ->
          console after
          = match completion with
            | Throws _ => console w
            | Normal result =>
                match safeParse (applyStrict (response endpointConfig)) result with
                | SafeParseSuccess _ => console w
                | SafeParseError errors =>
                    if hasBigInt result then console w
                    else console w
                           ++ [{| log_label := "Response validation failed:";
                                  log_url := r_url request;
                                  log_method := r_method request;
                                  log_errors := errors;
                                  log_response := result |}]
                end
            end).
Proof.
  intros ep req w after. subst after. split.
  - intros part errors Hfail.
    now destruct (validatedHandler_failing_part ep req w part errors Hfail)
      as (_ & -> & _).
  - intros vq vb vp [result|e] store' own Hvalid Hhandler.
    + destruct (safeParse (applyStrict (response ep)) result)
        as [data|errors] eqn:Hguard.
      * now rewrite (validatedHandler_returned ep req w vq vb vp result store' own
                       data Hvalid Hhandler Hguard).
      * destruct (hasBigInt result) eqn:Hjson.
        -- now rewrite (validatedHandler_unserialisable ep req w vq vb vp result
                          store' own errors Hvalid Hhandler Hguard Hjson).
        -- now rewrite (validatedHandler_guard_failed ep req w vq vb vp result
                          store' own errors Hvalid Hhandler Hguard Hjson).
    + rewrite (validatedHandler_thrown ep req w vq vb vp e store' own Hvalid Hhandler).
      destruct (catchBlock_run e
                  (mkWorld (console w)
                     (journal w ++ requestSteps ep allParts
                        ++ [EvHandlerCall (typedRequestOf req vq vb vp)])
                     store' (ownSend own (sent w))))
        as (completion & steps & sent' & -> & _).
      reflexivity.
Qed.

(** X6.  When the response guard passes, what is returned for
    transmission is the value of the handler itself, not the data the
    guard parsed from it, and the handler's state change is kept. *)
Theorem validatedHandler_returns_handler_value :
  forall endpointConfig request w vq vb vp result store' own data,
    validatesTo endpointConfig request vq vb vp ->
    handler endpointConfig (typedRequestOf request vq vb vp) (store w)
      = (Normal result, store', own) ->
    safeParse (applyStrict (response endpointConfig)) result = SafeParseSuccess data ->
    fst (validatedHandler endpointConfig request w) = Normal (Returned result)
    /\ store (snd (validatedHandler endpointConfig request w)) = store'
    /\ console (snd (validatedHandler endpointConfig request w)) = console w.
Proof.
  intros ep req w vq vb vp result store' own data Hvalid Hhandler Hguard.
  rewrite (validatedHandler_returned ep req w vq vb vp result store' own data
             Hvalid Hhandler Hguard).
  repeat split.
Qed.

(** X7.  An endpoint that is not marked authenticated never runs the
    token check: its run does not depend on the credential of the server,
    and the handler sees the [auth] the request already had, whatever the
    Authorization header holds. *)
Theorem public_endpoint_skips_authentication :
  forall (serverConfig serverConfig' : APIServerConfig) endpointConfig request w,
    authenticated endpointConfig = false ->
    handleRequest (createEndpoint serverConfig endpointConfig) request w
      = handleRequest (createEndpoint serverConfig' endpointConfig) request w
    /\ ~ In EvAuthCheck
           (stepsOf (handleRequest (createEndpoint serverConfig endpointConfig) request) w)
    /\ forall typedRequest,
         In (EvHandlerCall typedRequest)
            (stepsOf (handleRequest (createEndpoint serverConfig endpointConfig) request)
               w) ->
         r_auth typedRequest = r_auth request.
Proof.
  intros srv srv' ep req w Hopen. split; [|split].
  - unfold handleRequest. cbn [createEndpoint route_schema route_preHandler
                                 route_handler].
    now rewrite Hopen.
  - intros Hin.
    apply authCheck_authenticated in Hin. congruence.
  - intros treq Hin.
    apply handlerCall_reaches in Hin
      as (validated & admitted & pre & Hpassed & Hhook & Hin).
    apply handlerCall_typedRequest in Hin as (vq & vb & vp & _ & ->).
    unfold passesHook in Hhook. rewrite Hopen in Hhook. destruct Hhook as [-> _].
    destruct (validate_passed ep req validated Hpassed) as (_ & _ & _ & _ & Hkeeps).
    exact Hkeeps.
Qed.
End HandlerExtras.

Lemma validatedHandler_thrown_errors_witness :
  (exists vq vb vp,
      validatesTo getUser (getUserRequest None "0") vq vb vp
      /\ ((fst (fst (handler getUser
                        (typedRequestOf (getUserRequest None "0") vq vb vp)
                        (store world0)))
            = Throws (OtherError "Error" "boom")
            /\ exists name msg, OtherError "Error" "boom" = OtherError name msg)
           \/ (OtherError "Error" "boom" = stringifyError
               /\ exists result errors,
                    fst (fst (handler getUser
                                (typedRequestOf (getUserRequest None "0") vq vb vp)
                                (store world0)))
                    = Normal result
                    /\ safeParse (applyStrict (response getUser)) result
                       = SafeParseError errors
                    /\ hasBigInt result = true)))
  /\ fst (validatedHandler countRows listUsersRequest world0) = Throws stringifyError.
Proof.
  split; [|reflexivity].
  apply (validatedHandler_thrown_errors getUser
           (getUserRequest None "0") world0 (OtherError "Error" "boom")).
  reflexivity.
Defined.

(** [GET /users/500] adds one entry; [GET /rows/count], whose value
    cannot be logged, and [GET /users/999], whose handler throws, add
    none. *)
Lemma validatedHandler_logs_guard_failures_only_witness :
  console (snd (validatedHandler getUser (getUserRequest None "500") world0))
    = [{| log_label := "Response validation failed:";
          log_url := "/users/500"; log_method := "GET";
          log_errors := [invalidType "string" ["name"] VUndefined];
          log_response := VObj [("id", VStr "500")] |}]
  /\ console (snd (validatedHandler countRows listUsersRequest world0)) = []
  /\ console (snd (validatedHandler getUser (getUserRequest None "999") world0)) = [].
Proof.
  split; [|split].
  - exact (proj2 (validatedHandler_logs_guard_failures_only getUser
                    (getUserRequest None "500") world0)
             VUndefined VUndefined (VObj [("id", VStr "500")])
             (Normal (VObj [("id", VStr "500")])) 1 None
             (conj eq_refl (conj eq_refl eq_refl)) eq_refl).
  - exact (proj2 (validatedHandler_logs_guard_failures_only countRows
                    listUsersRequest world0)
             VUndefined VUndefined VUndefined
             (Normal (VObj [("count", VBigInt 10)])) 1 None
             (conj eq_refl (conj eq_refl eq_refl)) eq_refl).
  - exact (proj2 (validatedHandler_logs_guard_failures_only getUser
                    (getUserRequest None "999") world0)
             VUndefined VUndefined (VObj [("id", VStr "999")])
             (Throws (NotFoundError "User not found")) 1 None
             (conj eq_refl (conj eq_refl eq_refl)) eq_refl).
Defined.

(** The guard fills in the default; the returned value lacks it. *)
Lemma validatedHandler_returns_handler_value_witness :
  safeParse (applyStrict (response countUsers)) (VObj [("count", VNum 2)])
    = SafeParseSuccess (VObj [("count", VNum 2); ("unit", VStr "users")])
  /\ fst (validatedHandler countUsers listUsersRequest world0)
     = Normal (Returned (VObj [("count", VNum 2)]))
  /\ store (snd (validatedHandler countUsers listUsersRequest world0)) = 1.
Proof.
  assert (Hguard : safeParse (applyStrict (response countUsers))
                     (VObj [("count", VNum 2)])
                   = SafeParseSuccess (VObj [("count", VNum 2); ("unit", VStr "users")]))
    by reflexivity.
  split; [exact Hguard|].
  destruct (validatedHandler_returns_handler_value countUsers listUsersRequest world0
              VUndefined VUndefined VUndefined (VObj [("count", VNum 2)]) 1 None
              (VObj [("count", VNum 2); ("unit", VStr "users")])
              (conj eq_refl (conj eq_refl eq_refl)) eq_refl Hguard)
    as (Hreturn & Hstore & _).
  split; assumption.
Defined.

Lemma public_endpoint_skips_authentication_witness :
  handleRequest (createEndpoint secretServer createUser)
    (requestOf (Some "Bearer secret-token") (VObj [("limit", VStr "10")])
       (VObj [("name", VStr "Ada"); ("email", VStr "a@b.com")]) (VObj []))
    world0
  = handleRequest (createEndpoint validatorServer createUser)
      (requestOf (Some "Bearer secret-token") (VObj [("limit", VStr "10")])
         (VObj [("name", VStr "Ada"); ("email", VStr "a@b.com")]) (VObj []))
      world0.
Proof.
  exact (proj1 (public_endpoint_skips_authentication secretServer validatorServer
                  createUser
                  (requestOf (Some "Bearer secret-token") (VObj [("limit", VStr "10")])
                     (VObj [("name", VStr "Ada"); ("email", VStr "a@b.com")]) (VObj []))
                  world0 eq_refl)).
Defined.

(** ** What the token check can do *)

Section AuthExtras.
Context {St : Type}.
Implicit Types (w : World St) (serverConfig : APIServerConfig).

(** With a secret string, the check passes exactly on the header
    [Bearer], one space and the secret, and only for a secret without a
    space. *)
Lemma secret_accepts_iff serverConfig request w secret :
  apiToken serverConfig = TokenString secret ->
  fst (authenticateToken serverConfig request w) = Normal (HookDone request)
  <-> r_authorization request = Some ("Bearer " ++ secret)%string
      /\ hasChar " " secret = false.
Proof.
  intros Hsecret. split.
  - intros Hpass.
    destruct (header_cases (r_authorization request))
      as [Hfalsy | [(h & Hheader & Hne & Hshape) | (token & Hheader & Htoken)]].
    + rewrite (authenticateToken_missing serverConfig request w Hfalsy) in Hpass.
      discriminate.
    + rewrite (authenticateToken_malformed serverConfig request w h Hheader Hne Hshape)
        in Hpass. discriminate.
    + destruct (accepts (apiToken serverConfig) token request) eqn:Haccepts.
      * rewrite Hsecret in Haccepts. cbn [accepts] in Haccepts.
        apply String.eqb_eq in Haccepts. subst token. now split.
      * rewrite (authenticateToken_rejected serverConfig request w token
                   Hheader Htoken Haccepts) in Hpass. discriminate.
  - intros [Hheader Htoken].
    assert (Haccepts : accepts (apiToken serverConfig) secret request = true).
    { rewrite Hsecret. cbn [accepts]. apply String.eqb_refl. }
    rewrite (authenticateToken_accepted serverConfig request w secret
               Hheader Htoken Haccepts).
    unfold authenticatedRequest. rewrite Hsecret. reflexivity.
Qed.

(** X8.  Where no validator function is called, that is with a
    secret string as credential, or with a header that is missing,
    empty or not of the form [Bearer <token>], the token check does not
    throw and touches neither the console nor the state of the
    handlers; it replies 401 or 403, with that code in the payload it
    sends, or passes a request on. *)
Theorem authenticateToken_replies_or_passes :
  forall serverConfig request w,
    (exists secret, apiToken serverConfig = TokenString secret)
    \/ (forall token,
          r_authorization request = Some ("Bearer " ++ token)%string ->
          hasChar " " token = true) ->
    console (snd (authenticateToken serverConfig request w)) = console w
    /\ store (snd (authenticateToken serverConfig request w)) = store w
    /\ (forall token,
          ~ In (EvValidatorCall token)
               (stepsOf (authenticateToken serverConfig request) w))
    /\ ((exists code payload,
            fst (authenticateToken serverConfig request w)
              = Normal (HookReplied code payload)
            /\ (code = 401 \/ code = 403)%Z /\ statusCode payload = code
            /\ sent (snd (authenticateToken serverConfig request w))
               = firstSend (sent w) code (payloadValue payload))
        \/ (fst (authenticateToken serverConfig request w)
              = Normal (HookDone request)
            /\ sent (snd (authenticateToken serverConfig request w)) = sent w)).
Proof.
  intros srv req w Hcase.
  assert (Hsteps : forall token,
             (exists secret, apiToken srv = TokenString secret) ->
             forall t, ~ In (EvValidatorCall t)
                         (EvAuthCheck :: validatorSteps (apiToken srv) token)).
  { intros token [secret Hsecret] t. rewrite Hsecret. cbn.
    intros [H|[]]. discriminate. }
  destruct (header_cases (r_authorization req))
    as [Hfalsy | [(h & Hheader & Hne & Hshape) | (token & Hheader & Htoken)]].
  - pose proof (authenticateToken_missing srv req w Hfalsy) as Hrun.
    unfold replyWorld in Hrun.
    rewrite (stepsOf_addSteps _ _ _ _ _ _ _ Hrun), Hrun. cbn [fst snd console store sent].
    repeat split.
    + intros t Hin. cbn in Hin. intuition discriminate.
    + left. exists 401%Z, (unauthorized missingHeader). auto.
  - pose proof (authenticateToken_malformed srv req w h Hheader Hne Hshape) as Hrun.
    unfold replyWorld in Hrun.
    rewrite (stepsOf_addSteps _ _ _ _ _ _ _ Hrun), Hrun. cbn [fst snd console store sent].
    repeat split.
    + intros t Hin. cbn in Hin. intuition discriminate.
    + left. exists 401%Z, (unauthorized badHeaderFormat). auto.
  - destruct Hcase as [Hsecret | Hmalformed].
    2:{ rewrite (Hmalformed token Hheader) in Htoken. discriminate. }
    destruct (accepts (apiToken srv) token req) eqn:Haccepts.
    + pose proof (authenticateToken_accepted srv req w token Hheader Htoken Haccepts)
        as Hrun.
      rewrite (stepsOf_addSteps _ _ _ _ _ _ _ Hrun), Hrun.
      cbn [fst snd console store sent addSteps].
      repeat split.
      * exact (Hsteps token Hsecret).
      * right. destruct Hsecret as [secret Hsecret].
        unfold authenticatedRequest. rewrite Hsecret. cbn. now split.
    + pose proof (authenticateToken_rejected srv req w token Hheader Htoken Haccepts)
        as Hrun.
      unfold replyWorld in Hrun.
      rewrite (stepsOf_addSteps _ _ _ _ _ _ _ Hrun), Hrun.
      cbn [fst snd console store sent].
      repeat split.
      * intros t Hin. destruct Hsecret as [secret Hsecret].
        rewrite Hsecret in Hin. cbn in Hin. intuition discriminate.
      * left.
        exists 403%Z, (forbidden (rejectionMessage (apiToken srv) token req)). auto.
Qed.

(** X9.  A request that passes the token check is handed on with
    nothing changed but, possibly, its [auth]; with a secret string it is
    handed on unchanged and no validator is called. *)
Theorem authenticateToken_changes_auth_only :
  forall serverConfig request w request',
    fst (authenticateToken serverConfig request w) = Normal (HookDone request') ->
    setAuth request' (r_auth request) = setAuth request (r_auth request)
    /\ (forall secret,
          apiToken serverConfig = TokenString secret ->
          request' = request
          /\ forall token,
               ~ In (EvValidatorCall token)
                    (stepsOf (authenticateToken serverConfig request) w)).
Proof.
  intros srv req w req' Hpass.
  destruct (header_cases (r_authorization req))
    as [Hfalsy | [(h & Hheader & Hne & Hshape) | (token & Hheader & Htoken)]].
  - rewrite (authenticateToken_missing srv req w Hfalsy) in Hpass. discriminate.
  - rewrite (authenticateToken_malformed srv req w h Hheader Hne Hshape) in Hpass.
    discriminate.
  - destruct (accepts (apiToken srv) token req) eqn:Haccepts.
    2:{ rewrite (authenticateToken_rejected srv req w token Hheader Htoken Haccepts)
          in Hpass. discriminate. }
    pose proof (authenticateToken_accepted srv req w token Hheader Htoken Haccepts)
      as Hrun.
    rewrite Hrun in Hpass. injection Hpass as <-. split.
    + unfold authenticatedRequest.
      destruct (isUndefined (suppliedContext (apiToken srv) token req));
        reflexivity.
    + intros secret Hsecret.
      rewrite (stepsOf_addSteps _ _ _ _ _ _ _ Hrun).
      unfold authenticatedRequest. rewrite Hsecret. cbn. split; [reflexivity|].
      intros t [H|[]]. discriminate.
Qed.

(** X10.  With a secret string the token check passes exactly when the
    header is [Bearer], one space and the secret; a secret that contains a
    space can therefore never be presented, and every request is refused. *)
Theorem secret_string_accepts_exactly_its_header :
  forall serverConfig request w secret,
    apiToken serverConfig = TokenString secret ->
    (fst (authenticateToken serverConfig request w) = Normal (HookDone request)
     <-> r_authorization request = Some ("Bearer " ++ secret)%string
         /\ hasChar " " secret = false)
    /\ (hasChar " " secret = true ->
        exists code payload,
          fst (authenticateToken serverConfig request w)
          = Normal (HookReplied code payload)).
Proof.
  intros srv req w secret Hsecret.
  pose proof (secret_accepts_iff srv req w secret Hsecret) as Hiff.
  split; [exact Hiff|]. intros Hspace.
  destruct (authenticateToken_cases srv req w)
    as [(code & payload & pre & Hrun & _) | (token & _ & _ & _ & Hrun)].
  - exists code, payload. now rewrite Hrun.
  - exfalso.
    assert (Hpass : fst (authenticateToken srv req w) = Normal (HookDone req)).
    { rewrite Hrun. unfold authenticatedRequest. rewrite Hsecret. reflexivity. }
    apply Hiff in Hpass as [_ Hnospace]. congruence.
Qed.
End AuthExtras.

Lemma authenticateToken_replies_or_passes_witness :
  console (snd (authenticateToken secretServer
                  (getUserRequest (Some "Bearer other") "7") world0)) = []
  /\ fst (authenticateToken secretServer
            (getUserRequest (Some "Bearer other") "7") world0)
     = Normal (HookReplied 403 (forbidden "Invalid token")).
Proof.
  destruct (authenticateToken_replies_or_passes secretServer
              (getUserRequest (Some "Bearer other") "7") world0
              (or_introl (ex_intro _ "secret-token" eq_refl)))
    as (Hconsole & _ & _ & _).
  split; [exact Hconsole | reflexivity].
Defined.

Lemma authenticateToken_changes_auth_only_witness :
  setAuth (setAuth (getUserRequest (Some "Bearer valid-custom-token") "7") adminContext)
    VUndefined
  = setAuth (getUserRequest (Some "Bearer valid-custom-token") "7") VUndefined.
Proof.
  exact (proj1 (authenticateToken_changes_auth_only validatorServer
                  (getUserRequest (Some "Bearer valid-custom-token") "7") world0
                  (setAuth (getUserRequest (Some "Bearer valid-custom-token") "7")
                     adminContext)
                  eq_refl)).
Defined.

Lemma secret_string_accepts_exactly_its_header_witness :
  fst (authenticateToken secretServer
         (getUserRequest (Some "Bearer secret-token") "7") world0)
  = Normal (HookDone (getUserRequest (Some "Bearer secret-token") "7")).
Proof.
  apply (proj1 (secret_string_accepts_exactly_its_header secretServer
                  (getUserRequest (Some "Bearer secret-token") "7") world0
                  "secret-token" eq_refl)).
  split; reflexivity.
Defined.

(** ** The configuration of the constructor *)

Lemma parseDigits_digit (acc v : Z) (c : ascii) (s : string) :
  digitValue c = Some v ->
  parseDigits acc (String c s) = parseDigits (10 * acc + v) s.
Proof. intros Hc. cbn [parseDigits]. now rewrite Hc. Qed.

Lemma parseDigits_decimal (suffix : string) :
  forall (d : Decimal.uint) (acc : nat),
    parseDigits (Z.of_nat acc) (NilEmpty.string_of_uint d ++ suffix)
    = parseDigits (Z.of_nat (Nat.of_uint_acc d acc)) suffix.
Proof.
  induction d as [|d IH|d IH|d IH|d IH|d IH|d IH|d IH|d IH|d IH|d IH];
    intros acc; cbn [NilEmpty.string_of_uint append Nat.of_uint_acc];
    [reflexivity|..];
    erewrite parseDigits_digit by (vm_compute; reflexivity);
    rewrite <- IH; f_equal; rewrite Nat.tail_mul_spec; lia.
Qed.

Lemma parseDigits_stops (acc : Z) (suffix : string) :
  parseUnsigned suffix = None -> parseDigits acc suffix = acc.
Proof.
  destruct suffix as [|c rest]; cbn; [reflexivity|].
  destruct (digitValue c); [discriminate | reflexivity].
Qed.

Lemma to_uint_nonnil (n : nat) : Nat.to_uint n <> Decimal.Nil.
Proof.
  rewrite <- (DecimalNat.Unsigned.of_to n) at 1.
  rewrite DecimalNat.Unsigned.to_of. apply DecimalFacts.unorm_nonnil.
Qed.

Lemma parseInt_digit_start (c : ascii) (s : string) (v : Z) :
  digitValue c = Some v ->
  parseInt (String c s) = Some (parseDigits 0 (String c s)).
Proof.
  intros Hc.
  destruct c as [[] [] [] [] [] [] [] []]; vm_compute in Hc; try discriminate;
    reflexivity.
Qed.

(** [parseInt] reads back a printed natural number, and ignores
    whatever follows it that does not start with a digit. *)
Lemma parseInt_decimal (n : nat) (suffix : string) :
  parseUnsigned suffix = None ->
  parseInt (natToString n ++ suffix) = Some (Z.of_nat n).
Proof.
  intros Hsuffix. unfold natToString.
  pose proof (to_uint_nonnil n) as Hnonnil.
  pose proof (parseDigits_decimal suffix (Nat.to_uint n) 0) as Hdigits.
  change (Nat.of_uint_acc (Nat.to_uint n) 0) with (Nat.of_uint (Nat.to_uint n))
    in Hdigits.
  rewrite DecimalNat.Unsigned.of_to, (parseDigits_stops _ _ Hsuffix) in Hdigits.
  cbn [Z.of_nat] in Hdigits.
  destruct (Nat.to_uint n) as [|d|d|d|d|d|d|d|d|d|d]; [contradiction|..];
    cbn [NilEmpty.string_of_uint append] in Hdigits |- *;
    erewrite parseInt_digit_start by (vm_compute; reflexivity);
    now rewrite Hdigits.
Qed.

Lemma natToString_nonempty (n : nat) (suffix : string) :
  String.eqb (natToString n ++ suffix) "" = false.
Proof.
  unfold natToString. pose proof (to_uint_nonnil n) as Hnonnil.
  destruct (Nat.to_uint n); [contradiction|..]; reflexivity.
Qed.

(** X11.  Without a [port] or [rateLimitMax] option, the constructor
    reads the number from [PORT] or [RATE_LIMIT_MAX]: a variable that
    starts with a printed natural number up to 2^53, the range in which
    the numbers of JavaScript are exact, gives that number, whatever
    follows it that is not a digit, so that a [PORT] of [3000abc] is the
    port 3000. *)
Theorem numbers_read_from_environment :
  forall (config : APIServerOptions) (env : Env) (n : nat) (suffix : string),
    (Z.of_nat n <= 2 ^ 53)%Z ->
    parseUnsigned suffix = None ->
    (opt_port config = None -> env "PORT" = Some (natToString n ++ suffix)%string ->
     cfg_port (resolveConfig config env) = Some (Z.of_nat n))
    /\ (opt_rateLimitMax config = None ->
        env "RATE_LIMIT_MAX" = Some (natToString n ++ suffix)%string ->
        cfg_rateLimitMax (resolveConfig config env) = Some (Z.of_nat n)).
Proof.
  intros config env n suffix _ Hsuffix. split; intros Hnone Henv;
    cbn [resolveConfig cfg_port cfg_rateLimitMax]; rewrite Hnone, Henv;
    unfold orElse; rewrite natToString_nonempty;
    now apply parseInt_decimal.
Qed.

Lemma numbers_read_from_environment_witness :
  cfg_port (resolveConfig emptyOptions
              (fun name => if String.eqb name "PORT" then Some "3000abc" else None))
  = Some 3000%Z.
Proof.
  assert (Hexact : (Z.of_nat 3000 <= 2 ^ 53)%Z) by (vm_compute; discriminate).
  apply (proj1 (numbers_read_from_environment emptyOptions
                  (fun name => if String.eqb name "PORT" then Some "3000abc" else None)
                  3000 "abc" Hexact eq_refl)); reflexivity.
Defined.

(** X12.  The port of the server: the option of the caller when given;
    otherwise 3000 when [PORT] is unset or empty; otherwise what [parseInt]
    reads from [PORT], which is [NaN], not the default, when the text does
    not start with a number. *)
Theorem port_resolution :
  forall (config : APIServerOptions) (env : Env),
    (forall port, opt_port config = Some port ->
                  cfg_port (resolveConfig config env) = Some port)
    /\ (opt_port config = None -> falsy (env "PORT") = true ->
        cfg_port (resolveConfig config env) = Some 3000%Z)
    /\ (forall text, opt_port config = None -> env "PORT" = Some text ->
                     text <> "" -> parseUnsigned (trimStart text) = None ->
                     (forall rest, trimStart text <> String "-" rest) ->
                     (forall rest, trimStart text <> String "+" rest) ->
                     cfg_port (resolveConfig config env) = None).
Proof.
  intros config env. split; [|split].
  - intros port Hport. cbn. now rewrite Hport.
  - intros Hnone Hfalsy. cbn. rewrite Hnone.
    unfold falsy, orElse in *. destruct (env "PORT") as [text|]; [|reflexivity].
    rewrite Hfalsy. reflexivity.
  - intros text Hnone Henv Hne Hnodigit Hminus Hplus. cbn. rewrite Hnone, Henv.
    unfold orElse. destruct (String.eqb_spec text ""); [contradiction|].
    unfold parseInt.
    destruct (trimStart text) as [|c rest] eqn:Htrim; [reflexivity|].
    destruct (Ascii.eqb_spec c "-"%char) as [->|Hc1]; [now destruct (Hminus rest)|].
    destruct (Ascii.eqb_spec c "+"%char) as [->|Hc2]; [now destruct (Hplus rest)|].
    destruct c as [[] [] [] [] [] [] [] []]; try exact Hnodigit;
      exfalso; (apply Hc1; reflexivity) || (apply Hc2; reflexivity).
Qed.

Lemma port_resolution_witness :
  cfg_port (resolveConfig emptyOptions emptyEnv) = Some 3000%Z
  /\ cfg_port (resolveConfig emptyOptions
                 (fun name => if String.eqb name "PORT" then Some "" else None))
     = Some 3000%Z
  /\ cfg_port (resolveConfig emptyOptions
                 (fun name => if String.eqb name "PORT" then Some "http" else None))
     = None.
Proof.
  split; [|split].
  - apply (proj1 (proj2 (port_resolution emptyOptions emptyEnv))); reflexivity.
  - apply (proj1 (proj2 (port_resolution emptyOptions
                           (fun name => if String.eqb name "PORT" then Some ""
                                        else None)))); reflexivity.
  - apply (proj2 (proj2 (port_resolution emptyOptions
                           (fun name => if String.eqb name "PORT" then Some "http"
                                        else None))) "http");
      try reflexivity; try discriminate; intros rest H; discriminate H.
Defined.

(** X13.  A server built without [apiToken] takes [API_TOKEN] as its
    secret, even an empty one, and the development token when the variable
    is unset; a request passes its token check exactly with the header
    [Bearer], one space and that secret. *)
Theorem default_credential :
  forall (St : Type) (config : APIServerOptions) (env : Env)
         (request : FastifyRequest) (w : World St),
    opt_apiToken config = None ->
    let secret :=
      nullish (env "API_TOKEN") "development-token-change-in-production" in
    fst (authenticateToken (authConfig (resolveConfig config env)) request w)
      = Normal (HookDone request)
    <-> r_authorization request = Some ("Bearer " ++ secret)%string
        /\ hasChar " " secret = false.
Proof.
  intros St config env request w Hnone secret.
  apply secret_accepts_iff. cbn. now rewrite Hnone.
Qed.

Lemma default_credential_witness :
  fst (authenticateToken (authConfig (resolveConfig emptyOptions emptyEnv))
         (getUserRequest (Some "Bearer development-token-change-in-production") "7")
         world0)
    = Normal (HookDone
                (getUserRequest
                   (Some "Bearer development-token-change-in-production") "7"))
  /\ fst (authenticateToken
            (authConfig
               (resolveConfig emptyOptions
                  (fun name => if String.eqb name "API_TOKEN" then Some "" else None)))
            (getUserRequest (Some "Bearer ") "7") world0)
     = Normal (HookDone (getUserRequest (Some "Bearer ") "7")).
Proof.
  split.
  - apply (proj2 (default_credential nat emptyOptions emptyEnv
                    (getUserRequest
                       (Some "Bearer development-token-change-in-production") "7")
                    world0 eq_refl)).
    split; reflexivity.
  - apply (proj2 (default_credential nat emptyOptions
                    (fun name => if String.eqb name "API_TOKEN" then Some "" else None)
                    (getUserRequest (Some "Bearer ") "7") world0 eq_refl)).
    split; reflexivity.
Defined.

(** ** The response schemas registered with a route *)

Section RouteSchemaFacts.
Context {Schema : Type} {zod : ZodTypeAny Schema} {St : Type}.
Implicit Types (w : World St) (endpointConfig : EndpointConfig Schema St)
  (serverConfig : APIServerConfig).

(** X14.  [createStandardResponses] sets the schemas of 400 and 500 to
    the error schema, overwriting what the caller registered for these
    codes, and leaves every other code as the caller gave it. *)
Theorem createStandardResponses_lookup :
  forall (responses : Responses Schema) (code : Z),
    getResponse (createStandardResponses responses) code
    = if orb (Z.eqb code 400) (Z.eqb code 500)
      then Some (LibrarySchema ErrorResponseSchema)
      else getResponse responses code.
Proof.
  intros responses code. apply createStandardResponses_lookup_aux.
Qed.

(** X15.  The responses registered for an endpoint are: the error
    schema for 400 and 500, the strict response schema for 200, the
    auth-error schema for 401 and 403 when the endpoint is authenticated,
    and nothing else; in particular no schema is registered for the 404
    that the catch block sends for a [NotFoundError]. *)
Theorem registered_responses :
  forall endpointConfig (code : Z),
    getResponse (schema_response (routeSchema endpointConfig)) code
    = (if orb (Z.eqb code 400) (Z.eqb code 500)
       then Some (LibrarySchema ErrorResponseSchema)
       else if Z.eqb code 200
            then Some (DeclaredSchema (applyStrict (response endpointConfig)))
            else if andb (authenticated endpointConfig)
                      (orb (Z.eqb code 401) (Z.eqb code 403))
                 then Some (LibrarySchema authErrorSchema)
                 else None)
    /\ getResponse (schema_response (routeSchema endpointConfig)) 404 = None.
Proof.
  intros ep code. split; [apply routeSchema_response|].
  rewrite routeSchema_response. cbn. now rewrite andb_false_r.
Qed.

(** X16.  What a route documents about authentication is what it
    enforces: the security requirement, the registered 401 and 403
    responses and the pre-handler are present together, exactly for an
    authenticated endpoint. *)
Theorem documented_security_is_enforced :
  forall serverConfig endpointConfig,
    (schema_security (routeSchema endpointConfig) = true
     <-> route_preHandler (createEndpoint serverConfig endpointConfig) <> None)
    /\ (schema_security (routeSchema endpointConfig) = true
        <-> getResponse (schema_response (routeSchema endpointConfig)) 401
            = Some (LibrarySchema authErrorSchema)
            /\ getResponse (schema_response (routeSchema endpointConfig)) 403
               = Some (LibrarySchema authErrorSchema))
    /\ route_operationId (createEndpoint serverConfig endpointConfig)
       = schema_operationId (routeSchema endpointConfig).
Proof.
  intros srv ep. rewrite !routeSchema_response.
  cbn [routeSchema schema_security schema_operationId
       createEndpoint route_preHandler route_operationId route_schema].
  cbn [orb Z.eqb Pos.eqb].
  destruct (authenticated ep); cbn; repeat split; try discriminate; try tauto.
  - intros [H _]. discriminate.
Qed.

(** X17.  The body schema of a GET endpoint is left out of the route
    schema, but the handler still validates the body with it: a body that
    fails the strict schema is answered 400 as for any other method. *)
Theorem get_body_is_undocumented_but_validated :
  forall endpointConfig schema request w errors vq,
    method endpointConfig = GET ->
    body endpointConfig = Some schema ->
    partResult (query endpointConfig) (r_query request) = SafeParseSuccess vq ->
    safeParse (applyStrict schema) (r_body request) = SafeParseError errors ->
    schema_body (routeSchema endpointConfig) = None
    /\ fst (validatedHandler endpointConfig request w)
       = Normal (Replied 400 (badRequest (map (requestFieldError PBody) errors))).
Proof.
  intros ep schema req w errors vq Hget Hbody Hquery Hfail. split.
  - cbn [routeSchema schema_body]. now rewrite Hbody, Hget.
  - rewrite (validatedHandler_rejected ep req w PBody errors); [reflexivity| |].
    + cbn [declaredPart rawPart partResult]. now rewrite Hbody.
    + intros [] H; try discriminate. now exists vq.
Qed.
End RouteSchemaFacts.

Lemma documented_security_is_enforced_witness :
  route_preHandler (createEndpoint secretServer getUser) <> None
  /\ getResponse (schema_response (routeSchema getUser)) 401
     = Some (LibrarySchema authErrorSchema)
  /\ getResponse (schema_response (routeSchema getUser)) 403
     = Some (LibrarySchema authErrorSchema).
Proof.
  split.
  - apply (proj1 (proj1 (documented_security_is_enforced secretServer getUser))).
    reflexivity.
  - apply (proj1 (proj1 (proj2 (documented_security_is_enforced secretServer getUser)))).
    reflexivity.
Defined.

(** [GET /search] with a declared body. *)
Lemma get_body_is_undocumented_but_validated_witness :
  schema_body
    (routeSchema
       {| method := GET; url := "/search"; query := None;
          body := Some userBody; params := None; response := userResponse;
          config := None; authenticated := false;
          handler := handler createUser |}) = None
  /\ fst (validatedHandler
            {| method := GET; url := "/search"; query := None;
               body := Some userBody; params := None; response := userResponse;
               config := None; authenticated := false;
               handler := handler createUser |}
            emptyNameRequest world0)
     = Normal (Replied 400
                 (badRequest
                    [{| field := "body.name";
                        message := "String must contain at least 1 character(s)" |}])).
Proof.
  apply (get_body_is_undocumented_but_validated
           {| method := GET; url := "/search"; query := None;
              body := Some userBody; params := None; response := userResponse;
              config := None; authenticated := false;
              handler := handler createUser |}
           userBody emptyNameRequest world0 [tooSmall 1 ["name"]] VUndefined);
    reflexivity.
Defined.

(** X18.  Every error payload the pipeline sends parses by the error
    schema registered for 400 and 500, and by the schema registered for
    401 and 403; the parse keeps status code, error and message and drops
    the details, which no registered schema declares: under a strict
    reading of the error schema a payload with details would fail. *)
Theorem error_payloads_match_registered_schemas :
  forall (payload : ErrorPayload),
    safeParse ErrorResponseSchema (payloadValue payload)
      = SafeParseSuccess
          (VObj [("statusCode", VNum (statusCode payload));
                 ("error", VStr (error payload));
                 ("message", VStr (payloadMessage payload))])
    /\ safeParse authErrorSchema (payloadValue payload)
       = SafeParseSuccess
           (VObj [("statusCode", VNum (statusCode payload));
                  ("error", VStr (error payload));
                  ("message", VStr (payloadMessage payload))])
    /\ (payloadDetails payload <> None ->
        safeParse (applyStrict ErrorResponseSchema) (payloadValue payload)
        = SafeParseError
            [unrecognizedKeys ["details"] []]).
Proof.
  intros [code err msg details]. unfold payloadValue. cbn [statusCode error
    payloadMessage payloadDetails].
  destruct details as [details|]; repeat split; try reflexivity.
  intros H. now destruct H.
Qed.

Lemma error_payloads_match_registered_schemas_witness :
  safeParse (applyStrict ErrorResponseSchema)
    (payloadValue (badRequest [{| field := "body.name"; message := "Required" |}]))
  = SafeParseError [unrecognizedKeys ["details"] []].
Proof.
  apply (proj2 (proj2 (error_payloads_match_registered_schemas
                         (badRequest [{| field := "body.name";
                                         message := "Required" |}])))).
  discriminate.
Defined.

(** ** Starting and stopping the server *)

(** X19.  After a [start] that returned, every further [start] throws
    "Server is already started" and does nothing else; a [start] whose
    [listen] fails throws the error of [listen] itself and leaves the
    server not started, so that it can be started again. *)
Theorem start_twice_or_after_failure :
  forall (s : ServerState) (listenError : option JsError),
    (fst (start listenError s) = Normal tt ->
     forall listenError',
       start listenError' (snd (start listenError s))
       = (Throws (OtherError "Error" "Server is already started"),
          snd (start listenError s)))
    /\ (forall err,
          started s = false -> ownsFastifyInstance s = true ->
          listenError = Some err ->
          fst (start listenError s) = Throws err
          /\ started (snd (start listenError s)) = false
          /\ fst (start None (snd (start listenError s))) = Normal tt).
Proof.
  intros s listenError. split.
  - intros Hok listenError'. unfold start in *.
    destruct (started s) eqn:Hstarted; [discriminate|].
    destruct (ownsFastifyInstance s) eqn:Howns; cbn [negb] in *.
    + destruct listenError; [discriminate|]. reflexivity.
    + reflexivity.
  - intros err Hstarted Howns ->. unfold start.
    rewrite Hstarted, Howns. cbn. rewrite Howns. cbn. auto.
Qed.

Lemma start_twice_or_after_failure_witness :
  start None (snd (start None (newServer emptyOptions emptyEnv)))
  = (Throws (OtherError "Error" "Server is already started"),
     snd (start None (newServer emptyOptions emptyEnv))).
Proof.
  exact (proj1 (start_twice_or_after_failure (newServer emptyOptions emptyEnv) None)
           eq_refl None).
Defined.

(** X20.  [stop] on a server that is not started returns and does
    nothing; after a [stop] that returned the server is not started, so
    stopping again does nothing. *)
Theorem stop_is_idempotent :
  forall (s : ServerState) (closeError : option JsError),
    (started s = false -> stop closeError s = (Normal tt, s))
    /\ (fst (stop closeError s) = Normal tt ->
        started (snd (stop closeError s)) = false
        /\ forall closeError',
             stop closeError' (snd (stop closeError s))
             = (Normal tt, snd (stop closeError s))).
Proof.
  intros s closeError. split.
  - intros Hstopped. unfold stop. now rewrite Hstopped.
  - intros Hok.
    assert (Hstopped : started (snd (stop closeError s)) = false).
    { unfold stop in *. destruct (started s) eqn:Hstarted; cbn [negb] in *;
        [|exact Hstarted].
      destruct (ownsFastifyInstance s); cbn [negb] in *; [|reflexivity].
      destruct closeError; [discriminate | reflexivity]. }
    split; [exact Hstopped|]. intros closeError'.
    unfold stop at 1. now rewrite Hstopped.
Qed.

Lemma stop_is_idempotent_witness :
  stop None (newServer emptyOptions emptyEnv)
  = (Normal tt, newServer emptyOptions emptyEnv).
Proof.
  exact (proj1 (stop_is_idempotent (newServer emptyOptions emptyEnv) None) eq_refl).
Defined.

Lemma runOps_snoc (ops : list LifecycleOp) (op : LifecycleOp) (s : ServerState) :
  runOps (ops ++ [op]) s = runOp op (runOps ops s).
Proof. unfold runOps. now rewrite fold_left_app. Qed.

Lemma runOp_keeps_ownership (op : LifecycleOp) (s : ServerState) :
  ownsFastifyInstance (runOp op s) = ownsFastifyInstance s.
Proof.
  destruct s as [config [|] [|] events]; destruct op as [[err|]|[err|]];
    reflexivity.
Qed.

(** X21.  On a server built around a provided instance, no sequence of
    [start] and [stop] ever calls [listen] or [close] on that instance. *)
Theorem provided_instance_is_never_started_or_closed :
  forall (config : APIServerOptions) (env : Env) (ops : list LifecycleOp),
    opt_fastify config = true ->
    filter isInstanceCall (lc_events (runOps ops (newServer config env))) = [].
Proof.
  intros config env ops Hprovided.
  assert (Hinv : ownsFastifyInstance (runOps ops (newServer config env)) = false
                 /\ filter isInstanceCall
                      (lc_events (runOps ops (newServer config env))) = []).
  { induction ops as [|op ops IH] using rev_ind.
    - cbn. now rewrite Hprovided.
    - destruct IH as [Howns Hcalls]. rewrite runOps_snoc.
      split; [now rewrite runOp_keeps_ownership|].
      destruct op as [e|e]; cbn [runOp]; unfold start, stop;
        rewrite Howns; destruct (started (runOps ops (newServer config env)));
        cbn; rewrite ?filter_app, ?Hcalls; reflexivity. }
  apply Hinv.
Qed.

Lemma provided_instance_is_never_started_or_closed_witness :
  filter isInstanceCall
    (lc_events
       (runOps [OpStart None; OpStop None; OpStart None]
          (newServer
             {| opt_fastify := true; opt_port := None; opt_host := None;
                opt_env := None; opt_logLevel := None; opt_corsOrigin := None;
                opt_apiToken := None; opt_rateLimitMax := None;
                opt_rateLimitWindow := None; opt_rateLimitAllow := None;
                opt_metricsEnabled := Some false; opt_apiTitle := None;
                opt_apiDescription := None; opt_apiVersion := None;
                opt_loadEnv := None |} emptyEnv))) = [].
Proof.
  apply provided_instance_is_never_started_or_closed. reflexivity.
Defined.

Lemma successfulCalls_app (a b : list LifecycleEvent) :
  successfulCalls (a ++ b) = successfulCalls a ++ successfulCalls b.
Proof.
  induction a as [|e a IH]; cbn; [reflexivity|].
  destruct e as [port host [|]|[|]| | |err]; cbn; now rewrite IH.
Qed.

Lemma alternates_snoc (calls : list bool) :
  forall (expected c : bool),
    alternates expected (calls ++ [c])
    = andb (alternates expected calls)
        (Bool.eqb c (if Nat.odd (List.length calls) then negb expected else expected)).
Proof.
  induction calls as [|x calls IH]; intros expected c; cbn [alternates app List.length].
  - cbn. now rewrite andb_true_r.
  - rewrite IH, Nat.odd_succ, <- Nat.negb_odd.
    destruct (Nat.odd (List.length calls)), expected, x, c; reflexivity.
Qed.

Lemma runOp_keeps_alternation (op : LifecycleOp) (s : ServerState) :
  ownsFastifyInstance s = true ->
  alternates true (successfulCalls (lc_events s)) = true ->
  started s = Nat.odd (List.length (successfulCalls (lc_events s))) ->
  alternates true (successfulCalls (lc_events (runOp op s))) = true
  /\ started (runOp op s)
     = Nat.odd (List.length (successfulCalls (lc_events (runOp op s)))).
Proof.
  destruct s as [config st owns events]. cbn [ownsFastifyInstance lc_events started].
  intros -> Halt Hstarted.
  destruct op as [[err|]|[err|]]; destruct st;
    cbn [runOp start stop started ownsFastifyInstance lc_events lc_config negb snd
         lifecycleStep];
    rewrite ?successfulCalls_app; cbn [successfulCalls]; rewrite ?app_nil_r;
    try (split; assumption);
    rewrite alternates_snoc, Halt, length_app, Nat.add_1_r, Nat.odd_succ,
      <- Nat.negb_odd, <- Hstarted; split; reflexivity.
Qed.

(** X22.  On a server that owns its instance, whatever [start] and
    [stop] are called and whatever [listen] and [close] answer, the calls
    that succeeded alternate, [listen] first, and the server is started
    exactly when the last of them is a [listen]. *)
Theorem listen_and_close_alternate :
  forall (config : APIServerOptions) (env : Env) (ops : list LifecycleOp),
    opt_fastify config = false ->
    let s := runOps ops (newServer config env) in
    alternates true (successfulCalls (lc_events s)) = true
    /\ started s = Nat.odd (List.length (successfulCalls (lc_events s))).
Proof.
  intros config env ops Howned s. subst s.
  assert (Hinv : ownsFastifyInstance (runOps ops (newServer config env)) = true
                 /\ alternates true
                      (successfulCalls (lc_events (runOps ops (newServer config env))))
                    = true
                 /\ started (runOps ops (newServer config env))
                    = Nat.odd (List.length
                                 (successfulCalls
                                    (lc_events (runOps ops (newServer config env)))))).
  { induction ops as [|op ops IH] using rev_ind.
    - cbn. rewrite Howned. auto.
    - destruct IH as (Howns & Halt & Hstarted). rewrite runOps_snoc.
      split; [now rewrite runOp_keeps_ownership|].
      now apply runOp_keeps_alternation. }
  destruct Hinv as (_ & Halt & Hstarted). split; assumption.
Qed.

Lemma listen_and_close_alternate_witness :
  successfulCalls
    (lc_events
       (runOps [OpStart (Some (OtherError "Error" "EADDRINUSE")); OpStart None;
                OpStart None; OpStop None; OpStop None]
          (newServer emptyOptions emptyEnv)))
    = [true; false]
  /\ started
       (runOps [OpStart (Some (OtherError "Error" "EADDRINUSE")); OpStart None;
                OpStart None; OpStop None; OpStop None]
          (newServer emptyOptions emptyEnv))
     = Nat.odd
         (List.length
            (successfulCalls
               (lc_events
                  (runOps [OpStart (Some (OtherError "Error" "EADDRINUSE"));
                           OpStart None; OpStart None; OpStop None; OpStop None]
                     (newServer emptyOptions emptyEnv))))).
Proof.
  split; [reflexivity|].
  exact (proj2 (listen_and_close_alternate emptyOptions emptyEnv
                  [OpStart (Some (OtherError "Error" "EADDRINUSE")); OpStart None;
                   OpStart None; OpStop None; OpStop None] eq_refl)).
Defined.

(** ** The endpoint of the minimal example *)

(** X23.  [GET /hello] never answers 500 and never throws: a request is
    either rejected with 400 for its query, or answered with the greeting
    of the name in the query, ["World"] standing in for a name that is
    absent or empty; the handler's reading of [request.query.name] never
    meets an undefined query. *)
Theorem hello_endpoint_outcomes :
  forall (St : Type) (request : FastifyRequest) (w : World St),
    (exists errors,
        partResult (query (helloEndpoint St)) (r_query request)
          = SafeParseError errors
        /\ fst (validatedHandler (helloEndpoint St) request w)
           = Normal (Replied 400 (badRequest (map (requestFieldError PQuery) errors))))
    \/ (exists name,
          fst (validatedHandler (helloEndpoint St) request w)
            = Normal (Returned (VObj [("message", VStr ("Hello, " ++ name ++ "!"))]))
          /\ (getProp (objectFields (r_query request)) "name" = VStr name
                /\ name <> ""
              \/ name = "World"
                 /\ (getProp (objectFields (r_query request)) "name" = VUndefined
                     \/ getProp (objectFields (r_query request)) "name" = VStr ""))).
Proof.
  intros St request w.
  destruct (partResult (query (helloEndpoint St)) (r_query request))
    as [vq|errors] eqn:Hq.
  - right.
    assert (Hshape :
              exists pairs,
                vq = VObj pairs
                /\ getProp pairs "name"
                   = getProp (objectFields (r_query request)) "name"
                /\ (getProp pairs "name" = VUndefined
                    \/ exists n, getProp pairs "name" = VStr n)).
    { cbn in Hq. unfold zodSafeParse in Hq.
      destruct (r_query request) as [| | | | | | |fields]; try discriminate Hq.
      cbn [_parse parseShape] in Hq. unfold finishObject in Hq.
      cbn [objectFields].
      destruct (extraKeysOf [("name", ZodOptional (ZodString None))] fields);
        destruct (getProp fields "name") as [| | | | |n| |] eqn:Hname;
        cbn in Hq; try discriminate Hq.
      - destruct (hasKey fields "name"); inversion Hq;
          eexists; (split; [reflexivity|]); cbn; auto.
      - inversion Hq. eexists. split; [reflexivity|]. cbn. eauto. }
    destruct Hshape as (pairs & -> & Hsame & Hcases).
    exists (match getProp pairs "name" with
            | VStr n => orElse (Some n) "World"
            | _ => "World"
            end).
    split.
    + assert (Hvalid : validatesTo (helloEndpoint St) request
                         (VObj pairs) VUndefined VUndefined).
      { split; [exact Hq|]. split; reflexivity. }
      rewrite (validatedHandler_returned (helloEndpoint St) request w
                 _ _ _ _ (store w) None _ Hvalid eq_refl eq_refl).
      reflexivity.
    + rewrite <- Hsame.
      destruct Hcases as [Hname|[n Hname]]; rewrite Hname; [right; auto|].
      destruct n as [|c n]; [right; auto|].
      left. split; [reflexivity | discriminate].
  - left. exists errors. split; [reflexivity|].
    assert (Hfail : partResult (declaredPart (helloEndpoint St) PQuery)
                      (rawPart request PQuery) = SafeParseError errors)
      by exact Hq.
    rewrite (validatedHandler_rejected (helloEndpoint St) request w PQuery errors
               Hfail).
    + reflexivity.
    + intros [] Hbefore; discriminate Hbefore.
Qed.

(** ** How deep strictness goes *)

(** X24.  [applyStrict] makes the schema of the part strict and leaves
    the schemas inside it as they are: an object with an undeclared key
    is rejected when it is the part itself, but when the same object with
    the same schema sits under a key of the part it is accepted and the
    undeclared key is dropped from what the handler gets. *)
Theorem strictness_is_shallow :
  forall (key : string) (innerShape : list (string * ZodType))
         (fields : list (string * value)) (data : value) (k : string),
    _parse (ZodObject innerShape Strip) [key] (VObj fields) = Valid data ->
    In k (map fst fields) ->
    ~ In k (shapeKeys innerShape) ->
    (exists errors,
        partResult (Some (ZodObject innerShape Strip)) (VObj fields)
        = SafeParseError errors)
    /\ partResult (Some (ZodObject [(key, ZodObject innerShape Strip)] Strip))
         (VObj [(key, VObj fields)])
       = SafeParseSuccess (VObj [(key, data)])
    /\ getProp (objectFields data) k = VUndefined.
Proof.
  intros key innerShape fields data k Hparse Hin Hnot. split; [|split].
  - destruct (strict_object_reports_unknown_key innerShape [] fields k Hin Hnot)
      as (issues & Hissues & _).
    exists issues. cbn [partResult]. unfold applyStrict.
    cbn [safeParse instanceofZodObject strict ZodType_ZodTypeAny zodIsObject zodStrict].
    unfold zodSafeParse. now rewrite Hissues.
  - cbn [partResult]. unfold applyStrict.
    cbn [safeParse instanceofZodObject strict ZodType_ZodTypeAny zodIsObject zodStrict].
    unfold zodSafeParse.
    cbn [_parse] in Hparse.
    cbn [_parse parseShape getProp app]. rewrite String.eqb_refl, Hparse.
    unfold finishObject, extraKeysOf, hasKey, inKeys, shapeKeys.
    cbn [map fst filter existsb]. rewrite String.eqb_refl. cbn [orb negb].
    rewrite orb_true_r. reflexivity.
  - cbn [_parse] in Hparse. unfold finishObject in Hparse.
    destruct (parseShape _parse [key] fields innerShape) as [issues pairs] eqn:Hshape.
    destruct issues; [|discriminate Hparse]. injection Hparse as <-.
    cbn [objectFields]. apply getProp_missing. intros Hpair.
    apply Hnot. exact (parseShape_keys _ _ _ _ _ Hshape k Hpair).
Qed.

(** A user with an undeclared [admin] flag, as the body and inside it. *)
Lemma strictness_is_shallow_witness :
  (exists errors,
      partResult (Some (ZodObject [("name", ZodString None)] Strip))
        (VObj [("name", VStr "Ann"); ("admin", VBool true)])
      = SafeParseError errors)
  /\ partResult (Some nestedBody)
       (VObj [("user", VObj [("name", VStr "Ann"); ("admin", VBool true)])])
     = SafeParseSuccess (VObj [("user", VObj [("name", VStr "Ann")])])
  /\ getProp (objectFields (VObj [("name", VStr "Ann")])) "admin" = VUndefined.
Proof.
  apply (strictness_is_shallow "user" [("name", ZodString None)]
           [("name", VStr "Ann"); ("admin", VBool true)]
           (VObj [("name", VStr "Ann")]) "admin").
  - reflexivity.
  - cbn. auto.
  - cbn. intros [H|[]]. discriminate H.
Defined.

(** ** Handler errors, returned values and the double validation, at the
    route *)

Section RouteExtras.
Context {Schema : Type} {zod : ZodTypeAny Schema} {St : Type}.
Implicit Types (w : World St) (endpointConfig : EndpointConfig Schema St)
  (serverConfig : APIServerConfig).

(** X25.  When the handler throws, [validatedHandler] has called it
    once and does not call it again: for a [NotFoundError] it sends the
    reply 404 with the message of the error, for a [ValidationError]
    the reply 400 with its details, for a [ResponseValidationError] the
    reply 500 with its details, and any other error is thrown on; the
    state the handler left is kept. *)
Theorem handler_exceptions_are_mapped_once :
  forall endpointConfig request w vq vb vp e store' own,
    validatesTo endpointConfig request vq vb vp ->
    handler endpointConfig (typedRequestOf request vq vb vp) (store w)
      = (Throws e, store', own) ->
    let after := snd (validatedHandler endpointConfig request w) in
    let replied code payload :=
      fst (validatedHandler endpointConfig request w) = Normal (Replied code payload)
      /\ sent after = firstSend (ownSend own (sent w)) code (payloadValue payload) in
    match e with
    | NotFoundError msg =>
        replied 404%Z
          {| statusCode := 404; error := "Not Found";
             payloadMessage := msg; payloadDetails := None |}
    | ValidationError details =>
        replied 400%Z
          {| statusCode := 400; error := "Bad Request";
             payloadMessage := "Validation failed";
             payloadDetails := Some details |}
    | ResponseValidationError details =>
        replied 500%Z
          {| statusCode := 500; error := "Internal Server Error";
             payloadMessage :=
               "Response validation failed - server returned invalid data";
             payloadDetails := Some details |}
    | OtherError _ _ =>
        fst (validatedHandler endpointConfig request w) = Throws e
        /\ sent after = ownSend own (sent w)
    end
    /\ List.length
         (filter isHandlerCall (stepsOf (validatedHandler endpointConfig request) w))
       = 1
    /\ store after = store'.
Proof.
  intros ep req w vq vb vp e store' own Hvalid Hthrow after replied.
  subst after replied.
  pose proof (validatedHandler_thrown _ _ w _ _ _ _ _ _ Hvalid Hthrow) as Hrun.
  assert (Hparse : filter isHandlerCall (requestSteps ep allParts) = []).
  { unfold requestSteps, allParts, partSteps. cbn [flat_map declaredPart].
    destruct (query ep), (body ep), (params ep); reflexivity. }
  destruct e; unfold catchBlock, replySend, send, throw, bind, emit, ret in Hrun;
    cbn [console journal store sent fst snd] in Hrun;
    rewrite <- ?app_assoc in Hrun;
    rewrite (stepsOf_addSteps _ _ _ _ _ _ _ Hrun), Hrun; cbn [fst snd store sent];
    rewrite filter_app, Hparse; repeat split; reflexivity.
Qed.

(** X26.  What the client gets when the handler of an admitted request
    throws without having replied itself: 404 with the message for a
    [NotFoundError]; 400 "Validation failed" for a [ValidationError]
    and 500 for a [ResponseValidationError], both without the details
    of the error, which the response schema registered for these codes
    does not declare; any other error is left to the error handler of
    the framework. *)
Theorem handler_exceptions_at_the_route :
  forall serverConfig endpointConfig request w validated admitted pre vq vb vp
         e store',
    snd (validate (routeSchema endpointConfig) request) = Passed validated ->
    passesHook serverConfig endpointConfig validated admitted pre ->
    validatesTo endpointConfig admitted vq vb vp ->
    handler endpointConfig (typedRequestOf admitted vq vb vp) (store w)
      = (Throws e, store', None) ->
    fst (handleRequest (createEndpoint serverConfig endpointConfig) request w)
    = Normal
        match e with
        | NotFoundError msg =>
            Transmitted 404
              (VObj [("statusCode", VNum 404); ("error", VStr "Not Found");
                     ("message", VStr msg)])
        | ValidationError _ =>
            Transmitted 400
              (VObj [("statusCode", VNum 400); ("error", VStr "Bad Request");
                     ("message", VStr "Validation failed")])
        | ResponseValidationError _ =>
            Transmitted 500
              (VObj [("statusCode", VNum 500);
                     ("error", VStr "Internal Server Error");
                     ("message",
                      VStr "Response validation failed - server returned invalid data")])
        | OtherError _ _ => ServerError e
        end.
Proof.
  intros srv ep req w validated admitted pre vq vb vp e store'
    Hpassed Hhook Hvalid Hthrow.
  rewrite (handleRequest_reaches _ _ _ w _ _ _ Hpassed Hhook).
  set (w' := afterValidation w (validationSteps ep req ++ pre)).
  assert (Hthrow' : handler ep (typedRequestOf admitted vq vb vp) (store w')
                    = (Throws e, store', None)) by exact Hthrow.
  rewrite (validatedHandler_thrown _ _ w' _ _ _ _ _ _ Hvalid Hthrow'), deliver_run.
  subst w'. unfold afterValidation.
  destruct e; unfold catchBlock, replySend, send, throw, bind, emit, ret;
    cbn [fst snd console journal store sent ownSend firstSend responseOf];
    rewrite ?serialise_reply by (cbn; intuition); reflexivity.
Qed.

End RouteExtras.

(** X28.  When every declared part validates, [validatedHandler] calls
    the handler with the validated values (the parsed data of a
    declared part, [undefined] for an undeclared one) in place of the raw
    ones; and for a declared schema without a transform, each key
    declared once, validating the validated value again gives the same
    value. *)
Theorem validated_values_reach_handler_and_revalidate :
  forall (St : Type) (endpointConfig : EndpointConfig ZodType St)
         request (w : World St) vq vb vp,
    validatesTo endpointConfig request vq vb vp ->
    In (EvHandlerCall (typedRequestOf request vq vb vp))
       (stepsOf (validatedHandler endpointConfig request) w)
    /\ (forall typedRequest,
          In (EvHandlerCall typedRequest)
             (stepsOf (validatedHandler endpointConfig request) w) ->
          r_query typedRequest = vq /\ r_body typedRequest = vb
          /\ r_params typedRequest = vp)
    /\ (forall part schema,
          declaredPart endpointConfig part = Some schema ->
          transformFree schema = true -> wellFormed schema = true ->
          partResult (declaredPart endpointConfig part)
            (rawPart (typedRequestOf request vq vb vp) part)
          = SafeParseSuccess (rawPart (typedRequestOf request vq vb vp) part)).
Proof.
  intros St ep req w vq vb vp Hvalid. split; [|split].
  - exact (handler_called_when_valid ep req w vq vb vp Hvalid).
  - intros treq Hin.
    rewrite (handler_sees_validated_values ep req w vq vb vp treq Hvalid Hin).
    repeat split; reflexivity.
  - intros part schema Hdeclared Hfree Hwf.
    destruct Hvalid as (Hq & Hb & Hp).
    rewrite Hdeclared. cbn [partResult].
    destruct part; cbn [declaredPart rawPart typedRequestOf r_query r_body r_params]
      in Hdeclared |- *.
    + rewrite Hdeclared in Hq. exact (strict_revalidation schema _ vq Hfree Hwf Hq).
    + rewrite Hdeclared in Hb. exact (strict_revalidation schema _ vb Hfree Hwf Hb).
    + rewrite Hdeclared in Hp. exact (strict_revalidation schema _ vp Hfree Hwf Hp).
Qed.

(** No schema of the fragment accepts [null]. *)
Lemma null_is_rejected (schema : ZodType) (p : list string) :
  exists issues, _parse schema p VNull = Invalid issues.
Proof.
  revert p.
  induction schema
    as [minLength| | |inner IH|inner d IH|shape policy IH|inner f IH]
    using ZodType_nested_ind; intros p; cbn [_parse isUndefined];
    try (eexists; reflexivity).
  - apply IH.
  - apply IH.
  - destruct (IH p) as [issues ->]. eexists. reflexivity.
Qed.

Section DoubleValidation.
Context {St : Type}.
Implicit Types (w : World St) (endpointConfig : EndpointConfig ZodType St)
  (serverConfig : APIServerConfig).

(** The second parse of a registered part whose schema has no
    transform gives the data of the first. *)
Lemma second_parse_agrees (schema : ZodType) (raw data : value) :
  transformFree schema = true -> wellFormed schema = true ->
  safeParse (applyStrict schema) (if isUndefined raw then VNull else raw)
    = SafeParseSuccess data ->
  safeParse (applyStrict schema) (if truthy data then data else raw)
    = SafeParseSuccess data.
Proof.
  intros Hfree Hwf Hfirst.
  destruct (isUndefined raw) eqn:Hraw.
  - exfalso. cbn [safeParse ZodType_ZodTypeAny] in Hfirst.
    unfold zodSafeParse in Hfirst.
    destruct (null_is_rejected (applyStrict schema) []) as [issues Hnull].
    rewrite Hnull in Hfirst. discriminate.
  - destruct (truthy data); [|exact Hfirst].
    exact (strict_revalidation schema raw data Hfree Hwf Hfirst).
Qed.

(** X29.  For an endpoint whose declared schemas have no transform
    (each key declared once) and whose body, if declared, is registered
    with the route (the method is not GET), the second validation
    changes nothing: a request that passes the validation of the
    framework and the hook passes the parses of the route handler, and
    the handler is called with, for each declared part, the data the
    framework parsed from the raw part. *)
Theorem transform_free_request_reaches_handler :
  forall serverConfig endpointConfig request w validated admitted pre,
    (forall part schema,
        declaredPart endpointConfig part = Some schema ->
        transformFree schema = true /\ wellFormed schema = true) ->
    (isGET (method endpointConfig) = true -> body endpointConfig = None) ->
    snd (validate (routeSchema endpointConfig) request) = Passed validated ->
    passesHook serverConfig endpointConfig validated admitted pre ->
    exists vq vb vp,
      validatesTo endpointConfig admitted vq vb vp
      /\ In (EvHandlerCall (typedRequestOf admitted vq vb vp))
            (stepsOf (handleRequest (createEndpoint serverConfig endpointConfig)
                        request) w)
      /\ (forall part schema,
            declaredPart endpointConfig part = Some schema ->
            frameworkResult (routeSchema endpointConfig) request part
            = SafeParseSuccess
                (rawPart (typedRequestOf admitted vq vb vp) part)).
Proof.
  intros srv ep req w validated admitted pre Hschemas Hget Hpassed Hhook.
  destruct (passesHook_steps _ _ _ _ _ Hhook) as (_ & _ & _ & Hparts & _).
  assert (Hpart : forall part,
             exists data,
               partResult (declaredPart ep part) (rawPart admitted part)
                 = SafeParseSuccess data
               /\ forall schema, declaredPart ep part = Some schema ->
                    frameworkResult (routeSchema ep) req part
                    = SafeParseSuccess data).
  { intros part. rewrite Hparts.
    destruct (validate_spec (routeSchema ep) req)
      as [(failing & issues & Hvalidate & _) | (validated' & Hvalidate & Hall & _)];
      rewrite Hvalidate in Hpassed; cbn [snd] in Hpassed; [discriminate|].
    injection Hpassed as <-.
    destruct (Hall part) as (data & Hdata & Hraw).
    destruct (declaredPart ep part) as [schema|] eqn:Hdeclared.
    2:{ exists VUndefined. split; [reflexivity | discriminate]. }
    destruct (Hschemas part schema Hdeclared) as [Hfree Hwf].
    assert (Hregistered : registeredSchema (routeSchema ep) part
                          = Some (applyStrict schema)).
    { destruct part; cbn in Hdeclared |- *; rewrite Hdeclared; try reflexivity.
      destruct (isGET (method ep)) eqn:Hmethod; [|reflexivity].
      rewrite (Hget eq_refl) in Hdeclared. discriminate. }
    unfold frameworkResult in Hdata |- *. rewrite Hregistered in Hdata, Hraw |- *.
    exists data. split.
    - rewrite Hraw. cbn [partResult].
      exact (second_parse_agrees schema _ data Hfree Hwf Hdata).
    - intros schema' Heq. exact Hdata. }
  destruct (Hpart PQuery) as (vq & Hq & Hfq).
  destruct (Hpart PBody) as (vb & Hb & Hfb).
  destruct (Hpart PParams) as (vp & Hp & Hfp).
  exists vq, vb, vp.
  assert (Hvalid : validatesTo ep admitted vq vb vp) by (repeat split; assumption).
  split; [exact Hvalid|]. split.
  - rewrite (handleRequest_reaches_steps _ _ _ w _ _ _ Hpassed Hhook).
    apply in_or_app. right. apply in_or_app. right. apply in_or_app. left.
    exact (handler_called_when_valid ep admitted _ vq vb vp Hvalid).
  - intros [] schema Hdeclared; cbn [rawPart typedRequestOf r_query r_body r_params];
      eauto.
Qed.
End DoubleValidation.

Lemma handler_exceptions_are_mapped_once_witness :
  fst (validatedHandler getUser (getUserRequest None "999") world0)
    = Normal (Replied 404
                {| statusCode := 404; error := "Not Found";
                   payloadMessage := "User not found"; payloadDetails := None |})
  /\ fst (validatedHandler getUser (getUserRequest None "0") world0)
     = Throws (OtherError "Error" "boom")
  /\ List.length
       (filter isHandlerCall
          (stepsOf (validatedHandler getUser (getUserRequest None "0")) world0))
     = 1.
Proof.
  split; [|split].
  - exact (proj1 (proj1 (handler_exceptions_are_mapped_once getUser
                    (getUserRequest None "999") world0
                    VUndefined VUndefined (VObj [("id", VStr "999")])
                    (NotFoundError "User not found") 1 None
                    (conj eq_refl (conj eq_refl eq_refl)) eq_refl))).
  - exact (proj1 (proj1 (handler_exceptions_are_mapped_once getUser
                    (getUserRequest None "0") world0
                    VUndefined VUndefined (VObj [("id", VStr "0")])
                    (OtherError "Error" "boom") 1 None
                    (conj eq_refl (conj eq_refl eq_refl)) eq_refl))).
  - exact (proj1 (proj2 (handler_exceptions_are_mapped_once getUser
                    (getUserRequest None "0") world0
                    VUndefined VUndefined (VObj [("id", VStr "0")])
                    (OtherError "Error" "boom") 1 None
                    (conj eq_refl (conj eq_refl eq_refl)) eq_refl))).
Defined.

(** [GET /users/999] with the secret: the 404 of the handler's error. *)
Lemma handler_exceptions_at_the_route_witness :
  fst (handleRequest (createEndpoint secretServer getUser)
         (getUserRequest (Some "Bearer secret-token") "999") world0)
  = Normal (Transmitted 404
              (VObj [("statusCode", VNum 404); ("error", VStr "Not Found");
                     ("message", VStr "User not found")])).
Proof.
  assert (Hpassed : snd (validate (routeSchema getUser)
                           (getUserRequest (Some "Bearer secret-token") "999"))
                    = Passed (getUserRequest (Some "Bearer secret-token") "999"))
    by reflexivity.
  assert (Hhook : passesHook secretServer getUser
                    (getUserRequest (Some "Bearer secret-token") "999")
                    (getUserRequest (Some "Bearer secret-token") "999")
                    [EvAuthCheck]).
  { exists "secret-token". repeat split; reflexivity. }
  exact (handler_exceptions_at_the_route secretServer getUser
           (getUserRequest (Some "Bearer secret-token") "999") world0 _ _ _
           VUndefined VUndefined (VObj [("id", VStr "999")])
           (NotFoundError "User not found") 1
           Hpassed Hhook (conj eq_refl (conj eq_refl eq_refl)) eq_refl).
Defined.


(** [GET /users] without a query: the handler receives the default. *)
Lemma validated_values_reach_handler_and_revalidate_witness :
  r_query listUsersRequest = VObj []
  /\ In (EvHandlerCall
           (typedRequestOf listUsersRequest
              (VObj [("limit", VStr "10")]) VUndefined VUndefined))
        (stepsOf (validatedHandler listUsers listUsersRequest) world0)
  /\ partResult (query listUsers) (VObj [("limit", VStr "10")])
     = SafeParseSuccess (VObj [("limit", VStr "10")]).
Proof.
  destruct (validated_values_reach_handler_and_revalidate nat listUsers
              listUsersRequest world0
              (VObj [("limit", VStr "10")]) VUndefined VUndefined
              (conj eq_refl (conj eq_refl eq_refl))) as (Hcall & _ & Hagain).
  split; [reflexivity|]. split; [exact Hcall|].
  exact (Hagain PQuery
           (ZodObject [("limit", ZodDefault (ZodString None) (VStr "10"))] Strip)
           eq_refl eq_refl eq_refl).
Defined.

(** [GET /users] without a query, at the route: the framework fills in
    the default, the route handler parses the filled query again, and
    the handler receives it. *)
Lemma transform_free_request_reaches_handler_witness :
  exists vq vb vp,
    validatesTo listUsers
      (setPart listUsersRequest PQuery (VObj [("limit", VStr "10")])) vq vb vp
    /\ In (EvHandlerCall
             (typedRequestOf
                (setPart listUsersRequest PQuery (VObj [("limit", VStr "10")]))
                vq vb vp))
          (stepsOf (handleRequest (createEndpoint secretServer listUsers)
                      listUsersRequest) world0)
    /\ (forall part schema,
          declaredPart listUsers part = Some schema ->
          frameworkResult (routeSchema listUsers) listUsersRequest part
          = SafeParseSuccess
              (rawPart
                 (typedRequestOf
                    (setPart listUsersRequest PQuery (VObj [("limit", VStr "10")]))
                    vq vb vp)
                 part)).
Proof.
  assert (Hschemas : forall part schema,
             declaredPart listUsers part = Some schema ->
             transformFree schema = true /\ wellFormed schema = true).
  { intros [] schema Hdeclared; cbn in Hdeclared; try discriminate.
    injection Hdeclared as <-. split; reflexivity. }
  assert (Hpassed : snd (validate (routeSchema listUsers) listUsersRequest)
                    = Passed (setPart listUsersRequest PQuery
                                (VObj [("limit", VStr "10")]))) by reflexivity.
  assert (Hhook : passesHook secretServer listUsers
                    (setPart listUsersRequest PQuery (VObj [("limit", VStr "10")]))
                    (setPart listUsersRequest PQuery (VObj [("limit", VStr "10")]))
                    []) by (split; reflexivity).
  exact (transform_free_request_reaches_handler secretServer listUsers
           listUsersRequest world0 _ _ _ Hschemas (fun _ => eq_refl) Hpassed Hhook).
Defined.
